(** * Wall-clock converter of the time-tools component

    A shallow embedding of [src/components/TimeTools.tsx]: the parser
    [parseIsoLocal], the two conversion directions [localStringToDate] and
    [dateToLocalString], the label derivation [getAbbreviation], and the
    meeting-planner handlers with the time-zone effect.

    ECMAScript built-ins the component calls ([String.prototype.split],
    [Number], [parseInt], [Date.UTC], [new Date]) are written out on the
    integer fragment of JS numbers.  The host's [Intl.DateTimeFormat] is the
    one external collaborator: it is a parameter of every definition that
    formats, so that each result holds for whatever formatter the platform
    supplies. *)

From Stdlib Require Import ZArith List String Ascii Bool Lia.
Import ListNotations.

Open Scope string_scope.
Open Scope Z_scope.

(** ** JS values *)

Module JS.

(** A JS number on the integer fragment: [None] is [NaN].  Arithmetic is
    exact, as the arithmetic of doubles is while every operand and result is
    an integer below 2^53 in magnitude: the calendar fields of a
    date-and-time input and the time values (at most 8.64e15) are.  Numbers
    of sixteen digits and more, which doubles round, are outside the
    fragment. *)
Definition num := option Z.

Definition NaN : num := None.

(** A value that may be [undefined] (a missing array element). *)
Inductive value :=
| Undefined
| Num (n : num).

Definition ToNumber (v : value) : num :=
  match v with
  | Undefined => NaN
  | Num n => n
  end.

Definition sub (a b : num) : num :=
  match a, b with
  | Some x, Some y => Some (x - y)
  | _, _ => NaN
  end.

Definition add (a b : num) : num :=
  match a, b with
  | Some x, Some y => Some (x + y)
  | _, _ => NaN
  end.

(** [Math.abs(x) < bound]; a comparison with [NaN] is false. *)
Definition abs_lt (x : num) (bound : Z) : bool :=
  match x with
  | Some v => Z.abs v <? bound
  | None => false
  end.

(** [x === k] for a number [x] and an integer literal [k]. *)
Definition strict_eq (x : num) (k : Z) : bool :=
  match x with
  | Some v => v =? k
  | None => false
  end.

Inductive error :=
| RangeError
| TypeError.

(** Completion of a call: a value, or a thrown exception. *)
Inductive result (A : Type) :=
| Ok (a : A)
| Throw (e : error).

Arguments Ok {A} a.
Arguments Throw {A} e.

Definition bind {A B : Type} (r : result A) (k : A -> result B) : result B :=
  match r with
  | Ok a => k a
  | Throw e => Throw e
  end.

(** *** Strings *)

(** [s.split(sep)] for a one-character separator: the pieces between the
    occurrences of [sep]; a string without [sep] is its own single piece. *)
Fixpoint split (sep : ascii) (s : string) : list string :=
  match s with
  | EmptyString => [EmptyString]
  | String c r =>
      if Ascii.eqb c sep then EmptyString :: split sep r
      else match split sep r with
           | h :: t => String c h :: t
           | [] => [String c EmptyString]
           end
  end.

(** [!s] for a possibly-undefined string: [undefined] and [''] are falsy. *)
Definition falsy (o : option string) : bool :=
  match o with
  | None => true
  | Some s => String.eqb s ""
  end.

(** [a || b] on strings. *)
Definition or_else (o : option string) (dflt : string) : string :=
  if falsy o then dflt else match o with Some s => s | None => dflt end.

Definition is_digit (c : ascii) : bool :=
  let n := nat_of_ascii c in (48 <=? n)%nat && (n <=? 57)%nat.

Definition digit_val (c : ascii) : Z := Z.of_nat (nat_of_ascii c) - 48.

(** White space of [StrWhiteSpaceChar] inside ASCII: TAB, LF, VT, FF, CR, SP. *)
Definition is_space (c : ascii) : bool :=
  let n := nat_of_ascii c in
  ((9 <=? n)%nat && (n <=? 13)%nat) || (n =? 32)%nat.

Fixpoint trim_left (s : string) : string :=
  match s with
  | String c r => if is_space c then trim_left r else s
  | EmptyString => EmptyString
  end.

Fixpoint trim_right (s : string) : string :=
  match s with
  | String c r =>
      match trim_right r with
      | EmptyString => if is_space c then EmptyString else String c EmptyString
      | r' => String c r'
      end
  | EmptyString => EmptyString
  end.

Definition trim (s : string) : string := trim_right (trim_left s).

(** Value of a run of decimal digits read left to right, and what follows. *)
Fixpoint read_digits (s : string) (acc : Z) : Z * string :=
  match s with
  | String c r =>
      if is_digit c then read_digits r (acc * 10 + digit_val c) else (acc, s)
  | EmptyString => (acc, EmptyString)
  end.

Definition starts_with_digit (s : string) : bool :=
  match s with
  | String c _ => is_digit c
  | EmptyString => false
  end.

Definition read_sign (s : string) : Z * string :=
  match s with
  | String "-"%char r => (-1, r)
  | String "+"%char r => (1, r)
  | _ => (1, s)
  end.

(** [Number(s)] on the integer fragment: white space is trimmed, the empty
    string is [0], and a signed run of decimal digits is its value.  A string
    that spells no number is [NaN].  Strings that spell a fraction, an
    exponent, a hexadecimal, octal or binary literal or an infinity are
    outside the fragment: a date-and-time field produces none of them, and
    the [NaN] given here for them is not what [Number] returns.  What is
    proved of a [NaN] field is proved of fields that are missing
    ([undefined]) or spell no number at all. *)
Definition Number (s : string) : num :=
  let t := trim s in
  if String.eqb t "" then Some 0
  else
    let '(sg, body) := read_sign t in
    if starts_with_digit body then
      match read_digits body 0 with
      | (v, EmptyString) => Some (sg * v)
      | (_, String _ _) => NaN
      end
    else NaN.

(** [parseInt(s, 10)]: leading white space and a sign are skipped, the
    longest prefix of digits is read, and no digit at all gives [NaN]. *)
Definition parseInt (s : string) : num :=
  let '(sg, body) := read_sign (trim_left s) in
  if starts_with_digit body then Some (sg * fst (read_digits body 0))
  else NaN.

(** *** Dates (ECMA-262, Date objects) *)

Definition msPerDay : Z := 86400000.
Definition msPerHour : Z := 3600000.
Definition msPerMinute : Z := 60000.
Definition maxTime : Z := 8640000000000000.

(** Day number (days since 1970-01-01) of the first day of month [mn]
    (0-based, [0 <= mn < 12]) of year [ym] in the proleptic Gregorian
    calendar: the time value [MakeDay] looks for. *)
Definition day_of_month_start (ym mn : Z) : Z :=
  let m := mn + 1 in
  let y := if m <=? 2 then ym - 1 else ym in
  let era := y / 400 in
  let yoe := y - era * 400 in
  let mp := if 2 <? m then m - 3 else m + 9 in
  let doy := (153 * mp + 2) / 5 in
  let doe := yoe * 365 + yoe / 4 - yoe / 100 + doy in
  era * 146097 + doe - 719468.

(** [MakeDay]; a day too far out for a time value is left to [TimeClip]. *)
Definition MakeDay (year month date : num) : num :=
  match year, month, date with
  | Some y, Some m, Some dt =>
      let ym := y + m / 12 in
      let mn := m mod 12 in
      Some (day_of_month_start ym mn + dt - 1)
  | _, _, _ => NaN
  end.

Definition MakeTime (hour min sec ms : num) : num :=
  match hour, min, sec, ms with
  | Some h, Some m, Some s, Some milli =>
      Some (h * msPerHour + m * msPerMinute + s * 1000 + milli)
  | _, _, _, _ => NaN
  end.

Definition MakeDate (day time : num) : num :=
  match day, time with
  | Some dy, Some tm => Some (dy * msPerDay + tm)
  | _, _ => NaN
  end.

Definition TimeClip (time : num) : num :=
  match time with
  | Some t => if maxTime <? Z.abs t then NaN else Some t
  | None => NaN
  end.

Definition MakeFullYear (year : num) : num :=
  match year with
  | Some y => if (0 <=? y) && (y <=? 99) then Some (1900 + y) else Some y
  | None => NaN
  end.

(** [Date.UTC(year, month, date, hours, minutes)] with all five arguments
    passed, as the component always does; seconds and milliseconds are [0]. *)
Definition Date_UTC (year month date hours minutes : value) : num :=
  let y := ToNumber year in
  let m := ToNumber month in
  let dt := ToNumber date in
  let h := ToNumber hours in
  let mi := ToNumber minutes in
  let yr := MakeFullYear y in
  TimeClip (MakeDate (MakeDay yr m dt) (MakeTime h mi (Some 0) (Some 0))).

(** A Date object is its time value; [NaN] is the Invalid Date. *)
Record Date := mkDate { getTime : num }.

(** [new Date(value)] for a number. *)
Definition new_Date (v : num) : Date := mkDate (TimeClip v).

(** *** Intl.DateTimeFormat *)

(** The option bag passed to the constructor; an absent key is [None]. *)
Record DateTimeFormatOptions := mkOptions {
  timeZone : option string;
  year : option string;
  month : option string;
  day : option string;
  hour : option string;
  minute : option string;
  second : option string;
  hour12 : option bool;
  timeZoneName : option string
}.

Definition no_options : DateTimeFormatOptions :=
  mkOptions None None None None None None None None None.

(** One element of [formatToParts]'s result. *)
Record part := mkPart { type : string; value_of : string }.

(** [parts.find(p => p.type === t)?.value] *)
Fixpoint find_value (t : string) (parts : list part) : option string :=
  match parts with
  | [] => None
  | p :: rest => if String.eqb (type p) t then Some (value_of p)
                 else find_value t rest
  end.

(** The host's formatter: which zone identifiers it resolves, and the parts
    it produces for a locale, an option bag and a valid time value. *)
Record Formatter := mkFormatter {
  resolves : string -> bool;
  parts_of : string -> DateTimeFormatOptions -> Z -> list part
}.

Definition zone_ok (F : Formatter) (o : DateTimeFormatOptions) : bool :=
  match timeZone o with
  | Some z => resolves F z
  | None => true
  end.

(** [new Intl.DateTimeFormat(locale, options).formatToParts(date)]: the
    constructor throws a RangeError for a zone it cannot resolve, and
    [formatToParts] throws a RangeError for the Invalid Date. *)
Definition formatToParts (F : Formatter) (locale : string)
    (o : DateTimeFormatOptions) (d : Date) : result (list part) :=
  if zone_ok F o then
    match getTime d with
    | Some t => Ok (parts_of F locale o t)
    | None => Throw RangeError
    end
  else Throw RangeError.

End JS.

Import JS.

(** ** The component *)

Module TimeTools.

Notation "x <- e ;; k" := (bind e (fun x => k))
  (at level 61, e at next level, right associativity).

(** The object [parseIsoLocal] returns: [{ y, mon, d, h, min }]. *)
Record IsoLocal := mkIso {
  c_y : value;
  c_mon : value;
  c_d : value;
  c_h : value;
  c_min : value
}.

(** Element [i] of an array after a destructuring pattern. *)
Definition element (l : list num) (i : nat) : value :=
  match nth_error l i with
  | Some n => Num n
  | None => Undefined
  end.

(** Helper: parse "YYYY-MM-DDTHH:mm" to components; [None] is [null]. *)
Definition parseIsoLocal (s : string) : option IsoLocal :=
  if String.eqb s "" then None
  else
    let pieces := split "T" s in
    let date := nth_error pieces 0 in
    let time := nth_error pieces 1 in
    if falsy date || falsy time then None
    else
      match date, time with
      | Some date, Some time =>
          let ymd := map Number (split "-" date) in
          let hm := map Number (split ":" time) in
          Some {| c_y := element ymd 0;
                  c_mon := Num (sub (ToNumber (element ymd 1)) (Some 1));
                  c_d := element ymd 2;
                  c_h := element hm 0;
                  c_min := element hm 1 |}
      | _, _ => None
      end.

(** Options of the formatter inside [localStringToDate]. *)
Definition numericOptions (zone : string) : DateTimeFormatOptions :=
  {| timeZone := Some zone;
     year := Some "numeric"; month := Some "numeric"; day := Some "numeric";
     hour := Some "numeric"; minute := Some "numeric";
     second := Some "numeric";
     hour12 := Some false; timeZoneName := None |}.

(** [partVal]: the named part read as a decimal integer, ['0'] when absent. *)
Definition partVal (parts : list part) (t : string) : num :=
  parseInt (or_else (find_value t parts) "0").

(** The hour read from the parts inside the loop: [gh], after
    [if (gh === 24) gh = 0]. *)
Definition guessHour (parts : list part) : num :=
  let gh := partVal parts "hour" in
  if strict_eq gh 24 then Some 0 else gh.

(** [guessTime]: the observed fields read back as if they were UTC. *)
Definition guessTime (parts : list part) : num :=
  let gy := partVal parts "year" in
  let gm := sub (partVal parts "month") (Some 1) in
  let gd := partVal parts "day" in
  let gh := guessHour parts in
  let gmin := partVal parts "minute" in
  Date_UTC (Num gy) (Num gm) (Num gd) (Num gh) (Num gmin).

Definition desiredTime (c : IsoLocal) : num :=
  Date_UTC (c_y c) (c_mon c) (c_d c) (c_h c) (c_min c).

(** The body of [for (let i = 0; i < 3; i++)], with [n] the number of
    iterations still allowed: [break] returns the current guess, and so does
    running out of iterations. *)
Fixpoint converge (F : Formatter) (zone : string) (c : IsoLocal)
    (n : nat) (guess : Date) : result Date :=
  match n with
  | O => Ok guess
  | S n' =>
      parts <- formatToParts F "en-US" (numericOptions zone) guess ;;
      let diff := sub (desiredTime c) (guessTime parts) in
      if abs_lt diff 1000 then Ok guess
      else converge F zone c n' (new_Date (add (getTime guess) diff))
  end.

(** Helper: convert local wall clock string -> absolute Date object. *)
Definition localStringToDate (F : Formatter) (s zone : string)
    : result (option Date) :=
  match parseIsoLocal s with
  | None => Ok None
  | Some c =>
      let guess := new_Date (desiredTime c) in
      g <- converge F zone c 3 guess ;;
      Ok (Some g)
  end.

(** Options of the formatter inside [dateToLocalString]. *)
Definition twoDigitOptions (zone : string) : DateTimeFormatOptions :=
  {| timeZone := Some zone;
     year := Some "numeric"; month := Some "2-digit"; day := Some "2-digit";
     hour := Some "2-digit"; minute := Some "2-digit";
     second := None;
     hour12 := Some false; timeZoneName := None |}.

(** The template string of [dateToLocalString]. *)
Definition localTemplate (parts : list part) : string :=
  let get t := or_else (find_value t parts) "00" in
  get "year" ++ "-" ++ get "month" ++ "-" ++ get "day"
    ++ "T" ++ get "hour" ++ ":" ++ get "minute".

(** Helper: convert absolute Date object -> local wall clock string; the
    [catch] clause returns the empty string. *)
Definition dateToLocalString (F : Formatter) (d : Date) (zone : string)
    : string :=
  match formatToParts F "en-GB" (twoDigitOptions zone) d with
  | Ok parts => localTemplate parts
  | Throw _ => ""
  end.

(** *** Abbreviation *)

Definition nameOptions (zone style : string) : DateTimeFormatOptions :=
  {| timeZone := Some zone;
     year := None; month := None; day := None;
     hour := None; minute := None; second := None;
     hour12 := None; timeZoneName := Some style |}.

(** The local [formatter] of [getAbbreviation]: the [timeZoneName] part for
    a style, or [''] when there is none. *)
Definition formatter (F : Formatter) (date : Date) (zone style : string)
    : result string :=
  parts <- formatToParts F "en-US" (nameOptions zone style) date ;;
  Ok (or_else (find_value "timeZoneName" parts) "").

Definition prefix_of (p s : string) : bool := String.prefix p s.

(** [/^GMT[+-]/.test(s) || /^UTC[+-]/.test(s)] *)
Definition isOffsetLike (s : string) : bool :=
  (prefix_of "GMT+" s || prefix_of "GMT-" s)
  || (prefix_of "UTC+" s || prefix_of "UTC-" s).

Definition is_upper (c : ascii) : bool :=
  let n := nat_of_ascii c in (65 <=? n)%nat && (n <=? 90)%nat.

Definition is_lower (c : ascii) : bool :=
  let n := nat_of_ascii c in (97 <=? n)%nat && (n <=? 122)%nat.

(** A word character of a regular expression: [[A-Za-z0-9_]]. *)
Definition is_word (c : ascii) : bool :=
  is_upper c || is_lower c || is_digit c || Ascii.eqb c "_".

(** The matches of [/\b([A-Z])/g] joined: every capital letter that starts
    the string or follows a non-word character.  [after_word] tells whether
    the previous character was a word character. *)
Fixpoint initials (after_word : bool) (s : string) : string :=
  match s with
  | EmptyString => EmptyString
  | String c r =>
      if is_upper c && negb after_word then String c (initials true r)
      else initials (is_word c) r
  end.

(** [longName.match(/\b([A-Z])/g)?.join('')]: [None] when nothing matches. *)
Definition acronym_of (longName : string) : option string :=
  match initials false longName with
  | EmptyString => None
  | a => Some a
  end.

Definition strlen (s : string) : Z := Z.of_nat (String.length s).

Definition getAbbreviation (F : Formatter) (date : Date) (zone : string)
    : string :=
  let body :=
    shortName <- formatter F date zone "short" ;;
    offset <- (o <- formatter F date zone "shortOffset" ;;
               if String.eqb o "" then formatter F date zone "longOffset"
               else Ok o) ;;
    abbreviation <-
      (if isOffsetLike shortName then
         longName <- formatter F date zone "long" ;;
         if String.eqb longName "" then Ok shortName
         else match acronym_of longName with
              | Some acronym =>
                  if (2 <=? strlen acronym) && (strlen acronym <=? 5)
                  then Ok acronym else Ok shortName
              | None => Ok shortName
              end
       else Ok shortName) ;;
    if isOffsetLike abbreviation then Ok abbreviation
    else if String.eqb abbreviation offset then Ok abbreviation
    else Ok (abbreviation ++ " (" ++ offset ++ ")")
  in
  match body with
  | Ok label => label
  | Throw _ => ""
  end.

(** *** Meeting planner state *)

Inductive Side := user | client.

Record State := mkState {
  userMeetingTime : string;
  clientMeetingTime : string;
  lastEdited : Side
}.

Record Props := mkProps {
  userTimezone : string;
  clientTimezone : string
}.

Definition setUserMeetingTime (v : string) (st : State) : State :=
  {| userMeetingTime := v;
     clientMeetingTime := clientMeetingTime st;
     lastEdited := lastEdited st |}.

Definition setClientMeetingTime (v : string) (st : State) : State :=
  {| userMeetingTime := userMeetingTime st;
     clientMeetingTime := v;
     lastEdited := lastEdited st |}.

Definition setLastEdited (s : Side) (st : State) : State :=
  {| userMeetingTime := userMeetingTime st;
     clientMeetingTime := clientMeetingTime st;
     lastEdited := s |}.

(** A handler run: the state with the updates made so far, and how the
    handler completed. *)
Definition run := (State * result unit)%type.

Definition handleUserTimeChange (F : Formatter) (p : Props) (val : string)
    (st : State) : run :=
  let st := setUserMeetingTime val st in
  let st := setLastEdited user st in
  if negb (String.eqb val "") then
    match localStringToDate F val (userTimezone p) with
    | Ok (Some absDate) =>
        (setClientMeetingTime
           (dateToLocalString F absDate (clientTimezone p)) st, Ok tt)
    | Ok None => (st, Ok tt)
    | Throw e => (st, Throw e)
    end
  else (setClientMeetingTime "" st, Ok tt).

Definition handleClientTimeChange (F : Formatter) (p : Props) (val : string)
    (st : State) : run :=
  let st := setClientMeetingTime val st in
  let st := setLastEdited client st in
  if negb (String.eqb val "") then
    match localStringToDate F val (clientTimezone p) with
    | Ok (Some absDate) =>
        (setUserMeetingTime
           (dateToLocalString F absDate (userTimezone p)) st, Ok tt)
    | Ok None => (st, Ok tt)
    | Throw e => (st, Throw e)
    end
  else (setUserMeetingTime "" st, Ok tt).

Definition is_user (s : Side) : bool :=
  match s with user => true | client => false end.

Definition is_client (s : Side) : bool :=
  match s with client => true | user => false end.

(** The effect that reacts to time-zone changes. *)
Definition timezoneEffect (F : Formatter) (p : Props) (st : State) : run :=
  if is_user (lastEdited st) && negb (String.eqb (userMeetingTime st) "")
  then
    match localStringToDate F (userMeetingTime st) (userTimezone p) with
    | Ok (Some absDate) =>
        (setClientMeetingTime
           (dateToLocalString F absDate (clientTimezone p)) st, Ok tt)
    | Ok None => (st, Ok tt)
    | Throw e => (st, Throw e)
    end
  else if is_client (lastEdited st)
          && negb (String.eqb (clientMeetingTime st) "")
  then
    match localStringToDate F (clientMeetingTime st) (clientTimezone p) with
    | Ok (Some absDate) =>
        (setUserMeetingTime
           (dateToLocalString F absDate (userTimezone p)) st, Ok tt)
    | Ok None => (st, Ok tt)
    | Throw e => (st, Throw e)
    end
  else (st, Ok tt).

(** What the user can do to the planner. *)
Inductive action :=
| UserTimeChange (val : string)
| ClientTimeChange (val : string)
| SetUserTimezone (tz : string)
| SetClientTimezone (tz : string).

Definition and_then (r : run) (k : State -> run) : run :=
  match r with
  | (st, Ok _) => k st
  | (st, Throw e) => (st, Throw e)
  end.

(** One user action followed by the render it causes: an edit runs its
    handler and then the effect (its dependencies changed); a zone change
    updates the props and runs the effect. *)
Definition dispatch (F : Formatter) (p : Props) (st : State) (a : action)
    : Props * run :=
  match a with
  | UserTimeChange val =>
      (p, and_then (handleUserTimeChange F p val st) (timezoneEffect F p))
  | ClientTimeChange val =>
      (p, and_then (handleClientTimeChange F p val st) (timezoneEffect F p))
  | SetUserTimezone tz =>
      let p' := {| userTimezone := tz; clientTimezone := clientTimezone p |} in
      (p', timezoneEffect F p' st)
  | SetClientTimezone tz =>
      let p' := {| userTimezone := userTimezone p; clientTimezone := tz |} in
      (p', timezoneEffect F p' st)
  end.

End TimeTools.

Import TimeTools.

(** ** A reference formatter

    A Zone-Aware Formatter computed from an offset table: the calendar
    fields an instant displays in a zone are the proleptic Gregorian fields
    of the instant shifted by the zone's offset at that instant. *)

Module Reference.

(** Civil date of a day number: year, month (1-12), day of month. *)
Definition civil_from_days (z : Z) : Z * Z * Z :=
  let z := z + 719468 in
  let era := z / 146097 in
  let doe := z mod 146097 in
  let yoe := (doe - doe / 1460 + doe / 36524 - doe / 146096) / 365 in
  let doy := doe - (365 * yoe + yoe / 4 - yoe / 100) in
  let mp := (5 * doy + 2) / 153 in
  let d := doy - (153 * mp + 2) / 5 + 1 in
  let m := if mp <? 10 then mp + 3 else mp - 9 in
  let y := yoe + era * 400 + (if m <=? 2 then 1 else 0) in
  (y, m, d).

(** The fields of a local time in milliseconds. *)
Record fields := mkFields {
  f_year : Z; f_month : Z; f_day : Z;
  f_hour : Z; f_minute : Z; f_second : Z
}.

Definition fields_of (x : Z) : fields :=
  let '(y, m, d) := civil_from_days (x / msPerDay) in
  let r := x mod msPerDay in
  {| f_year := y; f_month := m; f_day := d;
     f_hour := r / msPerHour;
     f_minute := (r mod msPerHour) / msPerMinute;
     f_second := (r mod msPerMinute) / 1000 |}.

Definition digit_char (n : Z) : ascii := ascii_of_nat (Z.to_nat (48 + n)).

(** Decimal digits of [n >= 0], most significant first, in front of [acc]. *)
Fixpoint show_digits (fuel : nat) (n : Z) (acc : string) : string :=
  match fuel with
  | O => acc
  | S f =>
      let acc' := String (digit_char (n mod 10)) acc in
      if n <? 10 then acc' else show_digits f (n / 10) acc'
  end.

Definition show (n : Z) : string := show_digits 20 n "".

Definition pad2 (n : Z) : string :=
  if n <? 10 then String "0" (show n) else show n.

(** A zone of the table: its offset from UTC in milliseconds at an instant,
    and its display names at an instant for the four name styles. *)
Record zone := mkZone {
  offset_at : Z -> Z;
  short_name : Z -> string;
  long_name : Z -> string
}.

Definition table := string -> option zone.

(** ["GMT"], ["GMT+5:30"], ["GMT-5"]: the [shortOffset] style. *)
Definition shortOffset (off : Z) : string :=
  let mins := Z.abs off / msPerMinute in
  let hh := mins / 60 in
  let mm := mins mod 60 in
  if off =? 0 then "GMT"
  else "GMT" ++ (if off <? 0 then "-" else "+") ++ show hh
         ++ (if mm =? 0 then "" else ":" ++ pad2 mm).

(** ["GMT"], ["GMT+05:30"], ["GMT-05:00"]: the [longOffset] style. *)
Definition longOffset (off : Z) : string :=
  let mins := Z.abs off / msPerMinute in
  if off =? 0 then "GMT"
  else "GMT" ++ (if off <? 0 then "-" else "+") ++ pad2 (mins / 60)
         ++ ":" ++ pad2 (mins mod 60).

Definition styled (style : option string) (n : Z) : list string :=
  match style with
  | None => []
  | Some st => if String.eqb st "2-digit" then [pad2 (n mod 100)] else [show n]
  end.

Definition field_part (t : string) (style : option string) (n : Z)
    : list part :=
  map (mkPart t) (styled style n).

Definition literal (s : string) : part := mkPart "literal" s.

(** The hour a formatter displays on the 24-hour clock.  With [h24] the
    hours of a day are counted 1-24 and midnight is shown as 24. *)
Definition shown_hour (h24 : bool) (h : Z) : Z :=
  if h24 && (h =? 0) then 24 else h.

(** ["en-GB"] counts the hours of a day 0-23; the other locales of this
    host, ["en-US"] among them, use the 12-hour clock. *)
Definition twelve_hour_locale (locale : string) : bool :=
  negb (String.eqb locale "en-GB").

(** [hour12] chooses the clock; left out, the locale does. *)
Definition twelve_hour_clock (locale : string) (o : DateTimeFormatOptions)
    : bool :=
  match hour12 o with
  | Some b => b
  | None => twelve_hour_locale locale
  end.

(** The hour part.  On the 12-hour clock the hours run 12, 1, ..., 11.  On
    the 24-hour clock only a 12-hour locale asked for [hour12: false] can
    show midnight as 24 (a host with [h24]); ["en-GB"] shows 00-23 on every
    host. *)
Definition hour_number (h24 : bool) (locale : string)
    (o : DateTimeFormatOptions) (h : Z) : Z :=
  if twelve_hour_clock locale o then (h + 11) mod 12 + 1
  else shown_hour (twelve_hour_locale locale && h24) h.

Definition day_period (locale : string) (o : DateTimeFormatOptions) (h : Z)
    : list part :=
  match hour o with
  | None => []
  | Some _ =>
      if twelve_hour_clock locale o
      then [mkPart "dayPeriod" (if h <? 12 then "AM" else "PM")]
      else []
  end.

(** The groups of parts that are there, with the literal [sep] between
    them. *)
Fixpoint separated (sep : string) (groups : list (list part)) : list part :=
  match groups with
  | [] => []
  | g :: more =>
      match g, separated sep more with
      | [], rest => rest
      | _, [] => g
      | _, rest => g ++ literal sep :: rest
      end
  end.

Definition name_part (zn : zone) (t : Z) (style : option string) : list part :=
  match style with
  | None => []
  | Some st =>
      [mkPart "timeZoneName"
         (if String.eqb st "short" then short_name zn t
          else if String.eqb st "long" then long_name zn t
          else if String.eqb st "longOffset" then longOffset (offset_at zn t)
          else shortOffset (offset_at zn t))]
  end.

Definition utc : zone :=
  mkZone (fun _ => 0) (fun _ => "UTC") (fun _ => "Coordinated Universal Time").

(** The zone of an option bag; the default zone of this host is UTC. *)
Definition zone_of (tb : table) (z : option string) : zone :=
  match z with
  | Some id => match tb id with Some zn => zn | None => utc end
  | None => utc
  end.

(** The parts for a time value, those asked for: the date in
    day-month-year order for ["en-GB"] and month-day-year otherwise, the
    time with minutes and seconds of two digits, the day period on the
    12-hour clock, and the name of the zone. *)
Definition parts (tb : table) (h24 : bool) (locale : string)
    (o : DateTimeFormatOptions) (t : Z) : list part :=
  let zn := zone_of tb (timeZone o) in
  let f := fields_of (t + offset_at zn t) in
  let dd := field_part "day" (day o) (f_day f) in
  let mo := field_part "month" (month o) (f_month f) in
  let yy := field_part "year" (year o) (f_year f) in
  let hh := field_part "hour" (hour o) (hour_number h24 locale o (f_hour f)) in
  let mi := field_part "minute" (option_map (fun _ => "2-digit") (minute o))
              (f_minute f) in
  let ss := field_part "second" (option_map (fun _ => "2-digit") (second o))
              (f_second f) in
  let date := separated "/" (if String.eqb locale "en-GB"
                             then [dd; mo; yy] else [mo; dd; yy]) in
  let time := separated " " [separated ":" [hh; mi; ss];
                             day_period locale o (f_hour f)] in
  separated " " [separated ", " [date; time];
                 name_part zn t (timeZoneName o)].

Definition knows (tb : table) (z : string) : bool :=
  match tb z with Some _ => true | None => false end.

Definition formatter_of (tb : table) (h24 : bool) : Formatter :=
  {| resolves := knows tb; parts_of := parts tb h24 |}.

(** *** A small table *)

Definition hours (n : Z) : Z := n * msPerHour.

Definition fixed (off : Z) (short long : string) : zone :=
  mkZone (fun _ => off) (fun _ => short) (fun _ => long).

(** A zone with one daylight-saving period [[from, to)] (UTC instants). *)
Definition seasonal (std dst : Z) (from to : Z)
    (short_std short_dst long_std long_dst : string) : zone :=
  let summer t := (from <=? t) && (t <? to) in
  mkZone (fun t => if summer t then dst else std)
         (fun t => if summer t then short_dst else short_std)
         (fun t => if summer t then long_dst else long_std).

(** Offsets and 2024 daylight-saving periods of four zones, and a zone
    that has no name but its offset. *)
Definition zones2024 : table := fun z =>
  if String.eqb z "UTC" then
    Some (fixed 0 "UTC" "Coordinated Universal Time")
  else if String.eqb z "Asia/Kolkata" then
    Some (fixed (hours 5 + 30 * msPerMinute) "GMT+5:30" "India Standard Time")
  else if String.eqb z "America/New_York" then
    Some (seasonal (hours (-5)) (hours (-4)) 1710054000000 1730613600000
            "EST" "EDT" "Eastern Standard Time" "Eastern Daylight Time")
  else if String.eqb z "Europe/London" then
    Some (seasonal 0 (hours 1) 1711846800000 1729990800000
            "GMT" "GMT+1" "Greenwich Mean Time" "British Summer Time")
  else if String.eqb z "Etc/GMT+5" then
    Some (fixed (hours (-5)) "GMT-5" "GMT-05:00")
  else None.

Definition host : Formatter := formatter_of zones2024 false.

(** The same host with the 1-24 hour cycle for its 12-hour locales. *)
Definition host24 : Formatter := formatter_of zones2024 true.

End Reference.


(** ** The specification's vocabulary *)

Module Spec.

(** [convert]: renderWallClock after resolveInstant. *)
Definition convert (F : Formatter) (w fromZone toZone : string)
    : result (option string) :=
  i <- localStringToDate F w fromZone ;;
  Ok (option_map (fun d => dateToLocalString F d toZone) i).

(** [convert] there and back again. *)
Definition roundTrip (F : Formatter) (w A B : string)
    : result (option string) :=
  r <- convert F w A B ;;
  match r with
  | Some w' => convert F w' B A
  | None => Ok None
  end.

(** resolveInstant's loop as the specification words it.  [observe g] is
    the reading, taken as if it were UTC, of the fields the provisional
    instant [g] displays in the zone; [desired] is the same reading of the
    wall clock asked for. *)
Fixpoint iterate (observe : Z -> Z) (desired : Z) (bound : nat) (g : Z) : Z :=
  match bound with
  | O => g
  | S k =>
      let delta := desired - observe g in
      if Z.abs delta <? 1000 then g
      else iterate observe desired k (g + delta)
  end.

Definition resolveInstant (observe : Z -> Z) (desired : Z) : Z :=
  iterate observe desired 3 desired.

(** The synchronisation state machine. *)
Inductive AnchorSide := AnchoredOnA | AnchoredOnB.

Record Machine := mkMachine {
  fieldA : string;
  zoneA : string;
  fieldB : string;
  zoneB : string;
  anchor : AnchorSide
}.

Inductive Event :=
| EditA (w : string)
| EditB (w : string)
| ChangeZoneA (z : string)
| ChangeZoneB (z : string).

Definition wall (r : result (option string)) : option string :=
  match r with
  | Ok (Some w) => Some w
  | _ => None
  end.

(** After a zone change the anchored field is held and the other one is
    converted from it. *)
Definition rederive (F : Formatter) (m : Machine) : option Machine :=
  match anchor m with
  | AnchoredOnA =>
      match wall (convert F (fieldA m) (zoneA m) (zoneB m)) with
      | Some b => Some (mkMachine (fieldA m) (zoneA m) b (zoneB m) AnchoredOnA)
      | None => None
      end
  | AnchoredOnB =>
      match wall (convert F (fieldB m) (zoneB m) (zoneA m)) with
      | Some a => Some (mkMachine a (zoneA m) (fieldB m) (zoneB m) AnchoredOnB)
      | None => None
      end
  end.

(** The transitions; [None] where [convert] yields no wall clock. *)
Definition transition (F : Formatter) (m : Machine) (e : Event)
    : option Machine :=
  match e with
  | EditA w =>
      match wall (convert F w (zoneA m) (zoneB m)) with
      | Some b => Some (mkMachine w (zoneA m) b (zoneB m) AnchoredOnA)
      | None => None
      end
  | EditB w =>
      match wall (convert F w (zoneB m) (zoneA m)) with
      | Some a => Some (mkMachine a (zoneA m) w (zoneB m) AnchoredOnB)
      | None => None
      end
  | ChangeZoneA z =>
      rederive F (mkMachine (fieldA m) z (fieldB m) (zoneB m) (anchor m))
  | ChangeZoneB z =>
      rederive F (mkMachine (fieldA m) (zoneA m) (fieldB m) z (anchor m))
  end.

(** How the component stores a machine state: field A is the user's. *)
Definition side_of (a : AnchorSide) : Side :=
  match a with AnchoredOnA => user | AnchoredOnB => client end.

Definition state_of (m : Machine) : State :=
  mkState (fieldA m) (fieldB m) (side_of (anchor m)).

Definition props_of (m : Machine) : Props :=
  mkProps (zoneA m) (zoneB m).

Definition action_of (e : Event) : action :=
  match e with
  | EditA w => UserTimeChange w
  | EditB w => ClientTimeChange w
  | ChangeZoneA z => SetUserTimezone z
  | ChangeZoneB z => SetClientTimezone z
  end.

(** The text before the first occurrence of [x]. *)
Fixpoint before (x : ascii) (s : string) : string :=
  match s with
  | EmptyString => EmptyString
  | String c r => if Ascii.eqb c x then EmptyString else String c (before x r)
  end.

(** The text after the first occurrence of [x], if [x] occurs. *)
Fixpoint after (x : ascii) (s : string) : option string :=
  match s with
  | EmptyString => None
  | String c r => if Ascii.eqb c x then Some r else after x r
  end.

(** The date part of a wall-clock string: what stands before the first
    ['T']. *)
Definition datePart (s : string) : string := before "T" s.

(** The time part: what stands between the first ['T'] and the next one or
    the end; empty when there is no ['T']. *)
Definition timePart (s : string) : string :=
  match after "T" s with
  | Some r => before "T" r
  | None => EmptyString
  end.

(** The string is empty, or has no date part, or has no time part. *)
Definition lacksPart (s : string) : Prop :=
  s = "" \/ datePart s = "" \/ timePart s = "".

(** The zone names the abbreviation is derived from. *)
Definition zoneName (F : Formatter) (t : Z) (zone style : string) : string :=
  or_else (find_value "timeZoneName"
             (parts_of F "en-US" (nameOptions zone style) t)) "".

(** A bare offset: ["GMT"] or ["UTC"] followed by a sign. *)
Definition bareOffset (s : string) : bool :=
  match s with
  | String a (String b (String c (String sg _))) =>
      (String.eqb (String a (String b (String c ""))) "GMT"
       || String.eqb (String a (String b (String c ""))) "UTC")
      && (Ascii.eqb sg "+" || Ascii.eqb sg "-")
  | _ => false
  end.

(** *** The acronym, letter by letter *)

Definition capital (c : ascii) : bool := (("A" <=? c) && (c <=? "Z"))%char.

Definition small (c : ascii) : bool := (("a" <=? c) && (c <=? "z"))%char.

Definition figure (c : ascii) : bool := (("0" <=? c) && (c <=? "9"))%char.

(** A character of a word: a letter, a digit or the underscore. *)
Definition wordChar (c : ascii) : bool :=
  capital c || small c || figure c || (c =? "_")%char.

(** The capital letters of a name, all of them. *)
Fixpoint capitals (s : string) : string :=
  match s with
  | EmptyString => EmptyString
  | String c r => if capital c then String c (capitals r) else capitals r
  end.

(** A capital letter begins a word when no character of a word stands
    before it; [prev] is the character before, if there is one. *)
Definition beginsWord (prev : option ascii) (c : ascii) : bool :=
  capital c
  && match prev with
     | None => true
     | Some p => negb (wordChar p)
     end.

(** The capital letters of a name that begin a word. *)
Fixpoint wordCapitals (prev : option ascii) (s : string) : string :=
  match s with
  | EmptyString => EmptyString
  | String c r =>
      if beginsWord prev c then String c (wordCapitals (Some c) r)
      else wordCapitals (Some c) r
  end.

(** An acronym is accepted with 2 to 5 letters. *)
Definition accepted (a : string) : option string :=
  if (2 <=? Z.of_nat (String.length a)) && (Z.of_nat (String.length a) <=? 5)
  then Some a else None.

(** The abbreviation better than a bare offset, if there is one: the short
    name when it is not a bare offset, else the acronym of the long name,
    made of the capital letters that begin a word, when that has 2 to 5
    letters. *)
Definition betterAbbreviation (short long : string) : option string :=
  if bareOffset short then accepted (wordCapitals None long) else Some short.

(** zoneAbbreviation's label from the three names. *)
Definition label (short offset long : string) : string :=
  match betterAbbreviation short long with
  | None => short
  | Some a => if String.eqb a offset then a else a ++ " (" ++ offset ++ ")"
  end.

Definition zoneAbbreviation (F : Formatter) (t : Z) (zone : string) : string :=
  let short := zoneName F t zone "short" in
  let so := zoneName F t zone "shortOffset" in
  let offset := if String.eqb so "" then zoneName F t zone "longOffset"
                else so in
  label short offset (zoneName F t zone "long").

(** The final label: the abbreviation with the offset in parentheses, the
    abbreviation alone when the two coincide, and [fallback] when there is no
    abbreviation. *)
Definition finalLabel (abbrev : option string) (fallback offset : string)
    : string :=
  match abbrev with
  | None => fallback
  | Some a => if String.eqb a offset then a else a ++ " (" ++ offset ++ ")"
  end.

(** The label with the acronym of all the capital letters of the long name,
    falling back to the offset string. *)
Definition labelOfCapitals (short offset long : string) : string :=
  finalLabel (if bareOffset short then accepted (capitals long)
              else Some short)
             offset offset.

(** The label with the acronym of the capital letters that begin a word of
    the long name, falling back to the short name. *)
Definition labelOfWordCapitals (short offset long : string) : string :=
  finalLabel (if bareOffset short then accepted (wordCapitals None long)
              else Some short)
             short offset.

(** The offset string: the [shortOffset] name, or the [longOffset] name
    when that is empty. *)
Definition offsetName (F : Formatter) (t : Z) (zone : string) : string :=
  let so := zoneName F t zone "shortOffset" in
  if String.eqb so "" then zoneName F t zone "longOffset" else so.

End Spec.

(** ** What is asked of a formatter *)

Module Contract.

Import Reference.

(** A time with its seconds and milliseconds dropped. *)
Definition minute_floor (x : Z) : Z := x - x mod msPerMinute.

(** 0100-01-01T00:00 read as UTC.  From here on [Date.UTC] takes the year
    of a local time as it is; the years 0 to 99 it moves to 1900-1999. *)
Definition year100 : Z := day_of_month_start 100 0 * msPerDay.

(** The local times whose fields [Date.UTC] reads back as a time value. *)
Definition in_calendar (x : Z) : Prop := year100 <= x <= maxTime.

(** The wall-clock string of a local time: ["YYYY-MM-DDTHH:mm"]. *)
Definition wallString (x : Z) : string :=
  let f := fields_of x in
  show (f_year f) ++ "-" ++ pad2 (f_month f) ++ "-" ++ pad2 (f_day f)
    ++ "T" ++ pad2 (f_hour f) ++ ":" ++ pad2 (f_minute f).

(** Around [center], within [B] milliseconds, the fields the formatter
    displays for an instant read back (as if they were UTC) as a valid time
    [obs g] that is itself within [B] of the instant: the zone's offset is
    bounded by [B]. *)
Definition readback (F : Formatter) (zone : string) (obs : Z -> Z)
    (center B : Z) : Prop :=
  forall g, Z.abs (g - center) <= B ->
    guessTime (parts_of F "en-US" (numericOptions zone) g) = Some (obs g)
    /\ Z.abs (obs g - g) <= B.

(** A formatter is faithful to an offset table [off] when, for every zone it
    resolves, the fields it displays for an instant are the calendar fields
    of the instant shifted by the zone's offset, in both option bags the
    component uses. *)
Record faithful (F : Formatter) (off : string -> Z -> Z) : Prop := {
  reads_back : forall z t,
    resolves F z = true -> in_calendar (t + off z t) ->
    guessTime (parts_of F "en-US" (numericOptions z) t)
    = Some (minute_floor (t + off z t));
  renders : forall z t,
    resolves F z = true -> in_calendar (t + off z t) ->
    localTemplate (parts_of F "en-GB" (twoDigitOptions z) t)
    = wallString (t + off z t)
}.

Definition maxOffset : Z := 14 * msPerHour.
Definition buffer : Z := 2 * msPerHour.
Definition reach : Z := 30 * msPerHour.
Definition margin : Z := 2 * msPerDay.

(** Within [reach] of the instant [t] the offset [o] of a zone has at most
    one transition: it is [o1] before [T] and [o2] from [T] on, both whole
    minutes within 14 hours of UTC and at most 2 hours apart. *)
Definition one_transition (o : Z -> Z) (t T o1 o2 : Z) : Prop :=
  (forall g, Z.abs (g - t) <= reach -> o g = if g <? T then o1 else o2)
  /\ Z.abs o1 <= maxOffset /\ Z.abs o2 <= maxOffset
  /\ Z.abs (o1 - o2) <= buffer
  /\ o1 mod msPerMinute = 0 /\ o2 mod msPerMinute = 0.

(** The instant [t] is strictly outside the window of two hours on either
    side of the transition [T]. *)
Definition outside_window (t T : Z) : Prop := buffer < Z.abs (t - T).

(** The offsets of the reference table, as a function of zone and instant. *)
Definition offsets (tb : table) (z : string) (t : Z) : Z :=
  offset_at (zone_of tb (Some z)) t.

(** [show] prints every number below this bound in full. *)
Definition ten20 : Z := 10 ^ 20.

Fixpoint digits_only (s : string) : bool :=
  match s with
  | EmptyString => true
  | String c r => is_digit c && digits_only r
  end.

Fixpoint has_char (x : ascii) (s : string) : bool :=
  match s with
  | EmptyString => false
  | String c r => Ascii.eqb c x || has_char x r
  end.

(** *** What a formatter displays, part by part *)

(** A year as a date-and-time input holds it: at least four digits. *)
Definition pad4 (n : Z) : string :=
  if n <? 10 then "000" ++ show n
  else if n <? 100 then "00" ++ show n
  else if n <? 1000 then "0" ++ show n
  else show n.

(** The wall-clock string UTC shows at the time [x], with the year padded:
    ["YYYY-MM-DDTHH:mm"] as a [datetime-local] input holds it. *)
Definition isoString (x : Z) : string :=
  let f := fields_of x in
  pad4 (f_year f) ++ "-" ++ pad2 (f_month f) ++ "-" ++ pad2 (f_day f)
    ++ "T" ++ pad2 (f_hour f) ++ ":" ++ pad2 (f_minute f).

(** The text of a part is the decimal numeral of [n], with or without a
    leading zero. *)
Definition numeral (v : option string) (n : Z) : Prop :=
  v = Some (show n) \/ v = Some (pad2 n).

(** The parts show the fields [f] as numerals; midnight may be shown as
    hour 24. *)
Definition shows_numeric (ps : list part) (f : fields) : Prop :=
  numeral (find_value "year" ps) (f_year f)
  /\ numeral (find_value "month" ps) (f_month f)
  /\ numeral (find_value "day" ps) (f_day f)
  /\ (numeral (find_value "hour" ps) (f_hour f)
      \/ (f_hour f = 0 /\ find_value "hour" ps = Some "24"))
  /\ numeral (find_value "minute" ps) (f_minute f).

(** The parts show the fields [f] with two digits each, the year in full,
    and the hours counted 00-23. *)
Definition shows_two_digit (ps : list part) (f : fields) : Prop :=
  find_value "year" ps = Some (show (f_year f))
  /\ find_value "month" ps = Some (pad2 (f_month f))
  /\ find_value "day" ps = Some (pad2 (f_day f))
  /\ find_value "hour" ps = Some (pad2 (f_hour f))
  /\ find_value "minute" ps = Some (pad2 (f_minute f)).

(** A formatter displays the offsets [off] when, for every zone it resolves,
    the parts it gives for an instant show the calendar fields of the
    instant shifted by the zone's offset: as numerals, midnight possibly as
    hour 24, for the ["en-US"] option bag of [localStringToDate], and with
    two digits and the hours 00-23 for the ["en-GB"] option bag of
    [dateToLocalString]. *)
Record displays (F : Formatter) (off : string -> Z -> Z) : Prop := {
  numeric_fields : forall z t,
    resolves F z = true -> in_calendar (t + off z t) ->
    shows_numeric (parts_of F "en-US" (numericOptions z) t)
                  (fields_of (t + off z t));
  two_digit_fields : forall z t,
    resolves F z = true -> in_calendar (t + off z t) ->
    shows_two_digit (parts_of F "en-GB" (twoDigitOptions z) t)
                    (fields_of (t + off z t))
}.


(** What the zone [z] displays at the instant [g], read as if it were UTC:
    the local time to the minute. *)
Definition observed (off : string -> Z -> Z) (z : string) (g : Z) : Z :=
  minute_floor (g + off z g).

End Contract.

Import Contract.

(** ** Fixtures *)

Module Fixtures.

Import Reference.

(** 2024-01-15T00:00:00Z *)
Definition midnight : Date := mkDate (Some 1705276800000).

(** 2024-01-15T10:00:00Z *)
Definition morning : Date := mkDate (Some 1705312800000).

Definition ny_london : Props := mkProps "America/New_York" "Europe/London".

Definition march : State :=
  mkState "2024-03-01T10:00" "2024-03-01T15:00" user.

Definition march_machine : Spec.Machine :=
  Spec.mkMachine "2024-03-01T10:00" "America/New_York"
                 "2024-03-01T15:00" "Europe/London" Spec.AnchoredOnA.

(** The fields of "2024-01-15T09:30". *)
Definition half_past_nine : IsoLocal :=
  mkIso (Num (Some 2024)) (Num (Some 0)) (Num (Some 15))
        (Num (Some 9)) (Num (Some 30)).

(** What the reference formatter displays in Asia/Kolkata, read as UTC. *)
Definition kolkata_reading (g : Z) : Z :=
  minute_floor (g + offsets zones2024 "Asia/Kolkata" g).

(** 2024-03-10T12:00:00Z, five hours after New York's clocks went forward
    at 07:00Z. *)
Definition after_spring_forward : Z := 1710072000000.

Definition ny_forward : Z := 1710054000000.

Definition london_forward : Z := 1711846800000.

Fixpoint all_upper (s : string) : bool :=
  match s with
  | EmptyString => true
  | String c r => is_upper c && all_upper r
  end.

End Fixtures.

Import Fixtures.

(** ** The rest of the component *)

Module Display.

(** [format(date)]: the values of the parts of [formatToParts(date)],
    joined (ECMA-402, FormatDateTime). *)
Definition joined (parts : list part) : string :=
  String.concat "" (map value_of parts).

Definition format (F : Formatter) (locale : string)
    (o : DateTimeFormatOptions) (d : Date) : result string :=
  parts <- formatToParts F locale o d ;;
  Ok (joined parts).

(** Options of the formatter inside [formatTime]; the zone is optional. *)
Definition timeOptions (tz : option string) : DateTimeFormatOptions :=
  {| timeZone := tz;
     year := None; month := None; day := None;
     hour := Some "numeric"; minute := Some "numeric";
     second := Some "numeric";
     hour12 := Some true; timeZoneName := None |}.

Definition formatTime (F : Formatter) (date : Date) (tz : option string)
    : string :=
  match format F "en-US" (timeOptions tz) date with
  | Ok text => text
  | Throw _ => "--:--:--"
  end.

(** [label.split(' ')[0]], as the regional view shows an abbreviation. *)
Definition firstWord (label : string) : string :=
  match split " " label with
  | w :: _ => w
  | [] => EmptyString
  end.

(** *** Local time of the host (ECMA-262, Date objects) *)

Definition Day (t : Z) : Z := t / msPerDay.
Definition HourFromTime (t : Z) : Z := (t / msPerHour) mod 24.
Definition MinFromTime (t : Z) : Z := (t / msPerMinute) mod 60.
Definition SecFromTime (t : Z) : Z := (t / 1000) mod 60.
Definition msFromTime (t : Z) : Z := t mod 1000.

(** The host's local zone adjustment [LocalTZA(t, isUTC)] is a parameter. *)
Definition LocalTime (LocalTZA : Z -> bool -> Z) (t : Z) : Z :=
  t + LocalTZA t true.

Definition UTC (LocalTZA : Z -> bool -> Z) (t : Z) : Z :=
  t - LocalTZA t false.

(** [date.setMinutes(min)] *)
Definition setMinutes (LocalTZA : Z -> bool -> Z) (min : num) (d : Date)
    : Date :=
  match getTime d with
  | None => d
  | Some t =>
      let t := LocalTime LocalTZA t in
      let date :=
        MakeDate (Some (Day t))
          (MakeTime (Some (HourFromTime t)) min (Some (SecFromTime t))
                    (Some (msFromTime t))) in
      mkDate (TimeClip (option_map (UTC LocalTZA) date))
  end.

(** [date.getHours()] *)
Definition getHours (LocalTZA : Z -> bool -> Z) (d : Date) : num :=
  option_map (fun t => HourFromTime (LocalTime LocalTZA t)) (getTime d).

(** [date.setHours(hour)] *)
Definition setHours (LocalTZA : Z -> bool -> Z) (hour : num) (d : Date)
    : Date :=
  match getTime d with
  | None => d
  | Some t =>
      let t := LocalTime LocalTZA t in
      let date :=
        MakeDate (Some (Day t))
          (MakeTime hour (Some (MinFromTime t)) (Some (SecFromTime t))
                    (Some (msFromTime t))) in
      mkDate (TimeClip (option_map (UTC LocalTZA) date))
  end.

(** The first three lines of the initial setup, with [now] the time value
    of [new Date()]. *)
Definition initDate (LocalTZA : Z -> bool -> Z) (now : Z) : Date :=
  let d := new_Date (Some now) in
  let d := setMinutes LocalTZA (Some 0) d in
  setHours LocalTZA (add (getHours LocalTZA d) (Some 1)) d.

(** Initial setup: set "User Meeting Time" to next hour, and calculate the
    initial client time. *)
Definition initialSetup (F : Formatter) (LocalTZA : Z -> bool -> Z) (now : Z)
    (p : Props) (st : State) : run :=
  let initStr :=
    dateToLocalString F (initDate LocalTZA now) (userTimezone p) in
  let st := setUserMeetingTime initStr st in
  match localStringToDate F initStr (userTimezone p) with
  | Ok (Some absDate) =>
      (setClientMeetingTime
         (dateToLocalString F absDate (clientTimezone p)) st, Ok tt)
  | Ok None => (st, Ok tt)
  | Throw e => (st, Throw e)
  end.

(** The state the component starts in: [useState('')] twice and
    [useState('user')]. *)
Definition initialState : State := mkState "" "" user.

End Display.

Import Display.

(** ** Sessions of the planner *)

Module Session.

(** The field of the side edited last, and the other one. *)
Definition anchoredField (st : State) : string :=
  match lastEdited st with
  | user => userMeetingTime st
  | client => clientMeetingTime st
  end.

Definition otherField (st : State) : string :=
  match lastEdited st with
  | user => clientMeetingTime st
  | client => userMeetingTime st
  end.

Definition anchoredZone (p : Props) (st : State) : string :=
  match lastEdited st with
  | user => userTimezone p
  | client => clientTimezone p
  end.

Definition otherZone (p : Props) (st : State) : string :=
  match lastEdited st with
  | user => clientTimezone p
  | client => userTimezone p
  end.

(** A run of user actions, each followed by its render; [None] as soon as
    one of them does not complete. *)
Fixpoint runActions (F : Formatter) (p : Props) (st : State)
    (l : list action) : option (Props * State) :=
  match l with
  | [] => Some (p, st)
  | a :: rest =>
      match dispatch F p st a with
      | (p', (st', Ok _)) => runActions F p' st' rest
      | (_, (_, Throw _)) => None
      end
  end.

(** The side of the last edit among the actions, [s] when there is none. *)
Fixpoint lastEditSide (s : Side) (l : list action) : Side :=
  match l with
  | [] => s
  | UserTimeChange _ :: rest => lastEditSide user rest
  | ClientTimeChange _ :: rest => lastEditSide client rest
  | _ :: rest => lastEditSide s rest
  end.

(** The zones after the actions: each zone is the one selected last. *)
Fixpoint lastZones (p : Props) (l : list action) : Props :=
  match l with
  | [] => p
  | SetUserTimezone tz :: rest =>
      lastZones (mkProps tz (clientTimezone p)) rest
  | SetClientTimezone tz :: rest =>
      lastZones (mkProps (userTimezone p) tz) rest
  | _ :: rest => lastZones p rest
  end.

End Session.

Import Session.

(** ** The composer's clipboard *)

Module Compose.

(** The service's answer: [{ subject, body }]. *)
Record GenerationResponse := mkResponse { subject : string; body : string }.

Definition newline : string := String (ascii_of_nat 10) EmptyString.

(** The literal [<br/>] the pattern [/<br\/>/g] looks for. *)
Definition br : string := "<br/>".

(** [s.replace(/pat/g, rep)] for a literal, non-empty pattern: the matches
    are found from left to right without overlap and each is replaced.
    [skip] counts the characters of the current match still to pass. *)
Fixpoint replaceAll (pat rep : string) (skip : nat) (s : string) : string :=
  match s with
  | EmptyString => EmptyString
  | String c r =>
      match skip with
      | S k => replaceAll pat rep k r
      | O =>
          if String.prefix pat s
          then rep ++ replaceAll pat rep (String.length pat - 1) r
          else String c (replaceAll pat rep 0 r)
      end
  end.

(** [copyToClipboard]: the text handed to [navigator.clipboard.writeText],
    or [None] when there is no response and nothing is written. *)
Definition copyToClipboard (response : option GenerationResponse)
    : option string :=
  match response with
  | Some r =>
      Some ("Subject: " ++ subject r ++ newline ++ newline
              ++ replaceAll br newline 0 (body r))
  | None => None
  end.

(** [pat] occurs somewhere in [s]. *)
Fixpoint occurs (pat s : string) : bool :=
  String.prefix pat s
  || match s with
     | EmptyString => false
     | String _ r => occurs pat r
     end.

End Compose.

Import Compose.

(** * Properties *)

(** ** Parser and handlers *)

Lemma append_assoc (a b c : string) : (a ++ b) ++ c = a ++ (b ++ c).
Proof.
  induction a as [|x a IH]; simpl; [reflexivity | now rewrite IH].
Qed.

Lemma eqb_empty_false (s : string) : s <> "" -> String.eqb s "" = false.
Proof.
  intros H. destruct (String.eqb_spec s ""); congruence.
Qed.

Lemma localStringToDate_unparsed (F : Formatter) (s zone : string) :
  parseIsoLocal s = None -> localStringToDate F s zone = Ok None.
Proof.
  unfold localStringToDate. intros ->. reflexivity.
Qed.

Lemma localStringToDate_empty (F : Formatter) (zone : string) :
  localStringToDate F "" zone = Ok None.
Proof. reflexivity. Qed.

(** [localStringToDate] never returns [null] for a string the parser
    accepts. *)
Lemma localStringToDate_parsed (F : Formatter) (s zone : string) (c : IsoLocal) :
  parseIsoLocal s = Some c -> localStringToDate F s zone <> Ok None.
Proof.
  unfold localStringToDate. intros ->.
  destruct (converge F zone c 3 _); simpl; discriminate.
Qed.

(** C6, the claim as stated fails: clearing the client's field while the
    user's field is the anchor moves the anchor to the client's side. *)
Lemma C6_clear_moves_anchor :
  lastEdited (fst (handleClientTimeChange Reference.host ny_london "" march))
  <> lastEdited march.
Proof. vm_compute. discriminate. Qed.

(** C6 as amended: when either wall-clock field is cleared to the empty
    string the handler completes, both fields are empty, and the anchor is
    the side whose field was cleared (every edit sets the anchor to its own
    side); the render that follows changes nothing more. *)
Theorem C6_clear_clears_both (F : Formatter) (p : Props) (st : State) :
  handleUserTimeChange F p "" st = (mkState "" "" user, Ok tt)
  /\ handleClientTimeChange F p "" st = (mkState "" "" client, Ok tt)
  /\ snd (dispatch F p st (UserTimeChange "")) = (mkState "" "" user, Ok tt)
  /\ snd (dispatch F p st (ClientTimeChange ""))
     = (mkState "" "" client, Ok tt).
Proof.
  repeat split; reflexivity.
Qed.

(** C7, the claim as stated fails: a non-empty string the parser rejects
    leaves the other field with its previous value. *)
Lemma C7_rejected_input_keeps_other_field :
  parseIsoLocal "2024-03-01" = None
  /\ clientMeetingTime
       (fst (handleUserTimeChange Reference.host ny_london "2024-03-01" march))
     = "2024-03-01T15:00".
Proof. split; reflexivity. Qed.

(** C7 as amended: for every non-empty input string the parser rejects, the
    conversion is skipped: the edited field takes the input, the anchor moves
    to the edited side, and the other field keeps the value it had; the
    render that follows changes nothing more. *)
Theorem C7_rejected_input_skips_conversion
    (F : Formatter) (p : Props) (val : string) (st : State) :
  val <> "" ->
  parseIsoLocal val = None ->
  handleUserTimeChange F p val st
    = (mkState val (clientMeetingTime st) user, Ok tt)
  /\ handleClientTimeChange F p val st
    = (mkState (userMeetingTime st) val client, Ok tt)
  /\ snd (dispatch F p st (UserTimeChange val))
    = (mkState val (clientMeetingTime st) user, Ok tt)
  /\ snd (dispatch F p st (ClientTimeChange val))
    = (mkState (userMeetingTime st) val client, Ok tt).
Proof.
  intros Hne Hp.
  assert (Hu : handleUserTimeChange F p val st
               = (mkState val (clientMeetingTime st) user, Ok tt)).
  { unfold handleUserTimeChange.
    rewrite (eqb_empty_false val Hne). simpl.
    rewrite (localStringToDate_unparsed F val _ Hp). reflexivity. }
  assert (Hc : handleClientTimeChange F p val st
               = (mkState (userMeetingTime st) val client, Ok tt)).
  { unfold handleClientTimeChange.
    rewrite (eqb_empty_false val Hne). simpl.
    rewrite (localStringToDate_unparsed F val _ Hp). reflexivity. }
  repeat split; try assumption.
  - simpl. rewrite Hu. simpl. unfold timezoneEffect. simpl.
    rewrite (eqb_empty_false val Hne). simpl.
    rewrite (localStringToDate_unparsed F val _ Hp). reflexivity.
  - simpl. rewrite Hc. simpl. unfold timezoneEffect. simpl.
    rewrite (eqb_empty_false val Hne). simpl.
    rewrite (localStringToDate_unparsed F val _ Hp). reflexivity.
Qed.

Lemma C7_rejected_input_witness :
  "2024-03-01" <> ""
  /\ parseIsoLocal "2024-03-01" = None
  /\ handleUserTimeChange Reference.host ny_london "2024-03-01" march
      = (mkState "2024-03-01" "2024-03-01T15:00" user, Ok tt).
Proof.
  assert (Hne : "2024-03-01" <> "") by discriminate.
  assert (Hp : parseIsoLocal "2024-03-01" = None) by reflexivity.
  split; [exact Hne | split; [exact Hp |]].
  exact (proj1 (C7_rejected_input_skips_conversion
                  Reference.host ny_london "2024-03-01" march Hne Hp)).
Defined.

(** ** Unresolvable zones and the hour 24 *)

Lemma formatToParts_unresolved (F : Formatter) (locale zone : string)
    (o : DateTimeFormatOptions) (d : Date) :
  timeZone o = Some zone -> resolves F zone = false ->
  formatToParts F locale o d = Throw RangeError.
Proof.
  intros Hz Hr. unfold formatToParts, zone_ok. rewrite Hz, Hr. reflexivity.
Qed.

Lemma formatToParts_resolved (F : Formatter) (locale zone : string)
    (o : DateTimeFormatOptions) (t : Z) :
  timeZone o = Some zone -> resolves F zone = true ->
  formatToParts F locale o (mkDate (Some t)) = Ok (parts_of F locale o t).
Proof.
  intros Hz Hr. unfold formatToParts, zone_ok. rewrite Hz, Hr. reflexivity.
Qed.

(** With a zone the formatter cannot resolve, [dateToLocalString] and
    [getAbbreviation] return the empty string, and [localStringToDate]
    returns [null] for a string the parser rejects but lets the RangeError
    escape for every string the parser accepts. *)
Lemma unresolvable_zone (F : Formatter) (zone : string) :
  resolves F zone = false ->
  (forall d, dateToLocalString F d zone = "")
  /\ (forall d, getAbbreviation F d zone = "")
  /\ (forall s, parseIsoLocal s = None ->
                localStringToDate F s zone = Ok None)
  /\ (forall s c, parseIsoLocal s = Some c ->
                  localStringToDate F s zone = Throw RangeError).
Proof.
  intros Hr. repeat split.
  - intros d. unfold dateToLocalString.
    rewrite (formatToParts_unresolved F _ zone); auto.
  - intros d. unfold getAbbreviation, formatter.
    rewrite (formatToParts_unresolved F _ zone); auto.
  - intros s Hs. now apply localStringToDate_unparsed.
  - intros s c Hs. unfold localStringToDate. rewrite Hs.
    cbn [converge].
    rewrite (formatToParts_unresolved F _ zone); auto.
Qed.

(** C5, at the failing input: for a zone the host does not know, the two
    operations wrapped in [try]/[catch] give the empty string, and
    [localStringToDate], which has no [catch], throws. *)
Theorem C5_localStringToDate_throws :
  resolves Reference.host "Mars/Olympus" = false
  /\ dateToLocalString Reference.host morning "Mars/Olympus" = ""
  /\ getAbbreviation Reference.host morning "Mars/Olympus" = ""
  /\ localStringToDate Reference.host "2024-01-15T14:00" "Mars/Olympus"
     = Throw RangeError.
Proof. repeat split; reflexivity. Qed.

(** [dateToLocalString] copies the formatter's hour part as it is. *)
Lemma dateToLocalString_hour_verbatim (F : Formatter) (t : Z) (zone hh : string) :
  resolves F zone = true ->
  hh <> "" ->
  find_value "hour" (parts_of F "en-GB" (twoDigitOptions zone) t) = Some hh ->
  exists date mm,
    dateToLocalString F (mkDate (Some t)) zone = date ++ "T" ++ hh ++ ":" ++ mm.
Proof.
  intros Hr Hne Hh. unfold dateToLocalString.
  rewrite (formatToParts_resolved F _ zone) by auto.
  unfold localTemplate. rewrite Hh.
  set (ps := parts_of F "en-GB" (twoDigitOptions zone) t).
  exists (or_else (find_value "year" ps) "00" ++ "-"
          ++ or_else (find_value "month" ps) "00" ++ "-"
          ++ or_else (find_value "day" ps) "00"),
         (or_else (find_value "minute" ps) "00").
  assert (E : or_else (Some hh) "00" = hh).
  { unfold or_else, falsy. now rewrite (eqb_empty_false hh Hne). }
  rewrite E.
  repeat rewrite append_assoc. reflexivity.
Qed.

(** ** The convergence loop *)

Lemma guessHour_not_24 (parts : list part) : guessHour parts <> Some 24.
Proof.
  unfold guessHour.
  destruct (partVal parts "hour") as [v|] eqn:E; simpl.
  - destruct (Z.eqb_spec v 24); [discriminate|congruence].
  - discriminate.
Qed.

(** C9: in every iteration of [localStringToDate]'s loop the hour that
    enters the delta is [gh] after normalisation: it is never 24, it is 0
    when the formatter reported 24 and the reported hour otherwise, and the
    iteration computes its delta from the observed fields with that hour. *)
Theorem C9_loop_hour_normalised
    (F : Formatter) (zone : string) (c : IsoLocal) (n : nat) (guess : Date)
    (parts : list part) :
  formatToParts F "en-US" (numericOptions zone) guess = Ok parts ->
  guessHour parts <> Some 24
  /\ (partVal parts "hour" = Some 24 -> guessHour parts = Some 0)
  /\ (partVal parts "hour" <> Some 24 ->
      guessHour parts = partVal parts "hour")
  /\ converge F zone c (S n) guess =
     (let observed :=
        Date_UTC (Num (partVal parts "year"))
                 (Num (sub (partVal parts "month") (Some 1)))
                 (Num (partVal parts "day"))
                 (Num (guessHour parts))
                 (Num (partVal parts "minute")) in
      let diff := sub (desiredTime c) observed in
      if abs_lt diff 1000 then Ok guess
      else converge F zone c n (new_Date (add (getTime guess) diff))).
Proof.
  intros Hp. split; [apply guessHour_not_24|]. split; [|split].
  - intros H. unfold guessHour. rewrite H. reflexivity.
  - intros H. unfold guessHour.
    destruct (partVal parts "hour") as [v|]; simpl; [|reflexivity].
    destruct (Z.eqb_spec v 24); [subst; congruence | reflexivity].
  - cbn [converge]. rewrite Hp. reflexivity.
Qed.

Lemma C9_loop_hour_witness :
  formatToParts Reference.host24 "en-US" (numericOptions "UTC") midnight
    = Ok (parts_of Reference.host24 "en-US" (numericOptions "UTC")
            1705276800000)
  /\ partVal (parts_of Reference.host24 "en-US" (numericOptions "UTC")
                1705276800000) "hour" = Some 24
  /\ guessHour (parts_of Reference.host24 "en-US" (numericOptions "UTC")
                  1705276800000) = Some 0.
Proof.
  assert (H : formatToParts Reference.host24 "en-US" (numericOptions "UTC")
                midnight
              = Ok (parts_of Reference.host24 "en-US" (numericOptions "UTC")
                      1705276800000)) by reflexivity.
  assert (H24 : partVal (parts_of Reference.host24 "en-US"
                           (numericOptions "UTC") 1705276800000) "hour"
                = Some 24) by reflexivity.
  split; [exact H | split; [exact H24 |]].
  exact (proj1 (proj2 (C9_loop_hour_normalised Reference.host24 "UTC"
                         (mkIso Undefined Undefined Undefined Undefined
                                Undefined)
                         0 midnight _ H)) H24).
Defined.

(** ** Abbreviation *)

Lemma prefix_cons (a b : ascii) (s1 s2 : string) :
  String.prefix (String a s1) (String b s2)
  = Ascii.eqb b a && String.prefix s1 s2.
Proof.
  simpl. destruct (ascii_dec a b) as [->|Hn].
  - now rewrite Ascii.eqb_refl.
  - destruct (Ascii.eqb_spec b a); [congruence | reflexivity].
Qed.

Lemma string_eqb_cons (a b : ascii) (s1 s2 : string) :
  String.eqb (String a s1) (String b s2) = Ascii.eqb a b && String.eqb s1 s2.
Proof.
  simpl. destruct (Ascii.eqb a b); reflexivity.
Qed.

(** The component's test for an offset-like name is the bare-offset
    pattern. *)
Lemma isOffsetLike_bareOffset (s : string) :
  isOffsetLike s = Spec.bareOffset s.
Proof.
  unfold isOffsetLike, prefix_of.
  destruct s as [|a [|b [|c [|d r]]]]; try reflexivity.
  - repeat rewrite prefix_cons. simpl.
    repeat rewrite andb_false_r. reflexivity.
  - repeat rewrite prefix_cons. simpl.
    repeat rewrite andb_false_r. reflexivity.
  - repeat rewrite prefix_cons. simpl.
    repeat rewrite andb_false_r. reflexivity.
  - unfold Spec.bareOffset.
    repeat rewrite prefix_cons. repeat rewrite string_eqb_cons.
    assert (E : String.prefix "" r = true) by (destruct r; reflexivity).
    rewrite E. simpl String.eqb.
    destruct (Ascii.eqb a "G"), (Ascii.eqb a "U"), (Ascii.eqb b "M"),
      (Ascii.eqb b "T"), (Ascii.eqb c "T"), (Ascii.eqb c "C"),
      (Ascii.eqb d "+"), (Ascii.eqb d "-"); reflexivity.
Qed.

Lemma initials_all_upper (s : string) :
  forall b, all_upper (initials b s) = true.
Proof.
  induction s as [|c r IH]; intros b; simpl; [reflexivity|].
  destruct (is_upper c) eqn:Hu; simpl.
  - destruct b; simpl; [apply IH|]. rewrite Hu. simpl. apply IH.
  - apply IH.
Qed.

Lemma all_upper_not_bare (a : string) :
  all_upper a = true -> Spec.bareOffset a = false.
Proof.
  destruct a as [|x [|y [|z [|sg r]]]]; try reflexivity.
  intros H. simpl in H.
  apply andb_prop in H as [_ H]. apply andb_prop in H as [_ H].
  apply andb_prop in H as [_ H]. apply andb_prop in H as [Hs _].
  unfold Spec.bareOffset.
  destruct (Ascii.eqb_spec sg "+") as [->|]; [discriminate Hs|].
  destruct (Ascii.eqb_spec sg "-") as [->|]; [discriminate Hs|].
  simpl. now rewrite andb_false_r.
Qed.

Lemma acronym_not_offset_like (long a : string) :
  acronym_of long = Some a -> isOffsetLike a = false.
Proof.
  intros H. rewrite isOffsetLike_bareOffset. apply all_upper_not_bare.
  unfold acronym_of in H.
  destruct (initials false long) eqn:E; [discriminate|].
  injection H as <-. rewrite <- E. apply initials_all_upper.
Qed.

Lemma formatter_resolved (F : Formatter) (t : Z) (zone style : string) :
  resolves F zone = true ->
  formatter F (mkDate (Some t)) zone style
  = Ok (Spec.zoneName F t zone style).
Proof.
  intros Hr. unfold formatter.
  rewrite (formatToParts_resolved F _ zone) by auto. reflexivity.
Qed.

(** The label the component builds from the three names is the
    specification's. *)
Lemma capital_is_upper (c : ascii) : Spec.capital c = is_upper c.
Proof.
  destruct c as [[] [] [] [] [] [] [] []]; reflexivity.
Qed.

Lemma wordChar_is_word (c : ascii) : Spec.wordChar c = is_word c.
Proof.
  destruct c as [[] [] [] [] [] [] [] []]; reflexivity.
Qed.

(** The matches of the component's regular expression are the capital
    letters that begin a word. *)
Lemma initials_wordCapitals (s : string) (prev : option ascii) :
  initials (match prev with None => false | Some p => is_word p end) s
  = Spec.wordCapitals prev s.
Proof.
  revert prev. induction s as [|c r IH]; intros prev; [reflexivity|].
  cbn [initials Spec.wordCapitals]. unfold Spec.beginsWord.
  rewrite capital_is_upper.
  assert (E : match prev with
              | None => true
              | Some p => negb (Spec.wordChar p)
              end
              = negb match prev with None => false | Some p => is_word p end).
  { destruct prev as [p|]; [now rewrite wordChar_is_word | reflexivity]. }
  rewrite E.
  destruct (is_upper c && negb _) eqn:Eb.
  - f_equal. rewrite <- (IH (Some c)).
    apply andb_prop in Eb as [Hu _]. unfold is_word. now rewrite Hu.
  - exact (IH (Some c)).
Qed.

(** The abbreviation of the specification, through the component's
    scanner. *)
Lemma betterAbbreviation_scan (short long : string) :
  Spec.betterAbbreviation short long
  = if Spec.bareOffset short then
      match acronym_of long with
      | Some a => if (2 <=? strlen a) && (strlen a <=? 5) then Some a else None
      | None => None
      end
    else Some short.
Proof.
  unfold Spec.betterAbbreviation, Spec.accepted, acronym_of.
  rewrite <- (initials_wordCapitals long None).
  destruct (Spec.bareOffset short); [|reflexivity].
  fold (strlen (initials false long)).
  destruct (initials false long) as [|c r] eqn:E; reflexivity.
Qed.

Lemma label_of_names (short offset long : string) :
  (let abbreviation :=
     if isOffsetLike short then
       if String.eqb long "" then short
       else match acronym_of long with
            | Some acronym =>
                if (2 <=? strlen acronym) && (strlen acronym <=? 5)
                then acronym else short
            | None => short
            end
     else short in
   if isOffsetLike abbreviation then abbreviation
   else if String.eqb abbreviation offset then abbreviation
   else abbreviation ++ " (" ++ offset ++ ")")
  = Spec.label short offset long.
Proof.
  unfold Spec.label. rewrite betterAbbreviation_scan.
  rewrite <- isOffsetLike_bareOffset.
  destruct (isOffsetLike short) eqn:Hs.
  - destruct (String.eqb_spec long "") as [->|Hl].
    + simpl. now rewrite Hs.
    + destruct (acronym_of long) as [a|] eqn:Ha.
      * destruct ((2 <=? strlen a) && (strlen a <=? 5)).
        -- cbv zeta. now rewrite (acronym_not_offset_like long a Ha).
        -- cbv zeta. now rewrite Hs.
      * cbv zeta. now rewrite Hs.
  - cbv zeta. now rewrite Hs.
Qed.

Example acronym_india : acronym_of "India Standard Time" = Some "IST".
Proof. reflexivity. Qed.

Example acronym_inner_capitals : acronym_of "GMT+05:30" = Some "G".
Proof. reflexivity. Qed.

(** ** The synchronisation state machine *)

Lemma convert_some (F : Formatter) (w fromZone toZone b : string) :
  Spec.wall (Spec.convert F w fromZone toZone) = Some b ->
  w <> ""
  /\ exists d, localStringToDate F w fromZone = Ok (Some d)
               /\ b = dateToLocalString F d toZone.
Proof.
  unfold Spec.convert. intros H. split.
  - intros ->. rewrite localStringToDate_empty in H. discriminate.
  - destruct (localStringToDate F w fromZone) as [[d|]|e]; simpl in H;
      try discriminate.
    injection H as <-. now exists d.
Qed.

(** The effect re-derives the client's field when the user's is the anchor. *)
Lemma timezoneEffect_user (F : Formatter) (p : Props) (a b b' : string) :
  Spec.wall (Spec.convert F a (userTimezone p) (clientTimezone p)) = Some b' ->
  timezoneEffect F p (mkState a b user) = (mkState a b' user, Ok tt).
Proof.
  intros H. apply convert_some in H as [Hne [d [Hd ->]]].
  unfold timezoneEffect. simpl.
  rewrite (eqb_empty_false a Hne). simpl. rewrite Hd. reflexivity.
Qed.

Lemma timezoneEffect_client (F : Formatter) (p : Props) (a a' b : string) :
  Spec.wall (Spec.convert F b (clientTimezone p) (userTimezone p)) = Some a' ->
  timezoneEffect F p (mkState a b client) = (mkState a' b client, Ok tt).
Proof.
  intros H. apply convert_some in H as [Hne [d [Hd ->]]].
  unfold timezoneEffect. simpl.
  rewrite (eqb_empty_false b Hne). simpl. rewrite Hd. reflexivity.
Qed.

Lemma handleUserTimeChange_converts (F : Formatter) (p : Props) (st : State)
    (w b : string) :
  Spec.wall (Spec.convert F w (userTimezone p) (clientTimezone p)) = Some b ->
  handleUserTimeChange F p w st = (mkState w b user, Ok tt).
Proof.
  intros H. apply convert_some in H as [Hne [d [Hd ->]]].
  unfold handleUserTimeChange.
  rewrite (eqb_empty_false w Hne). simpl. rewrite Hd. reflexivity.
Qed.

Lemma handleClientTimeChange_converts (F : Formatter) (p : Props) (st : State)
    (w a : string) :
  Spec.wall (Spec.convert F w (clientTimezone p) (userTimezone p)) = Some a ->
  handleClientTimeChange F p w st = (mkState a w client, Ok tt).
Proof.
  intros H. apply convert_some in H as [Hne [d [Hd ->]]].
  unfold handleClientTimeChange.
  rewrite (eqb_empty_false w Hne). simpl. rewrite Hd. reflexivity.
Qed.

(** Once the effect has completed, running it again changes nothing. *)
Lemma timezoneEffect_stable (F : Formatter) (p : Props) (st st' : State) :
  timezoneEffect F p st = (st', Ok tt) ->
  timezoneEffect F p st' = (st', Ok tt).
Proof.
  unfold timezoneEffect. destruct st as [a b s]. simpl.
  destruct s; simpl.
  - destruct (String.eqb a "") eqn:Ea; simpl.
    + intros H. injection H as <-. simpl. rewrite Ea. reflexivity.
    + destruct (localStringToDate F a (userTimezone p)) as [[d|]|e] eqn:Ed;
        intros H; try discriminate; injection H as <-; simpl;
        rewrite Ea; simpl; rewrite Ed; reflexivity.
  - destruct (String.eqb b "") eqn:Eb; simpl.
    + intros H. injection H as <-. simpl. rewrite Eb. reflexivity.
    + destruct (localStringToDate F b (clientTimezone p)) as [[d|]|e] eqn:Ed;
        intros H; try discriminate; injection H as <-; simpl;
        rewrite Eb; simpl; rewrite Ed; reflexivity.
Qed.

(** C4: the component follows the synchronisation state machine on every
    transition.  Editing field A makes A the anchor and sets field B to
    [convert A zoneA zoneB], and symmetrically for field B: the edit's
    handler alone computes that state, and the effect that runs after the
    render leaves it as it is.  Changing either zone leaves the anchored
    field and the anchor as they are and sets the other field to [convert]
    of the anchored one, from its zone to the other zone: that is the
    effect's work on the state the zone change found. *)
Theorem C4_component_follows_machine
    (F : Formatter) (m m' : Spec.Machine) (e : Spec.Event) :
  Spec.transition F m e = Some m' ->
  match e with
  | Spec.EditA w =>
      handleUserTimeChange F (Spec.props_of m) w (Spec.state_of m)
      = (Spec.state_of m', Ok tt)
      /\ Spec.props_of m' = Spec.props_of m
  | Spec.EditB w =>
      handleClientTimeChange F (Spec.props_of m) w (Spec.state_of m)
      = (Spec.state_of m', Ok tt)
      /\ Spec.props_of m' = Spec.props_of m
  | Spec.ChangeZoneA z =>
      timezoneEffect F (mkProps z (Spec.zoneB m)) (Spec.state_of m)
      = (Spec.state_of m', Ok tt)
      /\ Spec.props_of m' = mkProps z (Spec.zoneB m)
  | Spec.ChangeZoneB z =>
      timezoneEffect F (mkProps (Spec.zoneA m) z) (Spec.state_of m)
      = (Spec.state_of m', Ok tt)
      /\ Spec.props_of m' = mkProps (Spec.zoneA m) z
  end
  /\ dispatch F (Spec.props_of m) (Spec.state_of m) (Spec.action_of e)
     = (Spec.props_of m', (Spec.state_of m', Ok tt)).
Proof.
  destruct m as [a za b zb k]. destruct e as [w|w|z|z]; simpl.
  - destruct (Spec.wall (Spec.convert F w za zb)) as [b'|] eqn:E;
      [|discriminate].
    intros H. injection H as <-. unfold Spec.props_of, Spec.state_of. simpl.
    rewrite (handleUserTimeChange_converts F (mkProps za zb) _ w b' E).
    simpl. rewrite (timezoneEffect_user F (mkProps za zb) w b' b' E).
    repeat split.
  - destruct (Spec.wall (Spec.convert F w zb za)) as [a'|] eqn:E;
      [|discriminate].
    intros H. injection H as <-. unfold Spec.props_of, Spec.state_of. simpl.
    rewrite (handleClientTimeChange_converts F (mkProps za zb) _ w a' E).
    simpl. rewrite (timezoneEffect_client F (mkProps za zb) a' a' w E).
    repeat split.
  - unfold Spec.rederive. simpl. destruct k.
    + destruct (Spec.wall (Spec.convert F a z zb)) as [b'|] eqn:E;
        [|discriminate].
      intros H. injection H as <-. unfold Spec.props_of, Spec.state_of. simpl.
      rewrite (timezoneEffect_user F (mkProps z zb) a b b' E).
      repeat split.
    + destruct (Spec.wall (Spec.convert F b zb z)) as [a'|] eqn:E;
        [|discriminate].
      intros H. injection H as <-. unfold Spec.props_of, Spec.state_of. simpl.
      rewrite (timezoneEffect_client F (mkProps z zb) a a' b E).
      repeat split.
  - unfold Spec.rederive. simpl. destruct k.
    + destruct (Spec.wall (Spec.convert F a za z)) as [b'|] eqn:E;
        [|discriminate].
      intros H. injection H as <-. unfold Spec.props_of, Spec.state_of. simpl.
      rewrite (timezoneEffect_user F (mkProps za z) a b b' E).
      repeat split.
    + destruct (Spec.wall (Spec.convert F b z za)) as [a'|] eqn:E;
        [|discriminate].
      intros H. injection H as <-. unfold Spec.props_of, Spec.state_of. simpl.
      rewrite (timezoneEffect_client F (mkProps za z) a a' b E).
      repeat split.
Qed.

Lemma C4_component_witness :
  Spec.transition Reference.host march_machine (Spec.EditB "2024-03-01T16:00")
  = Some (Spec.mkMachine "2024-03-01T11:00" "America/New_York"
                         "2024-03-01T16:00" "Europe/London" Spec.AnchoredOnB)
  /\ handleClientTimeChange Reference.host ny_london "2024-03-01T16:00" march
     = (mkState "2024-03-01T11:00" "2024-03-01T16:00" client, Ok tt)
  /\ dispatch Reference.host ny_london march
       (ClientTimeChange "2024-03-01T16:00")
     = (ny_london,
        (mkState "2024-03-01T11:00" "2024-03-01T16:00" client, Ok tt)).
Proof.
  assert (H : Spec.transition Reference.host march_machine
                (Spec.EditB "2024-03-01T16:00")
              = Some (Spec.mkMachine "2024-03-01T11:00" "America/New_York"
                        "2024-03-01T16:00" "Europe/London" Spec.AnchoredOnB))
    by (vm_compute; reflexivity).
  split; [exact H|].
  pose proof (C4_component_follows_machine Reference.host march_machine _ _ H)
    as [[Hh _] Hd].
  split; [exact Hh | exact Hd].
Defined.

(** ** Decimal strings *)

Lemma digit_char_spec (k : Z) :
  0 <= k <= 9 ->
  is_digit (Reference.digit_char k) = true
  /\ digit_val (Reference.digit_char k) = k
  /\ is_space (Reference.digit_char k) = false.
Proof.
  intros H.
  assert (E : k = 0 \/ k = 1 \/ k = 2 \/ k = 3 \/ k = 4 \/ k = 5 \/ k = 6
              \/ k = 7 \/ k = 8 \/ k = 9) by lia.
  repeat (destruct E as [-> | E]; [repeat split; reflexivity|]).
  subst. repeat split; reflexivity.
Qed.

Lemma show_digits_read (f : nat) :
  forall (n : Z) (acc : string),
    0 <= n < 10 ^ Z.of_nat f ->
    read_digits (Reference.show_digits f n acc) 0 = read_digits acc n.
Proof.
  induction f as [|f IH]; intros n acc Hn.
  - simpl in Hn. assert (n = 0) by lia. subst. reflexivity.
  - cbn [Reference.show_digits].
    assert (Hm : 0 <= n mod 10 <= 9) by (pose proof (Z.mod_pos_bound n 10); lia).
    destruct (digit_char_spec (n mod 10) Hm) as (Hd & Hv & _).
    destruct (Z.ltb_spec n 10) as [Hlt|Hge].
    + cbn [read_digits]. rewrite Hd, Hv.
      rewrite Z.mod_small by lia. reflexivity.
    + rewrite IH.
      * cbn [read_digits]. rewrite Hd, Hv. f_equal.
        pose proof (Z.div_mod n 10). lia.
      * rewrite Nat2Z.inj_succ, Z.pow_succ_r in Hn by lia.
        split; [apply Z.div_pos; lia|].
        apply Z.div_lt_upper_bound; lia.
Qed.

Lemma show_digits_digits (f : nat) :
  forall (n : Z) (acc : string),
    0 <= n -> digits_only acc = true ->
    digits_only (Reference.show_digits f n acc) = true.
Proof.
  induction f as [|f IH]; intros n acc Hn Hacc; [exact Hacc|].
  cbn [Reference.show_digits].
  assert (Hm : 0 <= n mod 10 <= 9) by (pose proof (Z.mod_pos_bound n 10); lia).
  destruct (digit_char_spec (n mod 10) Hm) as (Hd & _ & _).
  destruct (Z.ltb_spec n 10).
  - simpl. now rewrite Hd.
  - apply IH; [apply Z.div_pos; lia|]. simpl. now rewrite Hd.
Qed.

Lemma show_digits_nonempty (f : nat) :
  forall (n : Z) (acc : string),
    Reference.show_digits (S f) n acc <> "".
Proof.
  induction f as [|f IH]; intros n acc.
  - cbn. destruct (n <? 10); discriminate.
  - cbn [Reference.show_digits].
    destruct (n <? 10); [discriminate|]. apply IH.
Qed.

Lemma show_read (n : Z) :
  0 <= n < ten20 -> read_digits (Reference.show n) 0 = (n, "").
Proof.
  intros H. unfold Reference.show.
  rewrite show_digits_read by exact H. reflexivity.
Qed.

Lemma show_digits_only (n : Z) : 0 <= n -> digits_only (Reference.show n) = true.
Proof.
  intros H. now apply show_digits_digits.
Qed.

Lemma show_nonempty (n : Z) : Reference.show n <> "".
Proof. apply show_digits_nonempty. Qed.

Lemma pad2_digits_only (n : Z) : 0 <= n -> digits_only (Reference.pad2 n) = true.
Proof.
  intros H. unfold Reference.pad2.
  destruct (n <? 10); simpl; now apply show_digits_only.
Qed.

Lemma pad2_nonempty (n : Z) : Reference.pad2 n <> "".
Proof.
  unfold Reference.pad2. destruct (n <? 10); [discriminate|apply show_nonempty].
Qed.

Lemma pad2_read (n : Z) :
  0 <= n < ten20 -> read_digits (Reference.pad2 n) 0 = (n, "").
Proof.
  intros H. unfold Reference.pad2.
  destruct (n <? 10); [|now apply show_read].
  cbn [read_digits]. change (is_digit "0") with true. cbv iota.
  change (0 * 10 + digit_val "0") with 0. now apply show_read.
Qed.

(** A non-empty string of digits reads as the number it spells, through
    [parseInt] and through [Number]. *)
Lemma digits_first (s : string) :
  digits_only s = true -> s <> "" ->
  exists c r, s = String c r /\ is_digit c = true.
Proof.
  destruct s as [|c r]; [congruence|]. simpl. intros H _.
  apply andb_prop in H as [H _]. now exists c, r.
Qed.

Lemma digit_not_space (c : ascii) : is_digit c = true -> is_space c = false.
Proof.
  unfold is_digit, is_space. intros H.
  apply andb_prop in H as [H1 H2].
  apply Nat.leb_le in H1. apply Nat.leb_le in H2.
  destruct (Nat.leb_spec 9 (nat_of_ascii c)); destruct (Nat.leb_spec (nat_of_ascii c) 13);
    destruct (Nat.eqb_spec (nat_of_ascii c) 32); simpl; try reflexivity; lia.
Qed.

Lemma digit_not_sign (c : ascii) (r : string) :
  is_digit c = true -> read_sign (String c r) = (1, String c r).
Proof.
  intros H. unfold read_sign.
  destruct (Ascii.eqb_spec c "-") as [->|Hm]; [discriminate H|].
  destruct (Ascii.eqb_spec c "+") as [->|Hp]; [discriminate H|].
  destruct c as [[] [] [] [] [] [] [] []]; try reflexivity; congruence.
Qed.

Lemma parseInt_digits (s : string) (v : Z) :
  digits_only s = true -> s <> "" -> read_digits s 0 = (v, "") ->
  parseInt s = Some v.
Proof.
  intros Hd Hne Hr. destruct (digits_first s Hd Hne) as (c & r & -> & Hc).
  unfold parseInt. cbn [trim_left]. rewrite (digit_not_space c Hc).
  rewrite (digit_not_sign c r Hc). cbn [starts_with_digit]. rewrite Hc.
  rewrite Hr. simpl. f_equal. destruct v; reflexivity.
Qed.

Lemma trim_right_digits (s : string) :
  digits_only s = true -> trim_right s = s.
Proof.
  induction s as [|c r IH]; [reflexivity|]. simpl. intros H.
  apply andb_prop in H as [Hc Hr]. rewrite (IH Hr).
  destruct r; [now rewrite (digit_not_space c Hc)|reflexivity].
Qed.

Lemma Number_digits (s : string) (v : Z) :
  digits_only s = true -> s <> "" -> read_digits s 0 = (v, "") ->
  Number s = Some v.
Proof.
  intros Hd Hne Hr. destruct (digits_first s Hd Hne) as (c & r & E & Hc).
  unfold Number, trim.
  assert (Et : trim_left s = s).
  { subst s. cbn [trim_left]. now rewrite (digit_not_space c Hc). }
  rewrite Et, (trim_right_digits s Hd).
  rewrite (eqb_empty_false s Hne). subst s.
  rewrite (digit_not_sign c r Hc). cbn [starts_with_digit]. rewrite Hc.
  rewrite Hr. f_equal. destruct v; reflexivity.
Qed.

(** ** The calendar *)

(** The civil date of a day number is a date of the calendar, and
    [MakeDay]'s day number of that date is the day number again. *)
Lemma civil_round_trip (z : Z) :
  let '(y, m, d) := Reference.civil_from_days z in
  1 <= m <= 12 /\ 1 <= d <= 31 /\ day_of_month_start y (m - 1) + d - 1 = z.
Proof.
  unfold Reference.civil_from_days, day_of_month_start. cbv zeta.
  assert (Hdoe : 0 <= (z + 719468) mod 146097 <= 146096)
    by (pose proof (Z.mod_pos_bound (z + 719468) 146097); lia).
  assert (Hz : z + 719468
               = 146097 * ((z + 719468) / 146097) + (z + 719468) mod 146097)
    by (apply Z.div_mod; lia).
  set (era := (z + 719468) / 146097) in *.
  set (doe := (z + 719468) mod 146097) in *.
  clearbody era doe.
  set (yoe := (doe - doe / 1460 + doe / 36524 - doe / 146096) / 365).
  set (doy := doe - (365 * yoe + yoe / 4 - yoe / 100)).
  set (mp := (5 * doy + 2) / 153).
  assert (F : 0 <= yoe <= 399 /\ 0 <= doy <= 365 /\ 0 <= mp <= 11
              /\ 1 <= doy - (153 * mp + 2) / 5 + 1 <= 31).
  { subst yoe doy mp. Z.div_mod_to_equations. lia. }
  destruct F as (Hy & Hd & Hm & Hdd).
  assert (E : (yoe + era * 400) / 400 = era).
  { rewrite Z.div_add by lia. rewrite Z.div_small by lia. lia. }
  destruct (Z.ltb_spec mp 10).
  - replace (mp + 3 - 1 + 1) with (mp + 3) by lia.
    destruct (Z.leb_spec (mp + 3) 2); [lia|].
    destruct (Z.ltb_spec 2 (mp + 3)); [|lia].
    replace (yoe + era * 400 + 0) with (yoe + era * 400) by lia.
    rewrite E.
    replace (yoe + era * 400 - era * 400) with yoe by lia.
    replace (mp + 3 - 3) with mp by lia.
    subst doy. lia.
  - replace (mp - 9 - 1 + 1) with (mp - 9) by lia.
    destruct (Z.leb_spec (mp - 9) 2); [|lia].
    destruct (Z.ltb_spec 2 (mp - 9)); [lia|].
    replace (yoe + era * 400 + 1 - 1) with (yoe + era * 400) by lia.
    rewrite E.
    replace (yoe + era * 400 - era * 400) with yoe by lia.
    replace (mp - 9 + 9) with mp by lia.
    subst doy. lia.
Qed.

(** Dates of the years up to 99 come before 0100-01-01. *)
Lemma early_years (y mn d : Z) :
  y <= 99 -> 0 <= mn <= 11 -> d <= 31 ->
  (day_of_month_start y mn + d - 1) * msPerDay < year100.
Proof.
  intros Hy Hm Hd.
  change year100 with (-683003 * msPerDay).
  apply Z.mul_lt_mono_pos_r; [reflexivity|].
  unfold day_of_month_start. cbv zeta.
  destruct (Z.leb_spec (mn + 1) 2); destruct (Z.ltb_spec 2 (mn + 1));
    try lia; Z.div_mod_to_equations; lia.
Qed.

(** Dates of the years from 300000 on come after the last time value. *)
Lemma late_years (y mn d : Z) :
  300000 <= y -> 0 <= mn <= 11 -> 1 <= d ->
  maxTime < (day_of_month_start y mn + d - 1) * msPerDay.
Proof.
  intros Hy Hm Hd.
  assert (100000001 <= day_of_month_start y mn + d - 1);
    [|unfold maxTime, msPerDay; lia].
  unfold day_of_month_start. cbv zeta.
  destruct (Z.leb_spec (mn + 1) 2); destruct (Z.ltb_spec 2 (mn + 1));
    try lia; Z.div_mod_to_equations; lia.
Qed.

(** The fields of a local time: their ranges, and how they add up. *)
Lemma fields_of_spec (x : Z) :
  let f := Reference.fields_of x in
  1 <= Reference.f_month f <= 12
  /\ 1 <= Reference.f_day f <= 31
  /\ 0 <= Reference.f_hour f <= 23
  /\ 0 <= Reference.f_minute f <= 59
  /\ 0 <= Reference.f_second f <= 59
  /\ (day_of_month_start (Reference.f_year f) (Reference.f_month f - 1)
      + Reference.f_day f - 1) * msPerDay
     + Reference.f_hour f * msPerHour + Reference.f_minute f * msPerMinute
     = minute_floor x
  /\ (in_calendar x -> 100 <= Reference.f_year f < 300000).
Proof.
  unfold Reference.fields_of.
  pose proof (civil_round_trip (x / msPerDay)) as H.
  destruct (Reference.civil_from_days (x / msPerDay)) as [[y m] d].
  destruct H as (Hm & Hd & Hz). cbn.
  split; [lia|]. split; [lia|].
  unfold minute_floor, msPerDay, msPerHour, msPerMinute in *.
  split; [Z.div_mod_to_equations; lia|].
  split; [Z.div_mod_to_equations; lia|].
  split; [Z.div_mod_to_equations; lia|].
  split; [rewrite Hz; Z.div_mod_to_equations; lia|].
  intros [Hlo Hhi]. split.
  - destruct (Z.le_gt_cases y 99) as [Hy|]; [|lia].
    pose proof (early_years y (m - 1) d Hy ltac:(lia) ltac:(lia)) as He.
    rewrite Hz in He. unfold year100, msPerDay in *.
    change (day_of_month_start 100 0) with (-683003) in *.
    Z.div_mod_to_equations. lia.
  - destruct (Z.le_gt_cases 300000 y) as [Hy|]; [|lia].
    pose proof (late_years y (m - 1) d Hy ltac:(lia) ltac:(lia)) as He.
    rewrite Hz in He. unfold maxTime, msPerDay in *.
    Z.div_mod_to_equations. lia.
Qed.

(** [Date.UTC] on the fields of a local time on the calendar gives the
    local time to the minute. *)
Lemma Date_UTC_fields (x : Z) :
  in_calendar x ->
  let f := Reference.fields_of x in
  Date_UTC (Num (Some (Reference.f_year f)))
           (Num (Some (Reference.f_month f - 1)))
           (Num (Some (Reference.f_day f)))
           (Num (Some (Reference.f_hour f)))
           (Num (Some (Reference.f_minute f)))
  = Some (minute_floor x).
Proof.
  intros Hc. cbv zeta.
  destruct (fields_of_spec x) as (Hm & Hd & Hh & Hmi & _ & Hsum & Hy).
  specialize (Hy Hc).
  set (f := Reference.fields_of x) in *.
  unfold Date_UTC, ToNumber, MakeFullYear.
  assert (E : (0 <=? Reference.f_year f) && (Reference.f_year f <=? 99)
              = false).
  { apply andb_false_iff. right. apply Z.leb_gt. lia. }
  rewrite E. unfold MakeDay.
  rewrite (Z.div_small (Reference.f_month f - 1) 12) by lia.
  rewrite (Z.mod_small (Reference.f_month f - 1) 12) by lia.
  rewrite Z.add_0_r. unfold MakeTime, MakeDate.
  replace ((day_of_month_start (Reference.f_year f) (Reference.f_month f - 1)
            + Reference.f_day f - 1) * msPerDay
           + (Reference.f_hour f * msPerHour
              + Reference.f_minute f * msPerMinute + 0 * 1000 + 0))
    with (minute_floor x) by lia.
  unfold TimeClip.
  assert (B : Z.abs (minute_floor x) <= maxTime).
  { destruct Hc as [Hlo Hhi]. unfold minute_floor, year100, maxTime, msPerDay,
      msPerMinute in *.
    change (day_of_month_start 100 0) with (-683003) in *.
    Z.div_mod_to_equations. lia. }
  destruct (Z.ltb_spec maxTime (Z.abs (minute_floor x))); [lia|reflexivity].
Qed.

(** ** The reference formatter is faithful *)

Lemma or_else_some (s dflt : string) : s <> "" -> or_else (Some s) dflt = s.
Proof.
  intros H. unfold or_else, falsy. now rewrite (eqb_empty_false s H).
Qed.

Lemma parseInt_show (n : Z) :
  0 <= n < ten20 -> parseInt (Reference.show n) = Some n.
Proof.
  intros H. apply parseInt_digits.
  - apply show_digits_only. lia.
  - apply show_nonempty.
  - now apply show_read.
Qed.

Lemma parseInt_pad2 (n : Z) :
  0 <= n < ten20 -> parseInt (Reference.pad2 n) = Some n.
Proof.
  intros H. apply parseInt_digits.
  - apply pad2_digits_only. lia.
  - apply pad2_nonempty.
  - now apply pad2_read.
Qed.

Lemma Number_show (n : Z) :
  0 <= n < ten20 -> Number (Reference.show n) = Some n.
Proof.
  intros H. apply Number_digits.
  - apply show_digits_only. lia.
  - apply show_nonempty.
  - now apply show_read.
Qed.

Lemma Number_pad2 (n : Z) :
  0 <= n < ten20 -> Number (Reference.pad2 n) = Some n.
Proof.
  intros H. apply Number_digits.
  - apply pad2_digits_only. lia.
  - apply pad2_nonempty.
  - now apply pad2_read.
Qed.

(** The parts the reference formatter produces for the option bag of
    [localStringToDate]. *)
Lemma parts_numeric (tb : Reference.table) (h24 : bool) (z : string) (t : Z) :
  let f := Reference.fields_of (t + offsets tb z t) in
  let ps := Reference.parts tb h24 "en-US" (numericOptions z) t in
  find_value "year" ps = Some (Reference.show (Reference.f_year f))
  /\ find_value "month" ps = Some (Reference.show (Reference.f_month f))
  /\ find_value "day" ps = Some (Reference.show (Reference.f_day f))
  /\ find_value "hour" ps
     = Some (Reference.show (Reference.shown_hour h24 (Reference.f_hour f)))
  /\ find_value "minute" ps
     = Some (Reference.pad2 (Reference.f_minute f mod 100)).
Proof.
  unfold offsets. repeat split; reflexivity.
Qed.

(** The parts the reference formatter produces for the option bag of
    [dateToLocalString]. *)
Lemma parts_two_digit (tb : Reference.table) (h24 : bool) (z : string) (t : Z) :
  let f := Reference.fields_of (t + offsets tb z t) in
  let ps := Reference.parts tb h24 "en-GB" (twoDigitOptions z) t in
  find_value "year" ps = Some (Reference.show (Reference.f_year f))
  /\ find_value "month" ps
     = Some (Reference.pad2 (Reference.f_month f mod 100))
  /\ find_value "day" ps = Some (Reference.pad2 (Reference.f_day f mod 100))
  /\ find_value "hour" ps = Some (Reference.pad2 (Reference.f_hour f mod 100))
  /\ find_value "minute" ps
     = Some (Reference.pad2 (Reference.f_minute f mod 100)).
Proof.
  unfold offsets. repeat split; reflexivity.
Qed.

Lemma ten20_large : 300000 < ten20.
Proof. reflexivity. Qed.

(** The hour the loop reads is the hour of the day in either hour cycle. *)
Lemma shown_hour_reads (h24 : bool) (h : Z) :
  0 <= h <= 23 ->
  (let gh := parseInt (Reference.show (Reference.shown_hour h24 h)) in
   if strict_eq gh 24 then Some 0 else gh) = Some h.
Proof.
  intros Hh. pose proof ten20_large. unfold Reference.shown_hour.
  destruct h24; simpl andb.
  - destruct (Z.eqb_spec h 0) as [->|Hn]; [reflexivity|].
    rewrite parseInt_show by lia. cbn [strict_eq].
    destruct (Z.eqb_spec h 24); [lia|reflexivity].
  - rewrite parseInt_show by lia. cbn [strict_eq].
    destruct (Z.eqb_spec h 24); [lia|reflexivity].
Qed.

(** Whatever its hour cycle, the reference formatter's fields read back,
    inside the loop, as the local time to the minute. *)
Lemma reference_reads_back (tb : Reference.table) (h24 : bool) (z : string)
    (t : Z) :
  in_calendar (t + offsets tb z t) ->
  guessTime (Reference.parts tb h24 "en-US" (numericOptions z) t)
  = Some (minute_floor (t + offsets tb z t)).
Proof.
  intros Hc.
  destruct (parts_numeric tb h24 z t) as (Ey & Em & Ed & Eh & Emi).
  destruct (fields_of_spec (t + offsets tb z t))
    as (Hm & Hd & Hh & Hmi & _ & _ & Hy).
  specialize (Hy Hc). pose proof ten20_large as Hbig.
  rewrite <- (Date_UTC_fields _ Hc).
  set (f := Reference.fields_of (t + offsets tb z t)) in *.
  assert (Gh : guessHour (Reference.parts tb h24 "en-US" (numericOptions z) t)
               = Some (Reference.f_hour f)).
  { unfold guessHour, partVal. rewrite Eh.
    rewrite or_else_some by apply show_nonempty.
    exact (shown_hour_reads h24 (Reference.f_hour f) Hh). }
  unfold guessTime. rewrite Gh. unfold partVal.
  rewrite Ey, Em, Ed, Emi.
  repeat rewrite or_else_some by (apply show_nonempty || apply pad2_nonempty).
  rewrite (Z.mod_small (Reference.f_minute f) 100) by lia.
  rewrite (parseInt_show (Reference.f_year f)) by lia.
  rewrite (parseInt_show (Reference.f_month f)) by lia.
  rewrite (parseInt_show (Reference.f_day f)) by lia.
  rewrite (parseInt_pad2 (Reference.f_minute f)) by lia.
  reflexivity.
Qed.

(** In ["en-GB"] the reference formatter renders the wall-clock string of
    the local time, whatever hour cycle its 12-hour locales have. *)
Lemma reference_renders (tb : Reference.table) (h24 : bool) (z : string)
    (t : Z) :
  localTemplate (Reference.parts tb h24 "en-GB" (twoDigitOptions z) t)
  = wallString (t + offsets tb z t).
Proof.
  destruct (parts_two_digit tb h24 z t) as (Ey & Em & Ed & Eh & Emi).
  destruct (fields_of_spec (t + offsets tb z t))
    as (Hm & Hd & Hh & Hmi & _ & _ & _).
  unfold localTemplate, wallString.
  set (f := Reference.fields_of (t + offsets tb z t)) in *.
  rewrite Ey, Em, Ed, Eh, Emi.
  repeat rewrite or_else_some by (apply show_nonempty || apply pad2_nonempty).
  rewrite (Z.mod_small (Reference.f_month f) 100) by lia.
  rewrite (Z.mod_small (Reference.f_day f) 100) by lia.
  rewrite (Z.mod_small (Reference.f_hour f) 100) by lia.
  rewrite (Z.mod_small (Reference.f_minute f) 100) by lia.
  reflexivity.
Qed.

Lemma reference_faithful (tb : Reference.table) :
  faithful (Reference.formatter_of tb false) (offsets tb).
Proof.
  split.
  - intros z t _ Hc. now apply reference_reads_back.
  - intros z t _ _. apply reference_renders.
Qed.

(** ** Formatters that display an offset table *)

Lemma reference_displays (tb : Reference.table) (h24 : bool) :
  displays (Reference.formatter_of tb h24) (offsets tb).
Proof.
  split; intros z t _ _.
  - destruct (parts_numeric tb h24 z t) as (Ey & Em & Ed & Eh & Emi).
    destruct (fields_of_spec (t + offsets tb z t))
      as (_ & _ & _ & Hmi & _).
    cbn [parts_of Reference.formatter_of].
    set (f := Reference.fields_of (t + offsets tb z t)) in *.
    set (ps := Reference.parts tb h24 "en-US" (numericOptions z) t) in *.
    unfold shows_numeric, numeral.
    split; [left; exact Ey|]. split; [left; exact Em|].
    split; [left; exact Ed|]. split.
    + unfold Reference.shown_hour in Eh.
      destruct h24; cbn [andb] in Eh.
      * destruct (Z.eqb_spec (Reference.f_hour f) 0) as [E0|];
          [right; split; [exact E0 | exact Eh] | left; left; exact Eh].
      * left; left; exact Eh.
    + right. rewrite Emi. rewrite Z.mod_small by lia. reflexivity.
  - destruct (parts_two_digit tb h24 z t) as (Ey & Em & Ed & Eh & Emi).
    destruct (fields_of_spec (t + offsets tb z t))
      as (Hm & Hd & Hh & Hmi & _).
    cbn [parts_of Reference.formatter_of].
    set (f := Reference.fields_of (t + offsets tb z t)) in *.
    unfold shows_two_digit.
    rewrite Ey, Em, Ed, Eh, Emi.
    rewrite (Z.mod_small (Reference.f_month f) 100) by lia.
    rewrite (Z.mod_small (Reference.f_day f) 100) by lia.
    rewrite (Z.mod_small (Reference.f_hour f) 100) by lia.
    rewrite (Z.mod_small (Reference.f_minute f) 100) by lia.
    repeat split.
Qed.

(** The number the loop reads from a part that shows a numeral. *)
Lemma partVal_numeral (ps : list part) (t : string) (n : Z) :
  numeral (find_value t ps) n -> 0 <= n < ten20 -> partVal ps t = Some n.
Proof.
  intros [E|E] Hn; unfold partVal; rewrite E.
  - rewrite or_else_some by apply show_nonempty. now apply parseInt_show.
  - rewrite or_else_some by apply pad2_nonempty. now apply parseInt_pad2.
Qed.

(** The loop reads the fields a formatter shows, an hour 24 as the hour 0,
    as the local time to the minute. *)
Lemma displays_reads_back (F : Formatter) (off : string -> Z -> Z)
    (z : string) (t : Z) :
  displays F off ->
  resolves F z = true ->
  in_calendar (t + off z t) ->
  guessTime (parts_of F "en-US" (numericOptions z) t)
  = Some (observed off z t).
Proof.
  intros HD Hr Hc.
  destruct (numeric_fields F off HD z t Hr Hc) as (Ny & Nm & Nd & Nh & Nmi).
  destruct (fields_of_spec (t + off z t))
    as (Hm & Hd & Hh & Hmi & _ & _ & Hy).
  specialize (Hy Hc). pose proof ten20_large as Hbig.
  unfold observed. rewrite <- (Date_UTC_fields _ Hc).
  set (f := Reference.fields_of (t + off z t)) in *.
  set (ps := parts_of F "en-US" (numericOptions z) t) in *.
  assert (Gh : guessHour ps = Some (Reference.f_hour f)).
  { unfold guessHour. destruct Nh as [Nh|[E0 E24]].
    - rewrite (partVal_numeral ps "hour" _ Nh) by lia. cbn [strict_eq].
      destruct (Z.eqb_spec (Reference.f_hour f) 24); [lia|reflexivity].
    - unfold partVal. rewrite E24, E0. reflexivity. }
  unfold guessTime. rewrite Gh.
  rewrite (partVal_numeral ps "year" _ Ny) by lia.
  rewrite (partVal_numeral ps "month" _ Nm) by lia.
  rewrite (partVal_numeral ps "day" _ Nd) by lia.
  rewrite (partVal_numeral ps "minute" _ Nmi) by lia.
  reflexivity.
Qed.

(** [dateToLocalString]'s template over two-digit parts is the wall-clock
    string of the local time. *)
Lemma displays_renders (F : Formatter) (off : string -> Z -> Z)
    (z : string) (t : Z) :
  displays F off ->
  resolves F z = true ->
  in_calendar (t + off z t) ->
  localTemplate (parts_of F "en-GB" (twoDigitOptions z) t)
  = wallString (t + off z t).
Proof.
  intros HD Hr Hc.
  destruct (two_digit_fields F off HD z t Hr Hc) as (Ey & Em & Ed & Eh & Emi).
  unfold localTemplate, wallString.
  rewrite Ey, Em, Ed, Eh, Emi.
  repeat rewrite or_else_some by (apply show_nonempty || apply pad2_nonempty).
  reflexivity.
Qed.

Lemma displays_faithful (F : Formatter) (off : string -> Z -> Z) :
  displays F off -> faithful F off.
Proof.
  intros HD. split; intros z t Hr Hc.
  - exact (displays_reads_back F off z t HD Hr Hc).
  - exact (displays_renders F off z t HD Hr Hc).
Qed.

(** ** resolveInstant *)

Lemma TimeClip_in_range (t : Z) : Z.abs t <= maxTime -> TimeClip (Some t) = Some t.
Proof.
  intros H. unfold TimeClip.
  destruct (Z.ltb_spec maxTime (Z.abs t)); [lia|reflexivity].
Qed.

Lemma readback_bound (F : Formatter) (zone : string) (obs : Z -> Z)
    (center B : Z) :
  readback F zone obs center B -> 0 <= B -> Z.abs (obs center - center) <= B.
Proof.
  intros H HB. apply (H center). rewrite Z.sub_diag. simpl. exact HB.
Qed.

(** The loop of the component computes the iteration of the specification
    as long as the formatter reads back around the desired time. *)
Lemma converge_iterate (F : Formatter) (zone : string) (c : IsoLocal)
    (t0 : Z) (obs : Z -> Z) (B : Z) :
  resolves F zone = true ->
  desiredTime c = Some t0 ->
  readback F zone obs t0 B ->
  Z.abs t0 + B <= maxTime ->
  forall (n : nat) (g : Z),
    Z.abs (g - t0) <= B ->
    converge F zone c n (mkDate (Some g))
    = Ok (mkDate (Some (Spec.iterate obs t0 n g))).
Proof.
  intros Hr Hd Hrb Hmax. induction n as [|n IH]; intros g Hg; [reflexivity|].
  cbn [converge Spec.iterate].
  rewrite (formatToParts_resolved F "en-US" zone) by auto.
  destruct (Hrb g Hg) as [Eobs Hoff].
  cbn [bind]. rewrite Hd, Eobs. cbn [sub abs_lt].
  destruct (Z.abs (t0 - obs g) <? 1000); [reflexivity|].
  cbn [getTime add]. unfold new_Date.
  rewrite TimeClip_in_range by lia.
  apply IH. lia.
Qed.

(** For a string the parser accepts whose fields give the time value [t0],
    and a zone whose displayed fields read back as [obs] around [t0],
    [localStringToDate] returns the three-round iteration over [obs]. *)
Lemma localStringToDate_follows_readings
    (F : Formatter) (s zone : string) (c : IsoLocal) (t0 : Z)
    (obs : Z -> Z) (B : Z) :
  parseIsoLocal s = Some c ->
  desiredTime c = Some t0 ->
  resolves F zone = true ->
  readback F zone obs t0 B ->
  0 <= B ->
  Z.abs t0 + B <= maxTime ->
  localStringToDate F s zone
  = Ok (Some (mkDate (Some (Spec.resolveInstant obs t0)))).
Proof.
  intros Hp Hd Hr Hrb HB Hmax.
  unfold localStringToDate, Spec.resolveInstant. rewrite Hp.
  rewrite Hd. unfold new_Date. rewrite TimeClip_in_range by lia.
  rewrite (converge_iterate F zone c t0 obs B Hr Hd Hrb Hmax 3 t0).
  - reflexivity.
  - rewrite Z.sub_diag. simpl. exact HB.
Qed.

(** The reference formatter reads back around any time well inside the
    calendar, for a zone whose offsets stay below a bound. *)
Lemma reference_readback (tb : Reference.table) (h24 : bool) (z : string)
    (t0 B M : Z) :
  (forall g, Z.abs (offsets tb z g) <= M) ->
  M + msPerMinute <= B ->
  year100 + 2 * B <= t0 <= maxTime - 2 * B ->
  readback (Reference.formatter_of tb h24) z
    (fun g => minute_floor (g + offsets tb z g)) t0 B.
Proof.
  intros Hoff HB Ht g Hg. specialize (Hoff g).
  assert (Hc : in_calendar (g + offsets tb z g))
    by (unfold in_calendar, msPerMinute in *; lia).
  split.
  - exact (reference_reads_back tb h24 z g Hc).
  - unfold minute_floor, msPerMinute in *.
    pose proof (Z.mod_pos_bound (g + offsets tb z g) 60000). lia.
Qed.

Lemma kolkata_offset (g : Z) :
  Z.abs (offsets Reference.zones2024 "Asia/Kolkata" g) <= 19800000.
Proof. cbn. lia. Qed.

Example half_past_nine_in_kolkata :
  localStringToDate Reference.host "2024-01-15T09:30" "Asia/Kolkata"
  = Ok (Some (mkDate (Some 1705291200000))).
Proof.
  assert (Hrb : readback Reference.host "Asia/Kolkata" kolkata_reading
                  1705311000000 msPerDay).
  { apply (reference_readback Reference.zones2024 false "Asia/Kolkata"
             1705311000000 msPerDay 19800000 kolkata_offset).
    - vm_compute. discriminate.
    - vm_compute. split; discriminate. }
  exact (eq_trans
           (localStringToDate_follows_readings Reference.host
              "2024-01-15T09:30" "Asia/Kolkata" half_past_nine 1705311000000
              kolkata_reading msPerDay eq_refl eq_refl eq_refl Hrb
              ltac:(vm_compute; discriminate)
              ltac:(vm_compute; discriminate))
           (eq_refl (Ok (Some (mkDate (Some 1705291200000)))))).
Qed.

(** ** What the parser rejects *)

Lemma split_before_after (x : ascii) (s : string) :
  split x s = Spec.before x s
              :: match Spec.after x s with
                 | Some r => split x r
                 | None => []
                 end.
Proof.
  induction s as [|c r IH]; [reflexivity|]. cbn [split Spec.before Spec.after].
  destruct (Ascii.eqb c x); [reflexivity|].
  rewrite IH. reflexivity.
Qed.

Lemma split_pieces (s : string) :
  nth_error (split "T" s) 0 = Some (Spec.datePart s)
  /\ falsy (nth_error (split "T" s) 1) = String.eqb (Spec.timePart s) "".
Proof.
  rewrite split_before_after. unfold Spec.datePart, Spec.timePart.
  split; [reflexivity|]. cbn [nth_error].
  destruct (Spec.after "T" s) as [r|]; [|reflexivity].
  rewrite split_before_after. reflexivity.
Qed.

(** The parser returns [null] exactly for a string that lacks a part; the
    numbers inside the parts play no role. *)
Lemma parseIsoLocal_null (s : string) :
  parseIsoLocal s = None <-> Spec.lacksPart s.
Proof.
  unfold parseIsoLocal, Spec.lacksPart.
  destruct (split_pieces s) as [E0 E1].
  destruct (String.eqb_spec s "") as [->|Hne]; [tauto|].
  rewrite E0 in *. cbn [falsy].
  destruct (nth_error (split "T" s) 1) as [time|] eqn:E.
  - cbn [falsy] in *. rewrite E1.
    destruct (String.eqb_spec (Spec.datePart s) "") as [Hd|Hd];
      destruct (String.eqb_spec (Spec.timePart s) "") as [Ht|Ht];
      simpl; split; intros H; try tauto; discriminate.
  - cbn [falsy] in E1. rewrite orb_true_r.
    destruct (String.eqb_spec (Spec.timePart s) ""); [tauto|discriminate].
Qed.

Lemma iterate_near (obs : Z -> Z) (t0 B : Z) :
  (forall g, Z.abs (g - t0) <= B -> Z.abs (obs g - g) <= B) ->
  forall (n : nat) (g : Z),
    Z.abs (g - t0) <= B -> Z.abs (Spec.iterate obs t0 n g - t0) <= B.
Proof.
  intros H. induction n as [|n IH]; intros g Hg; [exact Hg|].
  cbn [Spec.iterate]. destruct (Z.abs (t0 - obs g) <? 1000); [exact Hg|].
  apply IH. specialize (H g Hg). lia.
Qed.

(** C10, the claim as stated fails: ["aTb"] has a date part and a time part
    and UTC is resolvable, yet no instant is returned; the fields are [NaN],
    the first guess is the Invalid Date, and the formatter's RangeError
    escapes. *)
Lemma C10_both_parts_yet_no_instant :
  ~ Spec.lacksPart "aTb"
  /\ resolves Reference.host "UTC" = true
  /\ localStringToDate Reference.host "aTb" "UTC" = Throw RangeError.
Proof.
  split; [|split; reflexivity].
  intros [H|[H|H]]; discriminate H.
Qed.

(** C10 as amended: [localStringToDate] returns [null] exactly when its
    input is empty or lacks a ['T']-separated date part or time part; the
    parser rejects nothing else, whatever stands inside the parts; and for
    every input with both parts whose fields give a time value, in a zone the
    formatter resolves and reads back with a bounded offset, a non-null
    valid instant is returned. *)
Theorem C10_null_exactly_when_part_missing
    (F : Formatter) (s zone : string) :
  (localStringToDate F s zone = Ok None <-> Spec.lacksPart s)
  /\ (parseIsoLocal s = None <-> Spec.lacksPart s)
  /\ (forall (c : IsoLocal) (t0 : Z) (obs : Z -> Z) (B : Z),
        parseIsoLocal s = Some c ->
        desiredTime c = Some t0 ->
        resolves F zone = true ->
        readback F zone obs t0 B ->
        0 <= B ->
        Z.abs t0 + B <= maxTime ->
        exists t, localStringToDate F s zone = Ok (Some (mkDate (Some t)))
                  /\ Z.abs t <= maxTime).
Proof.
  split; [|split; [apply parseIsoLocal_null|]].
  - rewrite <- parseIsoLocal_null. split.
    + intros H. destruct (parseIsoLocal s) as [c|] eqn:E; [|reflexivity].
      exfalso. exact (localStringToDate_parsed F s zone c E H).
    + apply localStringToDate_unparsed.
  - intros c t0 obs B Hp Hd Hr Hrb HB Hmax.
    exists (Spec.iterate obs t0 3 t0). split.
    + unfold localStringToDate. rewrite Hp, Hd. unfold new_Date.
      rewrite TimeClip_in_range by lia.
      rewrite (converge_iterate F zone c t0 obs B Hr Hd Hrb Hmax 3 t0);
        [reflexivity|].
      rewrite Z.sub_diag. simpl. exact HB.
    + assert (Hn : Z.abs (Spec.iterate obs t0 3 t0 - t0) <= B).
      { apply iterate_near.
        - intros g Hg. now apply (Hrb g).
        - rewrite Z.sub_diag. simpl. exact HB. }
      lia.
Qed.

Lemma kolkata_readback :
  readback Reference.host "Asia/Kolkata" kolkata_reading
    1705311000000 msPerDay.
Proof.
  apply (reference_readback Reference.zones2024 false "Asia/Kolkata"
           1705311000000 msPerDay 19800000 kolkata_offset).
  - vm_compute. discriminate.
  - vm_compute. split; discriminate.
Qed.

Lemma C10_null_witness :
  parseIsoLocal "2024-01-15T09:30" = Some half_past_nine
  /\ desiredTime half_past_nine = Some 1705311000000
  /\ resolves Reference.host "Asia/Kolkata" = true
  /\ readback Reference.host "Asia/Kolkata" kolkata_reading
       1705311000000 msPerDay
  /\ exists t,
       localStringToDate Reference.host "2024-01-15T09:30" "Asia/Kolkata"
       = Ok (Some (mkDate (Some t)))
       /\ Z.abs t <= maxTime.
Proof.
  assert (Hp : parseIsoLocal "2024-01-15T09:30" = Some half_past_nine)
    by reflexivity.
  assert (Hd : desiredTime half_past_nine = Some 1705311000000)
    by reflexivity.
  assert (Hr : resolves Reference.host "Asia/Kolkata" = true) by reflexivity.
  repeat (split; [assumption || exact kolkata_readback|]).
  exact (proj2 (proj2 (C10_null_exactly_when_part_missing Reference.host
                         "2024-01-15T09:30" "Asia/Kolkata"))
           half_past_nine 1705311000000 kolkata_reading msPerDay
           Hp Hd Hr kolkata_readback
           ltac:(vm_compute; discriminate)
           ltac:(vm_compute; discriminate)).
Defined.

(** ** Wall-clock strings *)

Lemma has_char_append (x : ascii) (a b : string) :
  has_char x (a ++ b) = has_char x a || has_char x b.
Proof.
  induction a as [|c a IH]; [reflexivity|]. simpl. rewrite IH.
  now rewrite orb_assoc.
Qed.

Lemma digits_no_char (x : ascii) (s : string) :
  is_digit x = false -> digits_only s = true -> has_char x s = false.
Proof.
  intros Hx. induction s as [|c r IH]; [reflexivity|]. simpl. intros H.
  apply andb_prop in H as [Hc Hr]. rewrite (IH Hr).
  destruct (Ascii.eqb_spec c x) as [->|]; [congruence|reflexivity].
Qed.

Lemma split_single (x : ascii) (a : string) :
  has_char x a = false -> split x a = [a].
Proof.
  induction a as [|c a IH]; [reflexivity|]. simpl. intros H.
  apply orb_false_elim in H as [Hc Ha]. rewrite Hc, (IH Ha). reflexivity.
Qed.

Lemma split_append (x : ascii) (a b : string) :
  has_char x a = false -> split x (a ++ String x b) = a :: split x b.
Proof.
  induction a as [|c a IH]; simpl.
  - intros _. now rewrite Ascii.eqb_refl.
  - intros H. apply orb_false_elim in H as [Hc Ha].
    rewrite Hc, (IH Ha). reflexivity.
Qed.

Lemma append_nonempty (a b : string) : a <> "" -> a ++ b <> "".
Proof.
  destruct a; [congruence|discriminate].
Qed.

(** The wall-clock string of a local time on the calendar parses, and its
    fields read as UTC give the local time to the minute. *)
Lemma parse_wallString (x : Z) :
  in_calendar x ->
  exists c, parseIsoLocal (wallString x) = Some c
            /\ desiredTime c = Some (minute_floor x).
Proof.
  intros Hc.
  destruct (fields_of_spec x) as (Hm & Hd & Hh & Hmi & _ & _ & Hy).
  specialize (Hy Hc). pose proof ten20_large as Hbig.
  pose proof (Date_UTC_fields x Hc) as HD. cbv zeta in HD.
  unfold wallString.
  set (f := Reference.fields_of x) in *.
  set (Y := Reference.show (Reference.f_year f)).
  set (M := Reference.pad2 (Reference.f_month f)).
  set (D := Reference.pad2 (Reference.f_day f)).
  set (H := Reference.pad2 (Reference.f_hour f)).
  set (Mi := Reference.pad2 (Reference.f_minute f)).
  assert (dY : digits_only Y = true) by (apply show_digits_only; lia).
  assert (dM : digits_only M = true) by (apply pad2_digits_only; lia).
  assert (dD : digits_only D = true) by (apply pad2_digits_only; lia).
  assert (dH : digits_only H = true) by (apply pad2_digits_only; lia).
  assert (dMi : digits_only Mi = true) by (apply pad2_digits_only; lia).
  assert (nY : Y <> "") by apply show_nonempty.
  assert (nH : H <> "") by apply pad2_nonempty.
  set (date := Y ++ String "-" (M ++ String "-" D)).
  set (time := H ++ String ":" Mi).
  assert (Es : Y ++ "-" ++ M ++ "-" ++ D ++ "T" ++ H ++ ":" ++ Mi
               = date ++ String "T" time).
  { subst date time. cbn [append]. repeat rewrite append_assoc.
    cbn [append]. repeat rewrite append_assoc. reflexivity. }
  rewrite Es.
  assert (Td : has_char "T" date = false).
  { subst date. rewrite has_char_append. cbn [has_char].
    rewrite has_char_append. cbn [has_char].
    rewrite !(digits_no_char "T") by (reflexivity || assumption).
    reflexivity. }
  assert (Tt : has_char "T" time = false).
  { subst time. rewrite has_char_append. cbn [has_char].
    rewrite !(digits_no_char "T") by (reflexivity || assumption).
    reflexivity. }
  assert (Sd : split "-" date = [Y; M; D]).
  { subst date.
    rewrite split_append by (apply digits_no_char; [reflexivity|assumption]).
    rewrite split_append by (apply digits_no_char; [reflexivity|assumption]).
    rewrite split_single by (apply digits_no_char; [reflexivity|assumption]).
    reflexivity. }
  assert (St : split ":" time = [H; Mi]).
  { subst time.
    rewrite split_append by (apply digits_no_char; [reflexivity|assumption]).
    rewrite split_single by (apply digits_no_char; [reflexivity|assumption]).
    reflexivity. }
  assert (nd : date <> "") by (subst date; now apply append_nonempty).
  assert (nt : time <> "") by (subst time; now apply append_nonempty).
  unfold parseIsoLocal.
  rewrite (eqb_empty_false _ (append_nonempty date (String "T" time) nd)).
  rewrite (split_append "T" date time Td), (split_single "T" time Tt).
  cbn [nth_error falsy].
  rewrite (eqb_empty_false date nd), (eqb_empty_false time nt).
  cbn [orb]. rewrite Sd, St. cbn [map element nth_error ToNumber].
  subst Y M D H Mi.
  rewrite Number_show by lia. repeat rewrite Number_pad2 by lia.
  cbn [sub].
  eexists. split; [reflexivity|]. unfold desiredTime. cbn. exact HD.
Qed.

(** ** Round trips *)

Lemma minute_floor_whole (x : Z) : x mod msPerMinute = 0 -> minute_floor x = x.
Proof. unfold minute_floor. intros ->. lia. Qed.

(** In a zone with at most one transition nearby, the iteration started at
    the wall clock that an instant outside the transition's window displays
    comes back to that instant within its three rounds. *)
Lemma iterate_one_transition (o : Z -> Z) (t T o1 o2 s : Z) :
  one_transition o t T o1 o2 ->
  outside_window t T ->
  s = t + o t ->
  s mod msPerMinute = 0 ->
  Spec.iterate (fun g => minute_floor (g + o g)) s 3 s = t.
Proof.
  intros (Hrule & H1 & H2 & Hs & W1 & W2) Hout Es Ws.
  unfold outside_window, maxOffset, buffer, reach, msPerHour, msPerMinute in *.
  set (obs := fun g => minute_floor (g + o g)).
  assert (Step : forall k g,
             Z.abs (g - t) <= 108000000 -> g mod 60000 = 0 ->
             Spec.iterate obs s (S k) g
             = if g + (if g <? T then o1 else o2) =? s then g
               else Spec.iterate obs s k (s - (if g <? T then o1 else o2))).
  { intros k g Hg Wg. cbn [Spec.iterate]. unfold obs.
    rewrite (Hrule g Hg).
    rewrite minute_floor_whole
      by (unfold msPerMinute; destruct (g <? T); Z.div_mod_to_equations; lia).
    destruct (Z.eqb_spec (g + (if g <? T then o1 else o2)) s) as [E|N].
    - rewrite <- E.
      replace (g + (if g <? T then o1 else o2)
               - (g + (if g <? T then o1 else o2))) with 0 by lia.
      reflexivity.
    - destruct (Z.ltb_spec (Z.abs (s - (g + (if g <? T then o1 else o2)))) 1000)
        as [Hlt|_].
      + exfalso. destruct (g <? T); Z.div_mod_to_equations; lia.
      + f_equal. lia. }
  assert (Et : o t = if t <? T then o1 else o2)
    by (apply Hrule; rewrite Z.sub_diag; simpl; lia).
  assert (Stop : forall g, Spec.iterate obs s 0 g = g) by reflexivity.
  destruct (Z.ltb_spec t T) as [Ht|Ht].
  all: repeat first
    [ lia
    | match goal with
      | |- context [?a <? ?b] => destruct (Z.ltb_spec a b)
      | |- context [?a =? ?b] => destruct (Z.eqb_spec a b)
      end
    | rewrite Step by (try lia; Z.div_mod_to_equations; lia)
    | rewrite Stop ].
Qed.

Lemma one_transition_offset (o : Z -> Z) (t T o1 o2 g : Z) :
  one_transition o t T o1 o2 ->
  Z.abs (g - t) <= reach ->
  Z.abs (o g) <= maxOffset /\ o g mod msPerMinute = 0.
Proof.
  intros (Hrule & H1 & H2 & _ & W1 & W2) Hg. rewrite (Hrule g Hg).
  destruct (g <? T); split; assumption.
Qed.

(** With a faithful formatter, the wall clock that an instant outside the
    window of the zone's one nearby transition displays resolves to that
    instant. *)
Lemma resolve_outside_window (F : Formatter) (off : string -> Z -> Z)
    (z : string) (t T o1 o2 : Z) :
  faithful F off ->
  resolves F z = true ->
  one_transition (off z) t T o1 o2 ->
  outside_window t T ->
  (t + off z t) mod msPerMinute = 0 ->
  year100 + margin <= t + off z t <= maxTime - margin ->
  localStringToDate F (wallString (t + off z t)) z
  = Ok (Some (mkDate (Some t))).
Proof.
  intros HF Hr H1 Hout Ws Hs.
  set (s := t + off z t) in *.
  assert (Hc : in_calendar s)
    by (unfold in_calendar, margin, msPerDay in *; lia).
  destruct (parse_wallString s Hc) as (c & Hp & Hd).
  rewrite (minute_floor_whole s Ws) in Hd.
  destruct (one_transition_offset (off z) t T o1 o2 t H1) as [Ht _].
  { rewrite Z.sub_diag. discriminate. }
  set (obs := fun g => minute_floor (g + off z g)).
  assert (Hrb : readback F z obs s (maxOffset + msPerMinute)).
  { intros g Hg.
    destruct (one_transition_offset (off z) t T o1 o2 g H1) as [Hog _].
    { unfold reach, maxOffset, msPerHour, msPerMinute in *. subst s. lia. }
    assert (Hcg : in_calendar (g + off z g)).
    { unfold in_calendar, margin, maxOffset, msPerDay, msPerHour,
        msPerMinute in *. lia. }
    split; [exact (reads_back F off HF z g Hr Hcg)|].
    unfold obs, minute_floor, maxOffset, msPerHour, msPerMinute in *.
    pose proof (Z.mod_pos_bound (g + off z g) 60000). lia. }
  assert (Hmax : Z.abs s + (maxOffset + msPerMinute) <= maxTime).
  { unfold margin, maxOffset, year100, maxTime, msPerDay, msPerHour,
      msPerMinute in *.
    change (day_of_month_start 100 0) with (-683003) in *. lia. }
  unfold localStringToDate. rewrite Hp, Hd. unfold new_Date.
  rewrite TimeClip_in_range
    by (unfold maxOffset, msPerHour, msPerMinute in *; lia).
  rewrite (converge_iterate F z c s obs _ Hr Hd Hrb Hmax 3 s)
    by (rewrite Z.sub_diag; discriminate).
  cbn [bind]. unfold obs.
  rewrite (iterate_one_transition (off z) t T o1 o2 s H1 Hout eq_refl Ws).
  reflexivity.
Qed.

Lemma dateToLocalString_faithful (F : Formatter) (off : string -> Z -> Z)
    (z : string) (t : Z) :
  faithful F off ->
  resolves F z = true ->
  in_calendar (t + off z t) ->
  dateToLocalString F (mkDate (Some t)) z = wallString (t + off z t).
Proof.
  intros HF Hr Hc. unfold dateToLocalString.
  rewrite (formatToParts_resolved F "en-GB" z) by auto.
  exact (renders F off HF z t Hr Hc).
Qed.

(** C2, at the failing input: UTC has no transition at all, and the wall
    clock 0050-01-01T10:00 does not come back from the round trip from UTC
    to UTC.  The first guess of [localStringToDate] is not the wall clock
    read as UTC: [Date.UTC] moves the year 50 to 1950, the loop finds that
    guess displayed as it stands, and the instant returned is
    1950-01-01T10:00Z. *)
Theorem C2_year_below_100_no_round_trip :
  (forall g, offsets Reference.zones2024 "UTC" g = 0)
  /\ localStringToDate Reference.host "0050-01-01T10:00" "UTC"
     = Ok (Some (mkDate (Some (-631116000000))))
  /\ Spec.convert Reference.host "0050-01-01T10:00" "UTC" "UTC"
     = Ok (Some "1950-01-01T10:00")
  /\ Spec.roundTrip Reference.host "0050-01-01T10:00" "UTC" "UTC"
     = Ok (Some "1950-01-01T10:00")
  /\ Spec.roundTrip Reference.host "0050-01-01T10:00" "UTC" "UTC"
     <> Ok (Some "0050-01-01T10:00").
Proof.
  split; [reflexivity|]. split; [reflexivity|]. split; [reflexivity|].
  split; [reflexivity|].
  vm_compute. discriminate.
Qed.

(** X19: the round trip away from transitions.  With a formatter faithful
    to the zones' offsets, for zones A and B it resolves and a whole-minute
    instant [t] between four days after 0100-01-01T00:00Z and four days
    before the last time value: if within 30 hours of [t] each zone has at
    most one offset transition (offsets of whole minutes within 14 hours of
    UTC, a shift of at most two hours) and [t] is strictly more than two
    hours away from it, then the wall clock [w] that [t] displays in A, in
    the form [dateToLocalString] renders it (the year not padded), converts
    to the wall clock [t] displays in B, and converting that back gives
    [w]. *)
Theorem X19_round_trip_outside_windows
    (F : Formatter) (off : string -> Z -> Z) (A B w : string)
    (t TA a1 a2 TB b1 b2 : Z) :
  faithful F off ->
  resolves F A = true ->
  resolves F B = true ->
  one_transition (off A) t TA a1 a2 ->
  outside_window t TA ->
  one_transition (off B) t TB b1 b2 ->
  outside_window t TB ->
  t mod msPerMinute = 0 ->
  year100 + 2 * margin <= t <= maxTime - 2 * margin ->
  w = wallString (t + off A t) ->
  Spec.convert F w A B = Ok (Some (wallString (t + off B t)))
  /\ Spec.roundTrip F w A B = Ok (Some w).
Proof.
  intros HF HA HB H1A HoA H1B HoB Wt Ht ->.
  destruct (one_transition_offset (off A) t TA a1 a2 t H1A) as [HaA WA].
  { rewrite Z.sub_diag. discriminate. }
  destruct (one_transition_offset (off B) t TB b1 b2 t H1B) as [HaB WB].
  { rewrite Z.sub_diag. discriminate. }
  assert (RA : localStringToDate F (wallString (t + off A t)) A
               = Ok (Some (mkDate (Some t)))).
  { apply (resolve_outside_window F off A t TA a1 a2);
      try assumption.
    - unfold msPerMinute in *. Z.div_mod_to_equations. lia.
    - unfold margin, maxOffset, msPerDay, msPerHour in *. lia. }
  assert (RB : localStringToDate F (wallString (t + off B t)) B
               = Ok (Some (mkDate (Some t)))).
  { apply (resolve_outside_window F off B t TB b1 b2);
      try assumption.
    - unfold msPerMinute in *. Z.div_mod_to_equations. lia.
    - unfold margin, maxOffset, msPerDay, msPerHour in *. lia. }
  assert (DB : dateToLocalString F (mkDate (Some t)) B
               = wallString (t + off B t)).
  { apply dateToLocalString_faithful; try assumption.
    unfold in_calendar, margin, maxOffset, msPerDay, msPerHour in *. lia. }
  assert (DA : dateToLocalString F (mkDate (Some t)) A
               = wallString (t + off A t)).
  { apply dateToLocalString_faithful; try assumption.
    unfold in_calendar, margin, maxOffset, msPerDay, msPerHour in *. lia. }
  assert (C1 : Spec.convert F (wallString (t + off A t)) A B
               = Ok (Some (wallString (t + off B t)))).
  { unfold Spec.convert. rewrite RA. cbn [bind option_map]. rewrite DB. reflexivity. }
  split; [exact C1|].
  unfold Spec.roundTrip. rewrite C1. cbn [bind].
  unfold Spec.convert. rewrite RB. cbn [bind option_map]. rewrite DA. reflexivity.
Qed.

Lemma new_york_in_march :
  one_transition (offsets Reference.zones2024 "America/New_York")
    after_spring_forward ny_forward (Reference.hours (-5))
    (Reference.hours (-4)).
Proof.
  unfold one_transition. split; [|repeat split; discriminate].
  intros g Hg. unfold after_spring_forward, ny_forward, reach, msPerHour in *.
  change (offsets Reference.zones2024 "America/New_York" g)
    with (if (1710054000000 <=? g) && (g <? 1730613600000)
          then Reference.hours (-4) else Reference.hours (-5)).
  destruct (Z.leb_spec 1710054000000 g); destruct (Z.ltb_spec g 1730613600000);
    destruct (Z.ltb_spec g 1710054000000); simpl; try reflexivity; lia.
Qed.

Lemma london_in_march :
  one_transition (offsets Reference.zones2024 "Europe/London")
    after_spring_forward london_forward 0 (Reference.hours 1).
Proof.
  unfold one_transition. split; [|repeat split; discriminate].
  intros g Hg.
  unfold after_spring_forward, london_forward, reach, msPerHour in *.
  change (offsets Reference.zones2024 "Europe/London" g)
    with (if (1711846800000 <=? g) && (g <? 1729990800000)
          then Reference.hours 1 else 0).
  destruct (Z.leb_spec 1711846800000 g); destruct (Z.ltb_spec g 1729990800000);
    destruct (Z.ltb_spec g 1711846800000); simpl; try reflexivity; lia.
Qed.

Lemma X19_round_trip_witness :
  faithful Reference.host (offsets Reference.zones2024)
  /\ one_transition (offsets Reference.zones2024 "America/New_York")
       after_spring_forward ny_forward (Reference.hours (-5))
       (Reference.hours (-4))
  /\ outside_window after_spring_forward ny_forward
  /\ one_transition (offsets Reference.zones2024 "Europe/London")
       after_spring_forward london_forward 0 (Reference.hours 1)
  /\ outside_window after_spring_forward london_forward
  /\ Spec.convert Reference.host "2024-03-10T08:00"
       "America/New_York" "Europe/London"
     = Ok (Some "2024-03-10T12:00")
  /\ Spec.roundTrip Reference.host "2024-03-10T08:00"
       "America/New_York" "Europe/London"
     = Ok (Some "2024-03-10T08:00").
Proof.
  assert (HF : faithful Reference.host (offsets Reference.zones2024))
    by exact (reference_faithful Reference.zones2024).
  assert (HoA : outside_window after_spring_forward ny_forward)
    by (vm_compute; reflexivity).
  assert (HoB : outside_window after_spring_forward london_forward)
    by (vm_compute; reflexivity).
  split; [exact HF|]. split; [exact new_york_in_march|].
  split; [exact HoA|]. split; [exact london_in_march|].
  split; [exact HoB|].
  exact (X19_round_trip_outside_windows Reference.host
           (offsets Reference.zones2024)
           "America/New_York" "Europe/London" "2024-03-10T08:00"
           after_spring_forward ny_forward (Reference.hours (-5))
           (Reference.hours (-4)) london_forward 0 (Reference.hours 1)
           HF eq_refl eq_refl new_york_in_march HoA london_in_march HoB
           eq_refl
           ltac:(vm_compute; split; discriminate)
           eq_refl).
Defined.

(** ** Scenarios *)

Example Date_UTC_epoch :
  Date_UTC (Num (Some 1970)) (Num (Some 0)) (Num (Some 1))
           (Num (Some 0)) (Num (Some 0)) = Some 0.
Proof. reflexivity. Qed.

Example Date_UTC_month_overflow :
  Date_UTC (Num (Some 2024)) (Num (Some 12)) (Num (Some 1))
           (Num (Some 0)) (Num (Some 0)) = Some 1735689600000.
Proof. reflexivity. Qed.

Example Date_UTC_day_overflow :
  Date_UTC (Num (Some 2024)) (Num (Some 1)) (Num (Some 30))
           (Num (Some 0)) (Num (Some 0)) = Some 1709251200000.
Proof. reflexivity. Qed.

Example Date_UTC_two_digit_year :
  Date_UTC (Num (Some 50)) (Num (Some 0)) (Num (Some 1))
           (Num (Some 10)) (Num (Some 0)) = Some (-631116000000).
Proof. reflexivity. Qed.

Example new_york_winter_to_utc :
  Spec.convert Reference.host "2024-01-15T14:00" "America/New_York" "UTC"
  = Ok (Some "2024-01-15T19:00").
Proof. vm_compute. reflexivity. Qed.

Example new_york_summer_to_utc :
  Spec.convert Reference.host "2024-07-15T14:00" "America/New_York" "UTC"
  = Ok (Some "2024-07-15T18:00").
Proof. vm_compute. reflexivity. Qed.

Example kolkata_to_utc :
  Spec.convert Reference.host "2024-01-15T09:30" "Asia/Kolkata" "UTC"
  = Ok (Some "2024-01-15T04:00").
Proof. vm_compute. reflexivity. Qed.

Example london_summer_label :
  getAbbreviation Reference.host (mkDate (Some 1720000000000)) "Europe/London"
  = "BST (GMT+1)".
Proof. vm_compute. reflexivity. Qed.

Example london_winter_label :
  getAbbreviation Reference.host morning "Europe/London" = "GMT".
Proof. vm_compute. reflexivity. Qed.

(** * Further properties of the component *)

(** ** Renders settle *)

Lemma effect_after_user_edit (F : Formatter) (p : Props) (val : string)
    (st st' : State) :
  handleUserTimeChange F p val st = (st', Ok tt) ->
  timezoneEffect F p st' = (st', Ok tt).
Proof.
  unfold handleUserTimeChange, timezoneEffect.
  destruct (String.eqb_spec val "") as [->|Hne]; simpl.
  - intros H. injection H as <-. reflexivity.
  - destruct (localStringToDate F val (userTimezone p)) as [[d|]|e] eqn:Ed;
      intros H; try discriminate; injection H as <-; simpl;
      rewrite (eqb_empty_false val Hne); simpl; rewrite Ed; reflexivity.
Qed.

Lemma effect_after_client_edit (F : Formatter) (p : Props) (val : string)
    (st st' : State) :
  handleClientTimeChange F p val st = (st', Ok tt) ->
  timezoneEffect F p st' = (st', Ok tt).
Proof.
  unfold handleClientTimeChange, timezoneEffect.
  destruct (String.eqb_spec val "") as [->|Hne]; simpl.
  - intros H. injection H as <-. reflexivity.
  - destruct (localStringToDate F val (clientTimezone p)) as [[d|]|e] eqn:Ed;
      intros H; try discriminate; injection H as <-; simpl;
      rewrite (eqb_empty_false val Hne); simpl; rewrite Ed; reflexivity.
Qed.

(** X1: renders settle.  Once the time-zone effect has completed, running
    it again (its own update re-triggers it) changes nothing; and after an
    edit handler has completed, the effect that the edit triggers changes
    nothing of what the handler set. *)
Theorem X1_renders_settle (F : Formatter) (p : Props) (st st' : State) :
  (timezoneEffect F p st = (st', Ok tt) ->
   timezoneEffect F p st' = (st', Ok tt))
  /\ (forall val, handleUserTimeChange F p val st = (st', Ok tt) ->
                  timezoneEffect F p st' = (st', Ok tt))
  /\ (forall val, handleClientTimeChange F p val st = (st', Ok tt) ->
                  timezoneEffect F p st' = (st', Ok tt)).
Proof.
  split; [apply timezoneEffect_stable|]. split; intros val.
  - apply effect_after_user_edit.
  - apply effect_after_client_edit.
Qed.

(** X2: the time-zone effect never touches the anchor nor the anchored
    field: it changes at most the other field; when the anchored field is
    empty, or unparsable, or its conversion throws, the state stays exactly
    as it was. *)
Theorem X2_effect_keeps_anchor (F : Formatter) (p : Props) (st : State) :
  let r := timezoneEffect F p st in
  lastEdited (fst r) = lastEdited st
  /\ (lastEdited st = user ->
      userMeetingTime (fst r) = userMeetingTime st)
  /\ (lastEdited st = client ->
      clientMeetingTime (fst r) = clientMeetingTime st)
  /\ (snd r <> Ok tt -> fst r = st)
  /\ (lastEdited st = user -> userMeetingTime st = "" -> r = (st, Ok tt))
  /\ (lastEdited st = client -> clientMeetingTime st = "" -> r = (st, Ok tt))
  /\ (lastEdited st = user -> parseIsoLocal (userMeetingTime st) = None ->
      r = (st, Ok tt))
  /\ (lastEdited st = client -> parseIsoLocal (clientMeetingTime st) = None ->
      r = (st, Ok tt)).
Proof.
  destruct st as [a b s]. unfold timezoneEffect. simpl.
  destruct s; simpl.
  - destruct (String.eqb_spec a "") as [->|Ha]; simpl.
    + repeat split; intros; congruence.
    + destruct (localStringToDate F a (userTimezone p)) as [[d|]|e] eqn:Ed;
        simpl; repeat split; intros; try congruence.
      * rewrite (localStringToDate_unparsed F a _ H0) in Ed. discriminate.
      * rewrite (localStringToDate_unparsed F a _ H0) in Ed. discriminate.
  - destruct (String.eqb_spec b "") as [->|Hb]; simpl.
    + repeat split; intros; congruence.
    + destruct (localStringToDate F b (clientTimezone p)) as [[d|]|e] eqn:Ed;
        simpl; repeat split; intros; try congruence.
      * rewrite (localStringToDate_unparsed F b _ H0) in Ed. discriminate.
      * rewrite (localStringToDate_unparsed F b _ H0) in Ed. discriminate.
Qed.

Lemma X1_renders_settle_witness :
  handleClientTimeChange Reference.host ny_london "2024-03-01T16:00" march
  = (mkState "2024-03-01T11:00" "2024-03-01T16:00" client, Ok tt)
  /\ timezoneEffect Reference.host ny_london
       (mkState "2024-03-01T11:00" "2024-03-01T16:00" client)
     = (mkState "2024-03-01T11:00" "2024-03-01T16:00" client, Ok tt).
Proof.
  assert (H : handleClientTimeChange Reference.host ny_london
                "2024-03-01T16:00" march
              = (mkState "2024-03-01T11:00" "2024-03-01T16:00" client, Ok tt))
    by (vm_compute; reflexivity).
  split; [exact H|].
  exact (proj2 (proj2 (X1_renders_settle Reference.host ny_london march
                         (mkState "2024-03-01T11:00" "2024-03-01T16:00"
                            client)))
           "2024-03-01T16:00" H).
Defined.

(** ** Rendering and resolving *)

(** X3: what [dateToLocalString] renders, [parseIsoLocal] accepts.  With a
    faithful formatter, for an instant and a resolvable zone whose local
    time at the instant (the instant plus the zone's offset) lies on the
    calendar, from 0100-01-01T00:00 to the last time value: the string
    rendered parses, and [Date.UTC] reads its fields as that local time to
    the minute. *)
Theorem X3_rendered_string_parses
    (F : Formatter) (off : string -> Z -> Z) (z : string) (t : Z) :
  faithful F off ->
  resolves F z = true ->
  in_calendar (t + off z t) ->
  exists c,
    parseIsoLocal (dateToLocalString F (mkDate (Some t)) z) = Some c
    /\ desiredTime c = Some (minute_floor (t + off z t)).
Proof.
  intros HF Hr Hc.
  rewrite (dateToLocalString_faithful F off z t HF Hr Hc).
  now apply parse_wallString.
Qed.

Lemma X3_rendered_string_witness :
  faithful Reference.host (offsets Reference.zones2024)
  /\ resolves Reference.host "Asia/Kolkata" = true
  /\ in_calendar (1705312800123 + offsets Reference.zones2024 "Asia/Kolkata"
                                    1705312800123)
  /\ exists c,
       parseIsoLocal (dateToLocalString Reference.host
                        (mkDate (Some 1705312800123)) "Asia/Kolkata")
       = Some c
       /\ desiredTime c = Some 1705332600000.
Proof.
  assert (HF : faithful Reference.host (offsets Reference.zones2024))
    by exact (reference_faithful Reference.zones2024).
  assert (Hc : in_calendar
                 (1705312800123 + offsets Reference.zones2024 "Asia/Kolkata"
                                    1705312800123))
    by (vm_compute; split; discriminate).
  split; [exact HF|]. split; [reflexivity|]. split; [exact Hc|].
  exact (X3_rendered_string_parses Reference.host
           (offsets Reference.zones2024) "Asia/Kolkata" 1705312800123
           HF eq_refl Hc).
Defined.

(** With a faithful formatter and offsets bounded around the wall clock
    read as UTC, [localStringToDate] returns the three-round iteration over
    the zone's local time. *)
Lemma resolve_by_iterate (F : Formatter) (off : string -> Z -> Z)
    (z : string) (s : Z) :
  faithful F off ->
  resolves F z = true ->
  (forall g, Z.abs (g - s) <= maxOffset + msPerMinute ->
             Z.abs (off z g) <= maxOffset) ->
  s mod msPerMinute = 0 ->
  year100 + margin <= s <= maxTime - margin ->
  localStringToDate F (wallString s) z
  = Ok (Some (mkDate (Some
       (Spec.iterate (fun g => minute_floor (g + off z g)) s 3 s)))).
Proof.
  intros HF Hr Hb Ws Hs.
  assert (Hc : in_calendar s)
    by (unfold in_calendar, margin, msPerDay in *; lia).
  destruct (parse_wallString s Hc) as (c & Hp & Hd).
  rewrite (minute_floor_whole s Ws) in Hd.
  set (obs := fun g => minute_floor (g + off z g)).
  assert (Hrb : readback F z obs s (maxOffset + msPerMinute)).
  { intros g Hg. pose proof (Hb g Hg) as Hog.
    assert (Hcg : in_calendar (g + off z g)).
    { unfold in_calendar, margin, maxOffset, msPerDay, msPerHour,
        msPerMinute in *. lia. }
    split; [exact (reads_back F off HF z g Hr Hcg)|].
    unfold obs, minute_floor, maxOffset, msPerHour, msPerMinute in *.
    pose proof (Z.mod_pos_bound (g + off z g) 60000). lia. }
  assert (Hmax : Z.abs s + (maxOffset + msPerMinute) <= maxTime).
  { unfold margin, maxOffset, year100, maxTime, msPerDay, msPerHour,
      msPerMinute in *.
    change (day_of_month_start 100 0) with (-683003) in *. lia. }
  unfold localStringToDate. rewrite Hp, Hd. unfold new_Date.
  rewrite TimeClip_in_range
    by (unfold maxOffset, msPerHour, msPerMinute in *; lia).
  rewrite (converge_iterate F z c s obs _ Hr Hd Hrb Hmax 3 s)
    by (rewrite Z.sub_diag; discriminate).
  reflexivity.
Qed.

(** X4: one shift is enough when the offset does not move.  With a faithful
    formatter and a resolvable zone, let [s] be a wall clock of whole
    minutes read as UTC, two days or more after 0100-01-01T00:00Z and before
    the last time value, given as [dateToLocalString] renders it; let the
    zone's offsets within 14 hours and a minute of [s] stay within 14 hours,
    and the offset at [s] be of whole minutes.  If the zone's offset at the
    first corrected guess ([s] minus the offset found at [s]) equals the
    offset found at [s], [localStringToDate] returns that guess, and the
    guess displays the wall clock.  This covers a zone without transitions
    nearby, and a wall clock that occurs twice when clocks go back: it
    resolves to the occurrence with the offset in force at the naive first
    guess. *)
Theorem X4_first_correction_returned
    (F : Formatter) (off : string -> Z -> Z) (z : string) (s : Z) :
  faithful F off ->
  resolves F z = true ->
  (forall g, Z.abs (g - s) <= maxOffset + msPerMinute ->
             Z.abs (off z g) <= maxOffset) ->
  s mod msPerMinute = 0 ->
  off z s mod msPerMinute = 0 ->
  year100 + margin <= s <= maxTime - margin ->
  off z (s - off z s) = off z s ->
  localStringToDate F (wallString s) z
  = Ok (Some (mkDate (Some (s - off z s))))
  /\ dateToLocalString F (mkDate (Some (s - off z s))) z = wallString s.
Proof.
  intros HF Hr Hb Ws Wo Hs Hsame.
  assert (Hos : Z.abs (off z s) <= maxOffset)
    by (apply Hb; rewrite Z.sub_diag; discriminate).
  split.
  - rewrite (resolve_by_iterate F off z s HF Hr Hb Ws Hs).
    do 4 f_equal. cbn [Spec.iterate].
    rewrite (minute_floor_whole (s + off z s))
      by (unfold msPerMinute in *; Z.div_mod_to_equations; lia).
    destruct (Z.ltb_spec (Z.abs (s - (s + off z s))) 1000) as [Hlt|Hge].
    + unfold msPerMinute in *. Z.div_mod_to_equations. lia.
    + replace (s + (s - (s + off z s))) with (s - off z s) by lia.
      rewrite Hsame.
      replace (s - off z s + off z s) with s by lia.
      rewrite (minute_floor_whole s Ws).
      rewrite Z.sub_diag. reflexivity.
  - rewrite (dateToLocalString_faithful F off z (s - off z s) HF Hr).
    + rewrite Hsame. f_equal. lia.
    + rewrite Hsame.
      unfold in_calendar, margin, msPerDay in *. lia.
Qed.

Lemma new_york_bounded (g : Z) :
  Z.abs (offsets Reference.zones2024 "America/New_York" g) <= maxOffset.
Proof.
  change (offsets Reference.zones2024 "America/New_York" g)
    with (if (1710054000000 <=? g) && (g <? 1730613600000)
          then Reference.hours (-4) else Reference.hours (-5)).
  destruct ((1710054000000 <=? g) && (g <? 1730613600000)); discriminate.
Qed.

Lemma X4_first_correction_witness :
  faithful Reference.host (offsets Reference.zones2024)
  /\ offsets Reference.zones2024 "America/New_York"
       (1730597400000
        - offsets Reference.zones2024 "America/New_York" 1730597400000)
     = offsets Reference.zones2024 "America/New_York" 1730597400000
  /\ localStringToDate Reference.host "2024-11-03T01:30" "America/New_York"
     = Ok (Some (mkDate (Some 1730611800000)))
  /\ dateToLocalString Reference.host (mkDate (Some 1730611800000))
       "America/New_York" = "2024-11-03T01:30".
Proof.
  assert (HF : faithful Reference.host (offsets Reference.zones2024))
    by exact (reference_faithful Reference.zones2024).
  assert (Hsame : offsets Reference.zones2024 "America/New_York"
                    (1730597400000
                     - offsets Reference.zones2024 "America/New_York"
                         1730597400000)
                  = offsets Reference.zones2024 "America/New_York"
                      1730597400000) by reflexivity.
  split; [exact HF|]. split; [exact Hsame|].
  exact (X4_first_correction_returned Reference.host
           (offsets Reference.zones2024) "America/New_York" 1730597400000
           HF eq_refl (fun g _ => new_york_bounded g) eq_refl eq_refl
           ltac:(vm_compute; split; discriminate) Hsame).
Defined.

(** One round of the iteration in a zone with at most one transition. *)
Lemma iterate_round (o : Z -> Z) (t T o1 o2 s : Z) :
  one_transition o t T o1 o2 ->
  s mod msPerMinute = 0 ->
  forall (k : nat) (g : Z),
    Z.abs (g - t) <= reach -> g mod msPerMinute = 0 ->
    Spec.iterate (fun g => minute_floor (g + o g)) s (S k) g
    = if g + (if g <? T then o1 else o2) =? s then g
      else Spec.iterate (fun g => minute_floor (g + o g)) s k
             (s - (if g <? T then o1 else o2)).
Proof.
  intros (Hrule & H1 & H2 & Hs & W1 & W2) Ws k g Hg Wg.
  cbn [Spec.iterate]. rewrite (Hrule g Hg).
  unfold msPerMinute in *.
  rewrite minute_floor_whole
    by (unfold msPerMinute; destruct (g <? T); Z.div_mod_to_equations; lia).
  destruct (Z.eqb_spec (g + (if g <? T then o1 else o2)) s) as [E|N].
  - rewrite <- E.
    replace (g + (if g <? T then o1 else o2)
             - (g + (if g <? T then o1 else o2))) with 0 by lia.
    reflexivity.
  - destruct (Z.ltb_spec (Z.abs (s - (g + (if g <? T then o1 else o2)))) 1000)
      as [Hlt|_].
    + exfalso. destruct (g <? T); Z.div_mod_to_equations; lia.
    + f_equal. lia.
Qed.

(** X5: a wall clock skipped when clocks go forward.  In a zone with one
    transition nearby, if the wall clock falls in the gap (it is too late
    for the old offset and too early for the new one), no instant displays
    it; [localStringToDate] uses all three rounds without converging and
    returns the first corrected guess, and that instant displays the wall
    clock moved by the size of the shift. *)
Theorem X5_wall_clock_in_gap
    (F : Formatter) (off : string -> Z -> Z) (z : string) (s T o1 o2 : Z) :
  faithful F off ->
  resolves F z = true ->
  one_transition (off z) s T o1 o2 ->
  s mod msPerMinute = 0 ->
  year100 + margin <= s <= maxTime - margin ->
  T <= s - o1 ->
  s - o2 < T ->
  let r := s - off z s in
  localStringToDate F (wallString s) z = Ok (Some (mkDate (Some r)))
  /\ (forall t, Z.abs (t - s) <= reach -> t + off z t <> s)
  /\ Z.abs (r + off z r - s) = o2 - o1
  /\ 0 < o2 - o1
  /\ dateToLocalString F (mkDate (Some r)) z = wallString (r + off z r).
Proof.
  intros HF Hr H1 Ws Hs Hlate Hearly r.
  pose proof H1 as (Hrule & B1 & B2 & Bs & W1 & W2).
  assert (Hb : forall g, Z.abs (g - s) <= maxOffset + msPerMinute ->
                         Z.abs (off z g) <= maxOffset).
  { intros g Hg. apply (one_transition_offset (off z) s T o1 o2 g H1).
    unfold reach, maxOffset, msPerHour, msPerMinute in *. lia. }
  assert (Es : off z s = if s <? T then o1 else o2)
    by (apply Hrule; rewrite Z.sub_diag; discriminate).
  assert (Er : off z r = if r <? T then o1 else o2).
  { apply Hrule. subst r. rewrite Es.
    unfold reach, maxOffset, msPerHour in *. destruct (s <? T); lia. }
  pose proof (iterate_round (off z) s T o1 o2 s H1 Ws) as Step.
  assert (Stop : forall g,
             Spec.iterate (fun g => minute_floor (g + off z g)) s 0 g = g)
    by reflexivity.
  split; [|split; [|split; [|split]]].
  - rewrite (resolve_by_iterate F off z s HF Hr Hb Ws Hs).
    do 4 f_equal. subst r. rewrite Es.
    unfold reach, maxOffset, buffer, msPerHour, msPerMinute in *.
    repeat first
      [ lia
      | match goal with
        | |- context [?a <? ?b] => destruct (Z.ltb_spec a b)
        | |- context [?a =? ?b] => destruct (Z.eqb_spec a b)
        end
      | rewrite Step by (try lia; Z.div_mod_to_equations; lia)
      | rewrite Stop ].
  - intros t Ht E. rewrite (Hrule t Ht) in E.
    destruct (Z.ltb_spec t T); lia.
  - rewrite Er. subst r. rewrite Es.
    destruct (Z.ltb_spec s T);
      match goal with
      | |- context [?a <? ?b] => destruct (Z.ltb_spec a b)
      end; lia.
  - lia.
  - apply (dateToLocalString_faithful F off z r HF Hr).
    rewrite Er. subst r. rewrite Es.
    unfold in_calendar, margin, maxOffset, msPerDay, msPerHour in *.
    destruct (s <? T);
      match goal with
      | |- context [?a <? ?b] => destruct (a <? b)
      end; lia.
Qed.

Lemma new_york_around_gap :
  one_transition (offsets Reference.zones2024 "America/New_York")
    1710037800000 ny_forward (Reference.hours (-5)) (Reference.hours (-4)).
Proof.
  unfold one_transition. split; [|repeat split; discriminate].
  intros g Hg. unfold ny_forward, reach, msPerHour in *.
  change (offsets Reference.zones2024 "America/New_York" g)
    with (if (1710054000000 <=? g) && (g <? 1730613600000)
          then Reference.hours (-4) else Reference.hours (-5)).
  destruct (Z.leb_spec 1710054000000 g); destruct (Z.ltb_spec g 1730613600000);
    destruct (Z.ltb_spec g 1710054000000); simpl; try reflexivity; lia.
Qed.

Lemma X5_wall_clock_in_gap_witness :
  faithful Reference.host (offsets Reference.zones2024)
  /\ one_transition (offsets Reference.zones2024 "America/New_York")
       1710037800000 ny_forward (Reference.hours (-5)) (Reference.hours (-4))
  /\ ny_forward <= 1710037800000 - Reference.hours (-5)
  /\ 1710037800000 - Reference.hours (-4) < ny_forward
  /\ localStringToDate Reference.host "2024-03-10T02:30" "America/New_York"
     = Ok (Some (mkDate (Some 1710055800000)))
  /\ dateToLocalString Reference.host (mkDate (Some 1710055800000))
       "America/New_York" = "2024-03-10T03:30".
Proof.
  assert (HF : faithful Reference.host (offsets Reference.zones2024))
    by exact (reference_faithful Reference.zones2024).
  assert (Hl : ny_forward <= 1710037800000 - Reference.hours (-5))
    by (vm_compute; discriminate).
  assert (He : 1710037800000 - Reference.hours (-4) < ny_forward)
    by (vm_compute; reflexivity).
  split; [exact HF|]. split; [exact new_york_around_gap|].
  split; [exact Hl|]. split; [exact He|].
  pose proof (X5_wall_clock_in_gap Reference.host
                (offsets Reference.zones2024) "America/New_York"
                1710037800000 ny_forward (Reference.hours (-5))
                (Reference.hours (-4))
                HF eq_refl new_york_around_gap eq_refl
                ltac:(vm_compute; split; discriminate) Hl He) as H.
  cbv zeta in H. destruct H as (H1 & _ & _ & _ & H5).
  split; [exact H1 | exact H5].
Defined.

(** ** The parser *)

Lemma before_append (x : ascii) (a b : string) :
  has_char x a = false -> Spec.before x (a ++ b) = a ++ Spec.before x b.
Proof.
  induction a as [|c a IH]; [reflexivity|]. simpl. intros H.
  apply orb_false_elim in H as [Hc Ha]. rewrite Hc, (IH Ha). reflexivity.
Qed.

(** X6: the parser reads the hour and the minute and nothing after them: a
    seconds field, and whatever follows it, never changes the result. *)
Theorem X6_seconds_ignored (date hh mm rest : string) :
  has_char "T" date = false ->
  has_char "T" hh = false -> has_char ":" hh = false ->
  has_char "T" mm = false -> has_char ":" mm = false ->
  parseIsoLocal (date ++ "T" ++ hh ++ ":" ++ mm ++ ":" ++ rest)
  = parseIsoLocal (date ++ "T" ++ hh ++ ":" ++ mm).
Proof.
  intros Td Th Ch Tm Cm.
  assert (NE : forall a b, String.eqb (a ++ String "T" b) "" = false).
  { intros a b. destruct a; reflexivity. }
  assert (NT : forall a b, String.eqb (a ++ String ":" b) "" = false).
  { intros a b. destruct a; reflexivity. }
  unfold parseIsoLocal. cbn [append].
  rewrite !NE. rewrite !(split_append "T" date) by exact Td.
  cbn [nth_error].
  rewrite (split_before_after "T" (hh ++ String ":" (mm ++ String ":" rest))).
  rewrite (split_before_after "T" (hh ++ String ":" mm)).
  cbn [nth_error].
  rewrite (before_append "T" hh) by exact Th. cbn [Spec.before].
  change (Ascii.eqb ":" "T") with false. cbv iota.
  rewrite (before_append "T" mm (String ":" rest)) by exact Tm.
  cbn [Spec.before]. change (Ascii.eqb ":" "T") with false. cbv iota.
  assert (Em : Spec.before "T" (hh ++ String ":" mm) = hh ++ String ":" mm).
  { rewrite (before_append "T" hh) by exact Th. cbn [Spec.before].
    change (Ascii.eqb ":" "T") with false. cbv iota. f_equal. f_equal.
    clear -Tm. induction mm as [|c m IH]; [reflexivity|].
    simpl in *. apply orb_false_elim in Tm as [Hc Hm].
    rewrite Hc, (IH Hm). reflexivity. }
  rewrite Em. cbn [falsy]. rewrite !NT.
  rewrite !(split_append ":" hh) by exact Ch.
  rewrite (split_append ":" mm) by exact Cm.
  rewrite (split_single ":" mm) by exact Cm.
  reflexivity.
Qed.

Lemma X6_seconds_ignored_witness :
  parseIsoLocal "2024-01-15T09:30:45" = parseIsoLocal "2024-01-15T09:30"
  /\ parseIsoLocal "2024-01-15T09:30:45" = Some half_past_nine.
Proof.
  split; [|reflexivity].
  exact (X6_seconds_ignored "2024-01-15" "09" "30" "45"
           eq_refl eq_refl eq_refl eq_refl eq_refl).
Defined.

(** ** Labels *)

Lemma getAbbreviation_resolved (F : Formatter) (t : Z) (zone : string) :
  resolves F zone = true ->
  getAbbreviation F (mkDate (Some t)) zone = Spec.zoneAbbreviation F t zone.
Proof.
  intros Hr. unfold getAbbreviation, Spec.zoneAbbreviation.
  repeat rewrite (formatter_resolved F t zone _ Hr).
  set (short := Spec.zoneName F t zone "short").
  set (so := Spec.zoneName F t zone "shortOffset").
  set (lo := Spec.zoneName F t zone "longOffset").
  set (long := Spec.zoneName F t zone "long").
  rewrite <- (label_of_names short (if String.eqb so "" then lo else so) long).
  cbn [bind].
  destruct (String.eqb so ""); cbn [bind];
    destruct (isOffsetLike short) eqn:Hs; cbn [bind];
    try (destruct (String.eqb long ""); cbn [bind]);
    try (destruct (acronym_of long) as [a|]; cbn [bind]);
    try (destruct ((2 <=? strlen a) && (strlen a <=? 5)); cbn [bind]);
    try rewrite Hs;
    repeat match goal with
           | |- context [if ?b then _ else _] => destruct b
           end;
    reflexivity.
Qed.

Lemma all_upper_then_space_not_bare (a r : string) :
  all_upper a = true -> 2 <= strlen a ->
  Spec.bareOffset (a ++ String " " r) = false.
Proof.
  intros Hu Hl.
  destruct a as [|x [|y [|z [|w a']]]].
  - exfalso. unfold strlen in Hl. simpl in Hl. lia.
  - exfalso. unfold strlen in Hl. simpl in Hl. lia.
  - cbn [append]. destruct r; [reflexivity|].
    unfold Spec.bareOffset. rewrite !string_eqb_cons.
    destruct (Ascii.eqb x "G"), (Ascii.eqb y "M"), (Ascii.eqb x "U"),
      (Ascii.eqb y "T"); reflexivity.
  - cbn [append]. unfold Spec.bareOffset.
    change (Ascii.eqb " " "+" || Ascii.eqb " " "-") with false.
    now rewrite andb_false_r.
  - simpl in Hu.
    apply andb_prop in Hu as [_ Hu]. apply andb_prop in Hu as [_ Hu].
    apply andb_prop in Hu as [_ Hu]. apply andb_prop in Hu as [Hw _].
    cbn [append]. unfold Spec.bareOffset.
    destruct (Ascii.eqb_spec w "+") as [->|]; [discriminate Hw|].
    destruct (Ascii.eqb_spec w "-") as [->|]; [discriminate Hw|].
    simpl. now rewrite andb_false_r.
Qed.

Lemma acronym_all_upper (long a : string) :
  acronym_of long = Some a -> all_upper a = true.
Proof.
  unfold acronym_of. intros H.
  destruct (initials false long) eqn:E; [discriminate|].
  injection H as <-. rewrite <- E. apply initials_all_upper.
Qed.

(** X7: when the short name is a bare offset and the long name yields an
    acronym of 2 to 5 letters, the label is that acronym, followed by the
    offset in parentheses unless the two are equal; it is never itself a
    bare offset. *)
Theorem X7_acronym_label_not_bare
    (F : Formatter) (t : Z) (zone a : string) :
  resolves F zone = true ->
  isOffsetLike (Spec.zoneName F t zone "short") = true ->
  acronym_of (Spec.zoneName F t zone "long") = Some a ->
  2 <= strlen a <= 5 ->
  let so := Spec.zoneName F t zone "shortOffset" in
  let offset := if String.eqb so "" then Spec.zoneName F t zone "longOffset"
                else so in
  getAbbreviation F (mkDate (Some t)) zone
  = (if String.eqb a offset then a else a ++ " (" ++ offset ++ ")")
  /\ isOffsetLike (getAbbreviation F (mkDate (Some t)) zone) = false.
Proof.
  intros Hr Hs Ha Hl so offset.
  assert (E : getAbbreviation F (mkDate (Some t)) zone
              = (if String.eqb a offset then a
                 else a ++ " (" ++ offset ++ ")")).
  { rewrite (getAbbreviation_resolved F t zone Hr).
    unfold Spec.zoneAbbreviation, Spec.label.
    rewrite betterAbbreviation_scan.
    fold so. fold offset.
    rewrite <- isOffsetLike_bareOffset, Hs, Ha.
    destruct (Z.leb_spec 2 (strlen a)); [|lia].
    destruct (Z.leb_spec (strlen a) 5); [|lia].
    reflexivity. }
  split; [exact E|]. rewrite E.
  pose proof (acronym_all_upper _ a Ha) as Hu.
  rewrite isOffsetLike_bareOffset.
  destruct (String.eqb a offset).
  - now apply all_upper_not_bare.
  - apply all_upper_then_space_not_bare; [exact Hu | lia].
Qed.

Lemma X7_acronym_label_witness :
  isOffsetLike (Spec.zoneName Reference.host 1705312800000
                  "Asia/Kolkata" "short") = true
  /\ acronym_of (Spec.zoneName Reference.host 1705312800000
                   "Asia/Kolkata" "long") = Some "IST"
  /\ getAbbreviation Reference.host morning "Asia/Kolkata" = "IST (GMT+5:30)"
  /\ isOffsetLike (getAbbreviation Reference.host morning "Asia/Kolkata")
     = false.
Proof.
  assert (Hs : isOffsetLike (Spec.zoneName Reference.host 1705312800000
                               "Asia/Kolkata" "short") = true)
    by reflexivity.
  assert (Ha : acronym_of (Spec.zoneName Reference.host 1705312800000
                             "Asia/Kolkata" "long") = Some "IST")
    by reflexivity.
  split; [exact Hs|]. split; [exact Ha|].
  exact (X7_acronym_label_not_bare Reference.host 1705312800000
           "Asia/Kolkata" "IST" eq_refl Hs Ha
           ltac:(vm_compute; split; discriminate)).
Defined.

Lemma all_upper_no_space (a : string) :
  all_upper a = true -> has_char " " a = false.
Proof.
  induction a as [|c a IH]; [reflexivity|]. simpl. intros H.
  apply andb_prop in H as [Hc Ha]. rewrite (IH Ha).
  destruct (Ascii.eqb_spec c " ") as [->|]; [discriminate Hc|reflexivity].
Qed.

Lemma firstWord_single (a : string) :
  has_char " " a = false -> firstWord a = a.
Proof.
  intros H. unfold firstWord. now rewrite split_single.
Qed.

Lemma firstWord_append (a r : string) :
  has_char " " a = false -> firstWord (a ++ String " " r) = a.
Proof.
  intros H. unfold firstWord. now rewrite split_append.
Qed.

(** X8: the regional view's [getAbbreviation(...).split(' ')[0]] is the
    abbreviation without its offset: the acronym when one was accepted, and
    the short name otherwise, provided the short name has no space in it. *)
Theorem X8_first_word_is_abbreviation
    (F : Formatter) (t : Z) (zone : string) :
  resolves F zone = true ->
  has_char " " (Spec.zoneName F t zone "short") = false ->
  firstWord (getAbbreviation F (mkDate (Some t)) zone)
  = match Spec.betterAbbreviation (Spec.zoneName F t zone "short")
            (Spec.zoneName F t zone "long") with
    | Some a => a
    | None => Spec.zoneName F t zone "short"
    end.
Proof.
  intros Hr Hsp. rewrite (getAbbreviation_resolved F t zone Hr).
  unfold Spec.zoneAbbreviation, Spec.label.
  set (short := Spec.zoneName F t zone "short") in *.
  set (long := Spec.zoneName F t zone "long").
  set (offset := if String.eqb (Spec.zoneName F t zone "shortOffset") ""
                 then Spec.zoneName F t zone "longOffset"
                 else Spec.zoneName F t zone "shortOffset").
  destruct (Spec.betterAbbreviation short long) as [a|] eqn:Eb.
  - assert (Ha : has_char " " a = false).
    { rewrite betterAbbreviation_scan in Eb.
      destruct (Spec.bareOffset short).
      - destruct (acronym_of long) as [a'|] eqn:Ea; [|discriminate].
        destruct ((2 <=? strlen a') && (strlen a' <=? 5)); [|discriminate].
        injection Eb as <-. apply all_upper_no_space.
        exact (acronym_all_upper long a' Ea).
      - injection Eb as <-. exact Hsp. }
    destruct (String.eqb a offset).
    + now apply firstWord_single.
    + exact (firstWord_append a _ Ha).
  - now apply firstWord_single.
Qed.

Lemma X8_first_word_witness :
  has_char " " (Spec.zoneName Reference.host 1705312800000
                  "Asia/Kolkata" "short") = false
  /\ firstWord (getAbbreviation Reference.host morning "Asia/Kolkata")
     = "IST".
Proof.
  assert (Hsp : has_char " " (Spec.zoneName Reference.host 1705312800000
                                "Asia/Kolkata" "short") = false)
    by reflexivity.
  split; [exact Hsp|].
  exact (X8_first_word_is_abbreviation Reference.host 1705312800000
           "Asia/Kolkata" eq_refl Hsp).
Defined.

(** ** Failures *)

Lemma formatToParts_invalid (F : Formatter) (locale : string)
    (o : DateTimeFormatOptions) :
  formatToParts F locale o (mkDate None) = Throw RangeError.
Proof.
  unfold formatToParts. destruct (zone_ok F o); reflexivity.
Qed.

(** X9: the display helpers never throw.  For the Invalid Date, and for a
    zone the formatter cannot resolve, [dateToLocalString] and
    [getAbbreviation] return the empty string and [formatTime] returns
    ["--:--:--"]; otherwise [formatTime] is the formatter's text. *)
Theorem X9_display_helpers_degrade (F : Formatter) :
  (forall zone,
      dateToLocalString F (mkDate None) zone = ""
      /\ getAbbreviation F (mkDate None) zone = "")
  /\ (forall tz, formatTime F (mkDate None) tz = "--:--:--")
  /\ (forall zone d,
        resolves F zone = false ->
        formatTime F d (Some zone) = "--:--:--"
        /\ dateToLocalString F d zone = ""
        /\ getAbbreviation F d zone = "")
  /\ (forall tz t,
        zone_ok F (timeOptions tz) = true ->
        formatTime F (mkDate (Some t)) tz
        = joined (parts_of F "en-US" (timeOptions tz) t)).
Proof.
  split; [|split; [|split]].
  - intros zone. split.
    + unfold dateToLocalString. now rewrite formatToParts_invalid.
    + unfold getAbbreviation, formatter. now rewrite formatToParts_invalid.
  - intros tz. unfold formatTime, format. now rewrite formatToParts_invalid.
  - intros zone d Hr. destruct (unresolvable_zone F zone Hr) as (H1 & H2 & _).
    split; [|split; [apply H1 | apply H2]].
    unfold formatTime, format.
    now rewrite (formatToParts_unresolved F "en-US" zone).
  - intros tz t Hz. unfold formatTime, format, formatToParts.
    rewrite Hz. reflexivity.
Qed.

(** A date without a day or a time without minutes gives no time value:
    [Date.UTC] gets [undefined] for the field. *)
Lemma desiredTime_undefined (c : IsoLocal) :
  c_d c = Undefined \/ c_min c = Undefined -> desiredTime c = None.
Proof.
  unfold desiredTime, Date_UTC. intros [H|H]; rewrite H; cbn [ToNumber].
  - unfold MakeDay.
    destruct (MakeFullYear (ToNumber (c_y c))), (ToNumber (c_mon c));
      reflexivity.
  - unfold MakeTime. destruct (ToNumber (c_h c)); cbn [MakeDate];
      destruct (MakeDay _ _ _); reflexivity.
Qed.

(** X10: when [localStringToDate] throws.  For a string the parser accepts,
    the formatter's RangeError escapes whenever the zone cannot be resolved,
    or the date part has no third field (no day) or the time part no second
    field (no minutes): the first guess is then the Invalid Date, and the
    loop always asks the formatter at least once. *)
Theorem X10_localStringToDate_throws
    (F : Formatter) (s zone : string) (c : IsoLocal) :
  parseIsoLocal s = Some c ->
  resolves F zone = false \/ c_d c = Undefined \/ c_min c = Undefined ->
  localStringToDate F s zone = Throw RangeError.
Proof.
  intros Hp [Hr|Hd].
  - now apply (proj2 (proj2 (proj2 (unresolvable_zone F zone Hr))) s c).
  - unfold localStringToDate. rewrite Hp, (desiredTime_undefined c Hd).
    cbn [converge new_Date TimeClip].
    now rewrite formatToParts_invalid.
Qed.

Lemma X10_localStringToDate_throws_witness :
  parseIsoLocal "2024-01-15T10"
  = Some (mkIso (Num (Some 2024)) (Num (Some 0)) (Num (Some 15))
                (Num (Some 10)) Undefined)
  /\ localStringToDate Reference.host "2024-01-15T10" "UTC"
     = Throw RangeError.
Proof.
  assert (Hp : parseIsoLocal "2024-01-15T10"
               = Some (mkIso (Num (Some 2024)) (Num (Some 0)) (Num (Some 15))
                             (Num (Some 10)) Undefined)) by reflexivity.
  split; [exact Hp|].
  exact (X10_localStringToDate_throws Reference.host "2024-01-15T10" "UTC"
           _ Hp (or_intror (or_intror eq_refl))).
Defined.

(** ** Initial setup *)

(** X11: with a user zone the formatter cannot resolve, the initial setup
    does not throw: the user's field is set to the empty string and the
    client's field is left as it is. *)
Theorem X11_initial_setup_unresolved
    (F : Formatter) (LocalTZA : Z -> bool -> Z) (now : Z) (p : Props)
    (st : State) :
  resolves F (userTimezone p) = false ->
  initialSetup F LocalTZA now p st = (setUserMeetingTime "" st, Ok tt).
Proof.
  intros Hr. unfold initialSetup.
  rewrite (proj1 (unresolvable_zone F (userTimezone p) Hr)).
  rewrite localStringToDate_empty. reflexivity.
Qed.

Lemma X11_initial_setup_witness :
  resolves Reference.host "Mars/Olympus" = false
  /\ initialSetup Reference.host (fun _ _ => 0) 1705312800000
       (mkProps "Mars/Olympus" "Europe/London") initialState
     = (initialState, Ok tt).
Proof.
  split; [reflexivity|].
  exact (X11_initial_setup_unresolved Reference.host (fun _ _ => 0)
           1705312800000 (mkProps "Mars/Olympus" "Europe/London")
           initialState eq_refl).
Defined.

(** X12: from the state the component starts in, the initial setup does
    exactly what the user's typing of the seeded string would do: same
    fields, same anchor, same completion. *)
Theorem X12_initial_setup_is_an_edit
    (F : Formatter) (LocalTZA : Z -> bool -> Z) (now : Z) (p : Props) :
  initialSetup F LocalTZA now p initialState
  = handleUserTimeChange F p
      (dateToLocalString F (initDate LocalTZA now) (userTimezone p))
      initialState.
Proof.
  unfold initialSetup, handleUserTimeChange.
  set (initStr := dateToLocalString F (initDate LocalTZA now) (userTimezone p)).
  destruct (String.eqb_spec initStr "") as [E|Hne].
  - rewrite E. rewrite localStringToDate_empty. reflexivity.
  - simpl.
    destruct (localStringToDate F initStr (userTimezone p)) as [[d|]|e];
      reflexivity.
Qed.

Lemma setMinutes_zero (c t : Z) :
  Z.abs t + Z.abs c + msPerHour <= maxTime ->
  setMinutes (fun _ _ => c) (Some 0) (mkDate (Some t))
  = mkDate (Some (t - MinFromTime (t + c) * msPerMinute)).
Proof.
  intros Hb. unfold setMinutes, LocalTime, UTC, MakeTime, MakeDate.
  cbn [getTime option_map]. f_equal.
  replace (Day (t + c) * msPerDay
           + (HourFromTime (t + c) * msPerHour + 0 * msPerMinute
              + SecFromTime (t + c) * 1000 + msFromTime (t + c)) - c)
    with (t - MinFromTime (t + c) * msPerMinute).
  - apply TimeClip_in_range.
    unfold MinFromTime, msPerMinute, msPerHour, maxTime in *.
    Z.div_mod_to_equations. lia.
  - unfold Day, HourFromTime, MinFromTime, SecFromTime, msFromTime,
      msPerDay, msPerHour, msPerMinute.
    Z.div_mod_to_equations. lia.
Qed.

Lemma setHours_next (c t : Z) :
  Z.abs t + Z.abs c + msPerHour <= maxTime ->
  setHours (fun _ _ => c)
    (add (getHours (fun _ _ => c) (mkDate (Some t))) (Some 1))
    (mkDate (Some t))
  = mkDate (Some (t + msPerHour)).
Proof.
  intros Hb. unfold setHours, getHours, LocalTime, UTC, MakeTime, MakeDate.
  cbn [getTime option_map add]. f_equal.
  replace (Day (t + c) * msPerDay
           + ((HourFromTime (t + c) + 1) * msPerHour
              + MinFromTime (t + c) * msPerMinute
              + SecFromTime (t + c) * 1000 + msFromTime (t + c)) - c)
    with (t + msPerHour).
  - apply TimeClip_in_range. unfold msPerHour, maxTime in *. lia.
  - unfold Day, HourFromTime, MinFromTime, SecFromTime, msFromTime,
      msPerDay, msPerHour, msPerMinute.
    Z.div_mod_to_equations. lia.
Qed.

(** X13: the seeded instant.  On a host whose local offset is constant, the
    initial date is the next whole hour of the host's clock plus the seconds
    and milliseconds of the current time: it lies between one minute and one
    hour after now, its local minute is 0, and it keeps the second and the
    millisecond of now. *)
Theorem X13_initDate_next_hour (c now : Z) :
  Z.abs now + Z.abs c + 2 * msPerHour <= maxTime ->
  exists r,
    getTime (initDate (fun _ _ => c) now) = Some r
    /\ r = now + msPerHour - MinFromTime (now + c) * msPerMinute
    /\ now + msPerMinute <= r <= now + msPerHour
    /\ MinFromTime (r + c) = 0
    /\ SecFromTime (r + c) = SecFromTime (now + c)
    /\ msFromTime (r + c) = msFromTime (now + c).
Proof.
  intros Hb.
  exists (now + msPerHour - MinFromTime (now + c) * msPerMinute).
  split.
  - unfold initDate, new_Date.
    rewrite TimeClip_in_range by (unfold msPerHour, maxTime in *; lia).
    rewrite setMinutes_zero by (unfold msPerHour in *; lia).
    rewrite setHours_next.
    + cbn [getTime]. f_equal. lia.
    + unfold MinFromTime, msPerMinute, msPerHour, maxTime in *.
      Z.div_mod_to_equations. lia.
  - split; [reflexivity|].
    unfold MinFromTime, SecFromTime, msFromTime, msPerMinute, msPerHour.
    repeat split; Z.div_mod_to_equations; lia.
Qed.

Lemma X13_initDate_witness :
  Z.abs 1705313862123 + Z.abs 19800000 + 2 * msPerHour <= maxTime
  /\ getTime (initDate (fun _ _ => 19800000) 1705313862123)
     = Some 1705314642123.
Proof.
  assert (Hb : Z.abs 1705313862123 + Z.abs 19800000 + 2 * msPerHour
               <= maxTime) by (vm_compute; discriminate).
  split; [exact Hb|].
  destruct (X13_initDate_next_hour 19800000 1705313862123 Hb)
    as (r & Hr & Er & _).
  rewrite Hr. f_equal. rewrite Er. reflexivity.
Defined.

(** ** The clipboard text *)

Lemma prefix_nil (s : string) : String.prefix "" s = true.
Proof. destruct s; reflexivity. Qed.

(** What [replaceAll] produces never starts with the tag. *)
Lemma replaced_no_prefix (s : string) :
  String.prefix br (replaceAll br newline 0 s) = false.
Proof.
  unfold br, newline.
  destruct s as [|c1 s]; [reflexivity|]. cbn [replaceAll].
  destruct (String.prefix "<br/>" (String c1 s)) eqn:H0; [reflexivity|].
  rewrite prefix_cons in *.
  destruct (Ascii.eqb_spec c1 "<") as [->|]; [|reflexivity]. cbn [andb] in *.
  destruct s as [|c2 s]; [reflexivity|]. cbn [replaceAll].
  destruct (String.prefix "<br/>" (String c2 s)); [reflexivity|].
  rewrite prefix_cons in *.
  destruct (Ascii.eqb_spec c2 "b") as [->|]; [|reflexivity]. cbn [andb] in *.
  destruct s as [|c3 s]; [reflexivity|]. cbn [replaceAll].
  destruct (String.prefix "<br/>" (String c3 s)); [reflexivity|].
  rewrite prefix_cons in *.
  destruct (Ascii.eqb_spec c3 "r") as [->|]; [|reflexivity]. cbn [andb] in *.
  destruct s as [|c4 s]; [reflexivity|]. cbn [replaceAll].
  destruct (String.prefix "<br/>" (String c4 s)); [reflexivity|].
  rewrite prefix_cons in *.
  destruct (Ascii.eqb_spec c4 "/") as [->|]; [|reflexivity]. cbn [andb] in *.
  destruct s as [|c5 s]; [reflexivity|]. cbn [replaceAll].
  destruct (String.prefix "<br/>" (String c5 s)); [reflexivity|].
  rewrite prefix_cons in *.
  destruct (Ascii.eqb_spec c5 ">") as [->|]; [|reflexivity]. cbn [andb] in *.
  rewrite prefix_nil in H0. discriminate H0.
Qed.

Lemma replaced_no_tag (s : string) :
  forall skip, occurs br (replaceAll br newline skip s) = false.
Proof.
  induction s as [|c r IH]; intros skip; [destruct skip; reflexivity|].
  destruct skip as [|k]; [|cbn [replaceAll]; apply IH].
  pose proof (replaced_no_prefix (String c r)) as HP.
  cbn [replaceAll] in *.
  destruct (String.prefix br (String c r)).
  - unfold newline at 1. cbn [append occurs]. rewrite IH.
    unfold br. rewrite prefix_cons. reflexivity.
  - cbn [occurs]. rewrite HP, IH. reflexivity.
Qed.

Lemma replaced_unchanged (s : string) :
  occurs br s = false -> replaceAll br newline 0 s = s.
Proof.
  induction s as [|c r IH]; [reflexivity|]. cbn [occurs replaceAll].
  intros H. apply orb_false_elim in H as [Hp Hr].
  rewrite Hp, (IH Hr). reflexivity.
Qed.

(** X14: the text copied to the clipboard.  Without a response nothing is
    written; with one, the text is the subject line, an empty line, and the
    body in which no [<br/>] is left: each one has become a line break, and a
    body without [<br/>] is copied as it is. *)
Theorem X14_clipboard_text (response : option GenerationResponse) :
  match response with
  | None => copyToClipboard response = None
  | Some r =>
      exists text,
        copyToClipboard response
        = Some ("Subject: " ++ subject r ++ newline ++ newline ++ text)
        /\ occurs br text = false
        /\ (occurs br (body r) = false -> text = body r)
  end.
Proof.
  destruct response as [r|]; [|reflexivity].
  exists (replaceAll br newline 0 (body r)).
  split; [reflexivity|]. split.
  - apply replaced_no_tag.
  - apply replaced_unchanged.
Qed.

Example clipboard_two_breaks :
  copyToClipboard (Some (mkResponse "Hi" "a<br/>b<<br/>br/>c"))
  = Some ("Subject: Hi" ++ newline ++ newline
            ++ "a" ++ newline ++ "b<" ++ newline ++ "br/>c").
Proof. reflexivity. Qed.

(** ** Sessions *)

Lemma effect_in_sync (F : Formatter) (p : Props) (st st' : State) :
  timezoneEffect F p st = (st', Ok tt) ->
  lastEdited st' = lastEdited st
  /\ forall c, parseIsoLocal (anchoredField st') = Some c ->
       Spec.convert F (anchoredField st') (anchoredZone p st')
         (otherZone p st')
       = Ok (Some (otherField st')).
Proof.
  destruct st as [a b s].
  unfold timezoneEffect, anchoredField, otherField, anchoredZone, otherZone,
    Spec.convert.
  destruct s; simpl.
  - destruct (String.eqb_spec a "") as [->|Ha]; simpl.
    + intros H. injection H as <-. simpl. split; [reflexivity|].
      intros c Hc. discriminate Hc.
    + destruct (localStringToDate F a (userTimezone p)) as [[d|]|e] eqn:Ed;
        intros H; try discriminate; injection H as <-; simpl;
        (split; [reflexivity|]); intros c Hc.
      * rewrite Ed. reflexivity.
      * exfalso. exact (localStringToDate_parsed F a _ c Hc Ed).
  - destruct (String.eqb_spec b "") as [->|Hb]; simpl.
    + intros H. injection H as <-. simpl. split; [reflexivity|].
      intros c Hc. discriminate Hc.
    + destruct (localStringToDate F b (clientTimezone p)) as [[d|]|e] eqn:Ed;
        intros H; try discriminate; injection H as <-; simpl;
        (split; [reflexivity|]); intros c Hc.
      * rewrite Ed. reflexivity.
      * exfalso. exact (localStringToDate_parsed F b _ c Hc Ed).
Qed.

Lemma and_then_ok (r : run) (k : State -> run) (st' : State) :
  and_then r k = (st', Ok tt) ->
  exists st1, r = (st1, Ok tt) /\ k st1 = (st', Ok tt).
Proof.
  destruct r as [st1 [[]|e]]; simpl; intros H; [|discriminate].
  now exists st1.
Qed.

(** X15: the planner is in sync after every completed action.  Whatever the
    state before, once an edit or a zone change and its render have
    completed, the field that is not the anchor holds [convert] of the
    anchored field, from the anchor's zone to the other zone, whenever the
    anchored field parses. *)
Theorem X15_in_sync_after_every_action
    (F : Formatter) (p p' : Props) (st st' : State) (a : action)
    (c : IsoLocal) :
  dispatch F p st a = (p', (st', Ok tt)) ->
  parseIsoLocal (anchoredField st') = Some c ->
  Spec.convert F (anchoredField st') (anchoredZone p' st') (otherZone p' st')
  = Ok (Some (otherField st')).
Proof.
  intros H Hc. destruct a as [val|val|tz|tz]; simpl in H.
  - injection H as <- H. apply and_then_ok in H as (st1 & _ & H).
    exact (proj2 (effect_in_sync F p st1 st' H) c Hc).
  - injection H as <- H. apply and_then_ok in H as (st1 & _ & H).
    exact (proj2 (effect_in_sync F p st1 st' H) c Hc).
  - injection H as <- H.
    exact (proj2 (effect_in_sync F _ st st' H) c Hc).
  - injection H as <- H.
    exact (proj2 (effect_in_sync F _ st st' H) c Hc).
Qed.

Lemma X15_in_sync_witness :
  dispatch Reference.host ny_london march (SetClientTimezone "Asia/Kolkata")
  = (mkProps "America/New_York" "Asia/Kolkata",
     (mkState "2024-03-01T10:00" "2024-03-01T20:30" user, Ok tt))
  /\ Spec.convert Reference.host "2024-03-01T10:00" "America/New_York"
       "Asia/Kolkata" = Ok (Some "2024-03-01T20:30").
Proof.
  assert (H : dispatch Reference.host ny_london march
                (SetClientTimezone "Asia/Kolkata")
              = (mkProps "America/New_York" "Asia/Kolkata",
                 (mkState "2024-03-01T10:00" "2024-03-01T20:30" user, Ok tt)))
    by (vm_compute; reflexivity).
  split; [exact H|].
  exact (X15_in_sync_after_every_action Reference.host ny_london _ march _ _
           (mkIso (Num (Some 2024)) (Num (Some 2)) (Num (Some 1))
                  (Num (Some 10)) (Num (Some 0)))
           H eq_refl).
Defined.

Lemma dispatch_anchor_zones (F : Formatter) (p p' : Props) (st st' : State)
    (a : action) :
  dispatch F p st a = (p', (st', Ok tt)) ->
  lastEdited st' = lastEditSide (lastEdited st) [a]
  /\ p' = lastZones p [a].
Proof.
  intros H. destruct a as [val|val|tz|tz]; simpl in H.
  - injection H as <- H. apply and_then_ok in H as (st1 & H1 & H).
    rewrite (proj1 (effect_in_sync F p st1 st' H)).
    unfold handleUserTimeChange in H1.
    destruct (negb (String.eqb val ""));
      [destruct (localStringToDate F val (userTimezone p)) as [[d|]|e]|];
      try discriminate; injection H1 as <-; split; reflexivity.
  - injection H as <- H. apply and_then_ok in H as (st1 & H1 & H).
    rewrite (proj1 (effect_in_sync F p st1 st' H)).
    unfold handleClientTimeChange in H1.
    destruct (negb (String.eqb val ""));
      [destruct (localStringToDate F val (clientTimezone p)) as [[d|]|e]|];
      try discriminate; injection H1 as <-; split; reflexivity.
  - injection H as <- H.
    rewrite (proj1 (effect_in_sync F _ st st' H)). split; reflexivity.
  - injection H as <- H.
    rewrite (proj1 (effect_in_sync F _ st st' H)). split; reflexivity.
Qed.

(** X16: over any run of actions that all complete, the anchor is the side
    of the last edit in the run (zone changes never move it; without an
    edit it is what it was), and each zone is the one selected last. *)
Theorem X16_anchor_is_last_edit
    (F : Formatter) (l : list action) :
  forall (p p' : Props) (st st' : State),
    runActions F p st l = Some (p', st') ->
    lastEdited st' = lastEditSide (lastEdited st) l
    /\ p' = lastZones p l.
Proof.
  induction l as [|a rest IH]; intros p p' st st' H.
  - injection H as <- <-. split; reflexivity.
  - cbn [runActions] in H.
    destruct (dispatch F p st a) as [p1 [st1 [[]|e]]] eqn:Ed; [|discriminate].
    destruct (dispatch_anchor_zones F p p1 st st1 a Ed) as [Ha Hz].
    destruct (IH p1 p' st1 st' H) as [Ha' Hz'].
    rewrite Ha', Hz', Ha, Hz.
    destruct a; split; reflexivity.
Qed.

Lemma X16_anchor_witness :
  runActions Reference.host ny_london march
    [ClientTimeChange "2024-03-01T16:00"; SetUserTimezone "Asia/Kolkata";
     SetClientTimezone "UTC"]
  = Some (mkProps "Asia/Kolkata" "UTC",
          mkState "2024-03-01T21:30" "2024-03-01T16:00" client)
  /\ lastEdited (mkState "2024-03-01T21:30" "2024-03-01T16:00" client)
     = lastEditSide (lastEdited march)
         [ClientTimeChange "2024-03-01T16:00"; SetUserTimezone "Asia/Kolkata";
          SetClientTimezone "UTC"].
Proof.
  assert (H : runActions Reference.host ny_london march
                [ClientTimeChange "2024-03-01T16:00";
                 SetUserTimezone "Asia/Kolkata"; SetClientTimezone "UTC"]
              = Some (mkProps "Asia/Kolkata" "UTC",
                      mkState "2024-03-01T21:30" "2024-03-01T16:00" client))
    by (vm_compute; reflexivity).
  split; [exact H|].
  exact (proj1 (X16_anchor_is_last_edit Reference.host _ _ _ _ _ H)).
Defined.

(** ** Conversions *)

(** X17: conversions compose.  With a faithful formatter and resolvable
    zones A, B and C, let [t] be an instant of whole minutes between four
    days after 0100-01-01T00:00Z and four days before the last time value;
    let A and B each have, within 30 hours of [t], at most one offset
    transition (offsets of whole minutes within 14 hours of UTC, a shift of
    at most two hours), more than two hours away from [t]; and let C's
    offset at [t] be within 14 hours.  Then converting the wall clock [t]
    displays in A, as [dateToLocalString] renders it, to B and then on to C
    gives what converting from A to C directly gives: the wall clock [t]
    displays in C. *)
Theorem X17_conversions_compose
    (F : Formatter) (off : string -> Z -> Z) (A B C w : string)
    (t TA a1 a2 TB b1 b2 : Z) :
  faithful F off ->
  resolves F A = true ->
  resolves F B = true ->
  resolves F C = true ->
  one_transition (off A) t TA a1 a2 ->
  outside_window t TA ->
  one_transition (off B) t TB b1 b2 ->
  outside_window t TB ->
  Z.abs (off C t) <= maxOffset ->
  t mod msPerMinute = 0 ->
  year100 + 2 * margin <= t <= maxTime - 2 * margin ->
  w = wallString (t + off A t) ->
  Spec.convert F w A C = Ok (Some (wallString (t + off C t)))
  /\ Spec.convert F w A B = Ok (Some (wallString (t + off B t)))
  /\ Spec.convert F (wallString (t + off B t)) B C
     = Ok (Some (wallString (t + off C t))).
Proof.
  intros HF HA HB HC H1A HoA H1B HoB HaC Wt Ht ->.
  destruct (one_transition_offset (off A) t TA a1 a2 t H1A) as [HaA WA].
  { rewrite Z.sub_diag. discriminate. }
  destruct (one_transition_offset (off B) t TB b1 b2 t H1B) as [HaB WB].
  { rewrite Z.sub_diag. discriminate. }
  assert (RA : localStringToDate F (wallString (t + off A t)) A
               = Ok (Some (mkDate (Some t)))).
  { apply (resolve_outside_window F off A t TA a1 a2);
      try assumption.
    - unfold msPerMinute in *. Z.div_mod_to_equations. lia.
    - unfold margin, maxOffset, msPerDay, msPerHour in *. lia. }
  assert (RB : localStringToDate F (wallString (t + off B t)) B
               = Ok (Some (mkDate (Some t)))).
  { apply (resolve_outside_window F off B t TB b1 b2);
      try assumption.
    - unfold msPerMinute in *. Z.div_mod_to_equations. lia.
    - unfold margin, maxOffset, msPerDay, msPerHour in *. lia. }
  assert (DB : dateToLocalString F (mkDate (Some t)) B
               = wallString (t + off B t)).
  { apply dateToLocalString_faithful; try assumption.
    unfold in_calendar, margin, maxOffset, msPerDay, msPerHour in *. lia. }
  assert (DC : dateToLocalString F (mkDate (Some t)) C
               = wallString (t + off C t)).
  { apply dateToLocalString_faithful; try assumption.
    unfold in_calendar, margin, maxOffset, msPerDay, msPerHour in *. lia. }
  unfold Spec.convert. rewrite RA, RB. cbn [bind option_map].
  rewrite DB, DC. repeat split; reflexivity.
Qed.

Lemma kolkata_bounded (g : Z) :
  Z.abs (offsets Reference.zones2024 "Asia/Kolkata" g) <= maxOffset.
Proof. cbn. discriminate. Qed.

Lemma X17_conversions_compose_witness :
  faithful Reference.host (offsets Reference.zones2024)
  /\ outside_window after_spring_forward ny_forward
  /\ outside_window after_spring_forward london_forward
  /\ Spec.convert Reference.host "2024-03-10T08:00"
       "America/New_York" "Asia/Kolkata" = Ok (Some "2024-03-10T17:30")
  /\ Spec.convert Reference.host "2024-03-10T08:00"
       "America/New_York" "Europe/London" = Ok (Some "2024-03-10T12:00")
  /\ Spec.convert Reference.host "2024-03-10T12:00"
       "Europe/London" "Asia/Kolkata" = Ok (Some "2024-03-10T17:30").
Proof.
  assert (HF : faithful Reference.host (offsets Reference.zones2024))
    by exact (reference_faithful Reference.zones2024).
  assert (HoA : outside_window after_spring_forward ny_forward)
    by (vm_compute; reflexivity).
  assert (HoB : outside_window after_spring_forward london_forward)
    by (vm_compute; reflexivity).
  split; [exact HF|]. split; [exact HoA|]. split; [exact HoB|].
  exact (X17_conversions_compose Reference.host
           (offsets Reference.zones2024)
           "America/New_York" "Europe/London" "Asia/Kolkata"
           "2024-03-10T08:00"
           after_spring_forward ny_forward (Reference.hours (-5))
           (Reference.hours (-4)) london_forward 0 (Reference.hours 1)
           HF eq_refl eq_refl eq_refl new_york_in_march HoA
           london_in_march HoB (kolkata_bounded after_spring_forward)
           eq_refl
           ltac:(vm_compute; split; discriminate)
           eq_refl).
Defined.

(** X18: [localStringToDate] does not fail at transitions.  With a faithful
    formatter, a resolvable zone, and a wall clock of whole minutes that
    read as UTC is [s], two days or more after 0100-01-01T00:00Z and before
    the last time value, given as [dateToLocalString] renders it: if the
    zone's offsets within 14 hours and a minute of [s] stay within 14 hours
    of UTC, the wall clock resolves to a valid instant, whatever transitions
    the zone has nearby (a skipped hour, a repeated hour, several shifts),
    and the instant returned is never further than 14 hours and one minute
    from [s]. *)
Theorem X18_resolves_at_any_transition
    (F : Formatter) (off : string -> Z -> Z) (z : string) (s : Z) :
  faithful F off ->
  resolves F z = true ->
  (forall g, Z.abs (g - s) <= maxOffset + msPerMinute ->
             Z.abs (off z g) <= maxOffset) ->
  s mod msPerMinute = 0 ->
  year100 + margin <= s <= maxTime - margin ->
  exists t,
    localStringToDate F (wallString s) z = Ok (Some (mkDate (Some t)))
    /\ Z.abs (t - s) <= maxOffset + msPerMinute.
Proof.
  intros HF Hr Hb Ws Hs.
  exists (Spec.iterate (fun g => minute_floor (g + off z g)) s 3 s).
  split; [exact (resolve_by_iterate F off z s HF Hr Hb Ws Hs)|].
  apply iterate_near.
  - intros g Hg. pose proof (Hb g Hg).
    unfold minute_floor, maxOffset, msPerHour, msPerMinute in *.
    pose proof (Z.mod_pos_bound (g + off z g) 60000). lia.
  - rewrite Z.sub_diag. discriminate.
Qed.

Lemma X18_resolves_witness :
  faithful Reference.host (offsets Reference.zones2024)
  /\ exists t,
       localStringToDate Reference.host "2024-03-10T02:30" "America/New_York"
       = Ok (Some (mkDate (Some t)))
       /\ Z.abs (t - 1710037800000) <= maxOffset + msPerMinute.
Proof.
  assert (HF : faithful Reference.host (offsets Reference.zones2024))
    by exact (reference_faithful Reference.zones2024).
  split; [exact HF|].
  exact (X18_resolves_at_any_transition Reference.host
           (offsets Reference.zones2024) "America/New_York" 1710037800000
           HF eq_refl (fun g _ => new_york_bounded g) eq_refl
           ltac:(vm_compute; split; discriminate)).
Defined.

(** * The algorithm on the wall clocks of the calendar *)

(** ** Strings of a date-and-time input *)

Lemma pad4_digits_only (n : Z) : 0 <= n -> digits_only (pad4 n) = true.
Proof.
  intros H. unfold pad4.
  destruct (n <? 10); [|destruct (n <? 100); [|destruct (n <? 1000)]];
    cbn [append digits_only]; now apply show_digits_only.
Qed.

Lemma pad4_nonempty (n : Z) : pad4 n <> "".
Proof.
  unfold pad4.
  destruct (n <? 10); [|destruct (n <? 100); [|destruct (n <? 1000)]];
    try discriminate.
  apply show_nonempty.
Qed.

Lemma pad4_read (n : Z) :
  0 <= n < ten20 -> read_digits (pad4 n) 0 = (n, "").
Proof.
  intros H. unfold pad4.
  destruct (n <? 10); [|destruct (n <? 100); [|destruct (n <? 1000)]];
    cbn [append read_digits]; change (is_digit "0") with true; cbv iota;
    change (0 * 10 + digit_val "0") with 0; now apply show_read.
Qed.

Lemma Number_pad4 (n : Z) : 0 <= n < ten20 -> Number (pad4 n) = Some n.
Proof.
  intros H. apply Number_digits.
  - apply pad4_digits_only. lia.
  - apply pad4_nonempty.
  - now apply pad4_read.
Qed.

(** Five runs of digits, set as a date-and-time input sets them, parse as
    the numbers they spell. *)
Lemma parse_digit_fields (Y M D H Mi : string) :
  digits_only Y = true -> digits_only M = true -> digits_only D = true ->
  digits_only H = true -> digits_only Mi = true ->
  Y <> "" -> H <> "" ->
  parseIsoLocal (Y ++ "-" ++ M ++ "-" ++ D ++ "T" ++ H ++ ":" ++ Mi)
  = Some (mkIso (Num (Number Y)) (Num (sub (Number M) (Some 1)))
                (Num (Number D)) (Num (Number H)) (Num (Number Mi))).
Proof.
  intros dY dM dD dH dMi nY nH.
  set (date := Y ++ String "-" (M ++ String "-" D)).
  set (time := H ++ String ":" Mi).
  assert (Es : Y ++ "-" ++ M ++ "-" ++ D ++ "T" ++ H ++ ":" ++ Mi
               = date ++ String "T" time).
  { subst date time. cbn [append]. repeat rewrite append_assoc.
    cbn [append]. repeat rewrite append_assoc. reflexivity. }
  rewrite Es.
  assert (Td : has_char "T" date = false).
  { subst date. rewrite has_char_append. cbn [has_char].
    rewrite has_char_append. cbn [has_char].
    rewrite !(digits_no_char "T") by (reflexivity || assumption).
    reflexivity. }
  assert (Tt : has_char "T" time = false).
  { subst time. rewrite has_char_append. cbn [has_char].
    rewrite !(digits_no_char "T") by (reflexivity || assumption).
    reflexivity. }
  assert (Sd : split "-" date = [Y; M; D]).
  { subst date.
    rewrite split_append by (apply digits_no_char; [reflexivity|assumption]).
    rewrite split_append by (apply digits_no_char; [reflexivity|assumption]).
    rewrite split_single by (apply digits_no_char; [reflexivity|assumption]).
    reflexivity. }
  assert (St : split ":" time = [H; Mi]).
  { subst time.
    rewrite split_append by (apply digits_no_char; [reflexivity|assumption]).
    rewrite split_single by (apply digits_no_char; [reflexivity|assumption]).
    reflexivity. }
  assert (nd : date <> "") by (subst date; now apply append_nonempty).
  assert (nt : time <> "") by (subst time; now apply append_nonempty).
  unfold parseIsoLocal.
  rewrite (eqb_empty_false _ (append_nonempty date (String "T" time) nd)).
  rewrite (split_append "T" date time Td), (split_single "T" time Tt).
  cbn [nth_error falsy].
  rewrite (eqb_empty_false date nd), (eqb_empty_false time nt).
  cbn [orb]. rewrite Sd, St. reflexivity.
Qed.

(** The padded wall-clock string of a time on the calendar parses to fields
    that [Date.UTC] reads as that time, to the minute. *)
Lemma parse_isoString (x : Z) :
  in_calendar x ->
  exists c, parseIsoLocal (isoString x) = Some c
            /\ desiredTime c = Some (minute_floor x).
Proof.
  intros Hc.
  destruct (fields_of_spec x) as (Hm & Hd & Hh & Hmi & _ & _ & Hy).
  specialize (Hy Hc). pose proof ten20_large as Hbig.
  pose proof (Date_UTC_fields x Hc) as HD. cbv zeta in HD.
  unfold isoString.
  set (f := Reference.fields_of x) in *.
  rewrite parse_digit_fields
    by (try apply pad4_digits_only; try apply pad2_digits_only;
        try apply pad4_nonempty; try apply pad2_nonempty; lia).
  eexists. split; [reflexivity|].
  unfold desiredTime. cbn [c_y c_mon c_d c_h c_min].
  rewrite Number_pad4 by lia. repeat rewrite Number_pad2 by lia.
  cbn [sub]. exact HD.
Qed.

(** For a string that parses to fields giving the time value [s], the loop
    is the three-round iteration over what the zone displays. *)
Lemma resolve_parsed (F : Formatter) (off : string -> Z -> Z)
    (z w : string) (c : IsoLocal) (s : Z) :
  faithful F off ->
  resolves F z = true ->
  (forall g, Z.abs (g - s) <= maxOffset + msPerMinute ->
             Z.abs (off z g) <= maxOffset) ->
  year100 + margin <= s <= maxTime - margin ->
  parseIsoLocal w = Some c ->
  desiredTime c = Some s ->
  localStringToDate F w z
  = Ok (Some (mkDate (Some (Spec.resolveInstant (observed off z) s)))).
Proof.
  intros HF Hr Hb Hs Hp Hd.
  assert (Hrb : readback F z (observed off z) s (maxOffset + msPerMinute)).
  { intros g Hg. pose proof (Hb g Hg) as Hog.
    assert (Hcg : in_calendar (g + off z g)).
    { unfold in_calendar, margin, maxOffset, msPerDay, msPerHour,
        msPerMinute in *. lia. }
    split; [exact (reads_back F off HF z g Hr Hcg)|].
    unfold observed, minute_floor, maxOffset, msPerHour, msPerMinute in *.
    pose proof (Z.mod_pos_bound (g + off z g) 60000). lia. }
  assert (Hmax : Z.abs s + (maxOffset + msPerMinute) <= maxTime).
  { unfold margin, maxOffset, year100, maxTime, msPerDay, msPerHour,
      msPerMinute in *.
    change (day_of_month_start 100 0) with (-683003) in *. lia. }
  apply (localStringToDate_follows_readings F w z c s (observed off z)
           (maxOffset + msPerMinute) Hp Hd Hr Hrb);
    [discriminate | exact Hmax].
Qed.

(** ** C1 *)

(** C1, the claim as stated fails at the end of the range of time values:
    the parser accepts 275760-09-13T00:00, its fields read as UTC are the
    last time value, and Asia/Kolkata is resolved; the zone displays that
    instant as 05:30, which read as UTC is past the last time value, so the
    delta is not a number, the shifted guess is the Invalid Date, and in the
    second round the formatter throws.  Nothing is returned.  And for a year
    below 100 the seed is not the wall clock read as UTC: 0050-01-01T10:00
    in UTC resolves to 1950-01-01T10:00Z. *)
Lemma C1_loop_throws_at_range_end :
  resolves Reference.host "Asia/Kolkata" = true
  /\ parseIsoLocal "275760-09-13T00:00"
     = Some (mkIso (Num (Some 275760)) (Num (Some 8)) (Num (Some 13))
                   (Num (Some 0)) (Num (Some 0)))
  /\ desiredTime (mkIso (Num (Some 275760)) (Num (Some 8)) (Num (Some 13))
                        (Num (Some 0)) (Num (Some 0))) = Some maxTime
  /\ guessTime (parts_of Reference.host "en-US"
                  (numericOptions "Asia/Kolkata") maxTime) = None
  /\ localStringToDate Reference.host "275760-09-13T00:00" "Asia/Kolkata"
     = Throw RangeError
  /\ localStringToDate Reference.host "0050-01-01T10:00" "UTC"
     = Ok (Some (mkDate (Some (-631116000000))))
  /\ isoString (-631116000000) = "1950-01-01T10:00".
Proof. repeat split; reflexivity. Qed.

(** C1 as amended: for a formatter that displays the zones' offsets (the
    parts it gives show the calendar fields of the instant shifted by the
    zone's offset, midnight as hour 0 or as hour 24), a zone [z] it
    resolves whose offsets around the wall clock stay within 14 hours, and
    a wall-clock string [w] of whole minutes that UTC shows at the time [s],
    two days or more after 0100-01-01T00:00Z and before the last time value,
    written with the year padded to four digits or as [dateToLocalString]
    renders it: [localStringToDate] returns the instant of the iteration
    that starts at [s], the wall clock read as UTC; asks at most three times
    for what the zone displays at the provisional instant, read as UTC to
    the minute; stops when that is less than a second from [s]; otherwise
    shifts the provisional instant by the difference; and returns the
    provisional instant it has after the third round. *)
Theorem C1_localStringToDate_follows_algorithm
    (F : Formatter) (off : string -> Z -> Z) (z w : string) (s : Z) :
  displays F off ->
  resolves F z = true ->
  (forall g, Z.abs (g - s) <= maxOffset + msPerMinute ->
             Z.abs (off z g) <= maxOffset) ->
  s mod msPerMinute = 0 ->
  year100 + margin <= s <= maxTime - margin ->
  w = isoString s \/ w = wallString s ->
  localStringToDate F w z
  = Ok (Some (mkDate (Some (Spec.resolveInstant (observed off z) s)))).
Proof.
  intros HD Hr Hb Ws Hs Hw.
  assert (Hc : in_calendar s)
    by (unfold in_calendar, margin, msPerDay in *; lia).
  assert (Hp : exists c, parseIsoLocal w = Some c
                         /\ desiredTime c = Some (minute_floor s)).
  { destruct Hw as [-> | ->];
      [now apply parse_isoString | now apply parse_wallString]. }
  destruct Hp as (c & Hp & Hd). rewrite (minute_floor_whole s Ws) in Hd.
  exact (resolve_parsed F off z w c s (displays_faithful F off HD)
           Hr Hb Hs Hp Hd).
Qed.

(** At 2024-01-15T18:30Z Asia/Kolkata displays midnight, which this host
    shows as hour 24 to the loop. *)
Lemma C1_localStringToDate_witness :
  displays Reference.host24 (offsets Reference.zones2024)
  /\ find_value "hour" (parts_of Reference.host24 "en-US"
                         (numericOptions "Asia/Kolkata") 1705343400000)
     = Some "24"
  /\ isoString 1705343400000 = "2024-01-15T18:30"
  /\ localStringToDate Reference.host24 "2024-01-15T18:30" "Asia/Kolkata"
     = Ok (Some (mkDate (Some 1705323600000))).
Proof.
  assert (HD : displays Reference.host24 (offsets Reference.zones2024))
    by exact (reference_displays Reference.zones2024 true).
  split; [exact HD|]. split; [reflexivity|]. split; [reflexivity|].
  exact (eq_trans
           (C1_localStringToDate_follows_algorithm Reference.host24
              (offsets Reference.zones2024) "Asia/Kolkata"
              "2024-01-15T18:30" 1705343400000 HD eq_refl
              (fun g _ => kolkata_bounded g) eq_refl
              ltac:(vm_compute; split; discriminate)
              (or_introl eq_refl))
           (eq_refl (Ok (Some (mkDate (Some 1705323600000)))))).
Defined.

(** ** C3 *)





(** ** C8 *)

Lemma label_wordCapitals (short offset long : string) :
  Spec.label short offset long = Spec.labelOfWordCapitals short offset long.
Proof. reflexivity. Qed.

(** C8, the claim as stated fails: Etc/GMT+5 has the short name GMT-5, a
    bare offset, and the long name GMT-05:00.  The capital letters of the
    long name are GMT, three letters, so the label would be GMT with the
    offset in parentheses; the component takes only the capital letters that
    begin a word, finds the single letter G, and returns the short name. *)
Lemma C8_inner_capitals_not_taken :
  resolves Reference.host "Etc/GMT+5" = true
  /\ Spec.zoneName Reference.host 1705312800000 "Etc/GMT+5" "short" = "GMT-5"
  /\ Spec.zoneName Reference.host 1705312800000 "Etc/GMT+5" "long"
     = "GMT-05:00"
  /\ Spec.offsetName Reference.host 1705312800000 "Etc/GMT+5" = "GMT-5"
  /\ Spec.capitals "GMT-05:00" = "GMT"
  /\ Spec.labelOfCapitals "GMT-5" "GMT-5" "GMT-05:00" = "GMT (GMT-5)"
  /\ getAbbreviation Reference.host morning "Etc/GMT+5" = "GMT-5"
  /\ getAbbreviation Reference.host morning "Etc/GMT+5"
     <> Spec.labelOfCapitals
          (Spec.zoneName Reference.host 1705312800000 "Etc/GMT+5" "short")
          (Spec.offsetName Reference.host 1705312800000 "Etc/GMT+5")
          (Spec.zoneName Reference.host 1705312800000 "Etc/GMT+5" "long").
Proof.
  repeat (split; [reflexivity|]). vm_compute. discriminate.
Qed.

(** C8 as amended: for every instant and resolvable zone, when the short
    name is a bare offset (GMT or UTC followed by a sign) the abbreviation
    is the acronym of the capital letters that begin a word of the long
    name, accepted only with 2 to 5 letters; otherwise, and when no acronym
    is accepted, it is the short name.  The label is the abbreviation
    followed by the offset string in parentheses, the abbreviation alone
    when the two coincide, and the short name alone, a bare offset, when
    no acronym was accepted. *)
Theorem C8_abbreviation_label (F : Formatter) (t : Z) (zone : string) :
  resolves F zone = true ->
  getAbbreviation F (mkDate (Some t)) zone
  = Spec.labelOfWordCapitals (Spec.zoneName F t zone "short")
      (Spec.offsetName F t zone) (Spec.zoneName F t zone "long").
Proof.
  intros Hr. rewrite (getAbbreviation_resolved F t zone Hr).
  unfold Spec.zoneAbbreviation, Spec.offsetName.
  apply label_wordCapitals.
Qed.

Lemma C8_abbreviation_witness :
  resolves Reference.host "Asia/Kolkata" = true
  /\ Spec.wordCapitals None "India Standard Time" = "IST"
  /\ getAbbreviation Reference.host morning "Asia/Kolkata" = "IST (GMT+5:30)".
Proof.
  assert (Hr : resolves Reference.host "Asia/Kolkata" = true) by reflexivity.
  split; [exact Hr|]. split; [reflexivity|].
  exact (eq_trans
           (C8_abbreviation_label Reference.host 1705312800000
              "Asia/Kolkata" Hr)
           (eq_refl "IST (GMT+5:30)")).
Defined.
